(** * EV charging station: booking allocation, lifecycle and billing

    A shallow embedding of [main.cpp] (classes [EnergySource], [User], [EV],
    [ChargingDock], [Booking], [ChargingStation], [ChargingNetwork] and the
    menu of [main]) together with the properties of the booking engine, of
    the displays and of the report.

    Conventions of the embedding.
    - C++ [int] values are [Z]; no computation of the program comes near the
      wrap-around (counters are bounded by [MAX_BOOKINGS] and [MAX_USERS],
      identifiers are only compared).
    - C++ [float] values are IEEE-754 binary32 numbers, taken from the
      Standard Library's [SpecFloat] at precision 24 and maximal exponent
      128; every operation rounds to nearest-even on its own (no excess
      precision, no fused multiply-add), comparisons with NaN are false.
    - The arrays [users], [vehicles] and [bookings] with their counters
      [userCount], [vehicleCount], [bookingCount] are the lists of their
      first [count] slots; the slots past the counter are never read.
    - [cout] and [notifyUser] are modelled by the list of [Output] events an
      operation returns next to the new state.
    - The process-wide [currentWeather] is an explicit argument of the
      operations that read it and a component of [World]; the stations of
      the network share nothing else, and [World] holds one of them.
      [Main] holds the three stations of the network and the weather, as
      [main] does.

    The file has six parts: the program, the vocabulary of the statements,
    the properties of the model, the claims C1 to C10 with their theorems,
    further properties of the model, and the further results X1 to X24 on
    the registry, the ledger, the displays, the report, the queue and the
    menu. *)

From Stdlib Require Import ZArith List Bool String Lia.
From Stdlib Require Import Floats.SpecFloat.
Import ListNotations.

Open Scope string_scope.
Open Scope list_scope.
Open Scope Z_scope.

(** ** binary32 arithmetic *)

Module F32.

Definition prec : Z := 24.
Definition emax : Z := 128.

Definition t : Type := spec_float.

(** Conversion of an [int] to [float]. *)
Definition of_int (z : Z) : t := binary_normalize prec emax z 0 false.

Definition add : t -> t -> t := SFadd prec emax.
Definition sub : t -> t -> t := SFsub prec emax.
Definition mul : t -> t -> t := SFmul prec emax.
Definition div : t -> t -> t := SFdiv prec emax.

Definition ltb : t -> t -> bool := SFltb.
Definition leb : t -> t -> bool := SFleb.
Definition gtb (x y : t) : bool := SFltb y x.
Definition geb (x y : t) : bool := SFleb y x.

(** The literal [n/d] written in decimal with suffix [f], for instance
    [lit 2 10] for [0.2f]: the binary32 number nearest to the quotient. *)
Definition lit (n d : Z) : t := div (of_int n) (of_int d).

(** A [double] literal [n/d] converted to [float], as in [return 0.9;] from a
    function whose result type is [float]. *)
Definition of_double (x : spec_float) : t :=
  match x with
  | S754_finite s m e => binary_normalize prec emax (if s then Zneg m else Zpos m) e s
  | _ => x
  end.

Definition dlit (n d : Z) : t :=
  of_double (SFdiv 53 1024 (binary_normalize 53 1024 n 0 false)
                           (binary_normalize 53 1024 d 0 false)).

(** [std::min] and [std::max]. *)
Definition min (a b : t) : t := if ltb b a then b else a.
Definition max (a b : t) : t := if ltb a b then b else a.

Definition is_nan (x : t) : bool :=
  match x with S754_nan => true | _ => false end.

End F32.

Declare Scope f32_scope.
Delimit Scope f32_scope with f32.
Notation "x + y" := (F32.add x y) : f32_scope.
Notation "x - y" := (F32.sub x y) : f32_scope.
Notation "x * y" := (F32.mul x y) : f32_scope.
Notation "x / y" := (F32.div x y) : f32_scope.
Notation "x <? y" := (F32.ltb x y) : f32_scope.
Notation "x <=? y" := (F32.leb x y) : f32_scope.
Notation "x >? y" := (F32.gtb x y) : f32_scope.
Notation "x >=? y" := (F32.geb x y) : f32_scope.

(** ** Constants *)

Definition MAX_USERS : Z := 10.
Definition MAX_DOCKS : Z := 5.
Definition MAX_BOOKINGS : Z := 20.

Definition SLOW : Z := 7.
Definition MEDIUM : Z := 22.
Definition FAST : Z := 50.
Definition SOLAR : Z := 7.

Definition PEAK_START : F32.t := F32.of_int 12.
Definition PEAK_END : F32.t := F32.of_int 18.

Definition CO2_GRID_FACTOR : F32.t := F32.dlit 5 10.

Definition f0 : F32.t := F32.of_int 0.
Definition f1 : F32.t := F32.of_int 1.
Definition f2 : F32.t := F32.of_int 2.
Definition f4 : F32.t := F32.of_int 4.
Definition f5 : F32.t := F32.of_int 5.
Definition f20 : F32.t := F32.of_int 20.
Definition f24 : F32.t := F32.of_int 24.
Definition f100 : F32.t := F32.of_int 100.

(** ** Energy sources *)

Inductive WeatherCondition : Type := SUNNY | CLOUDY | NIGHT.

(** The two classes derived from [EnergySource]; virtual dispatch is the
    [match]. *)
Inductive EnergySource : Type := GridPower | SolarPower.

Definition getRateAdjustment (s : EnergySource) : F32.t :=
  match s with
  | GridPower => F32.dlit 1 1
  | SolarPower => F32.dlit 9 10
  end.

Definition getCO2Emission (s : EnergySource) (energy : F32.t) : F32.t :=
  match s with
  | GridPower => (energy * CO2_GRID_FACTOR)%f32
  | SolarPower => F32.dlit 0 1
  end.

Definition getAvailablePower (currentWeather : WeatherCondition)
    (s : EnergySource) (basePower : F32.t) : F32.t :=
  match s with
  | GridPower => basePower
  | SolarPower =>
      match currentWeather with
      | SUNNY => basePower
      | CLOUDY => (basePower * F32.lit 5 10)%f32
      | NIGHT => f0
      end
  end.

Definition getSourceName (s : EnergySource) : string :=
  match s with GridPower => "Grid" | SolarPower => "Solar" end.

(** [dynamic_cast<SolarPower*>(p)] as a condition; a null pointer casts to
    null. *)
Definition isSolarPower (p : option EnergySource) : bool :=
  match p with Some SolarPower => true | _ => false end.

(** ** Records *)

Module User.
Record t : Type := mk {
  userID : Z;
  name : string;
  isRegistered : bool;
  membershipLevel : Z
}.

(** [name] is a buffer of 50 characters: [strncpy] keeps the first 49. *)
Definition registerUser (id : Z) (userName : string) (level : Z) : t :=
  let level := if negb (level =? 0) && negb (level =? 1) then 0 else level in
  mk id (String.substring 0 49 userName) true level.
End User.

Module EV.
Record t : Type := mk {
  vehicleID : Z;
  userID : Z;
  batterySOC : F32.t;
  batteryCapacity : F32.t;
  supportsV2G : bool
}.

Definition registerVehicle (vID uID : Z) (soc capacity : F32.t) (v2g : bool) : t :=
  mk vID uID (F32.max f0 (F32.min f100 soc)) (F32.max f0 capacity) v2g.

Definition set_batterySOC (v : t) (soc : F32.t) : t :=
  mk (vehicleID v) (userID v) soc (batteryCapacity v) (supportsV2G v).

(** [EV::dischargeToGrid]: the vehicle after the call and the returned
    energy. *)
Definition dischargeToGrid (v : t) (energy : F32.t) : t * F32.t :=
  if negb (supportsV2G v) then (v, f0)
  else
    let energyAvailable := ((batterySOC v / f100) * batteryCapacity v)%f32 in
    let energyToDischarge := F32.min energy energyAvailable in
    let soc := (batterySOC v - (energyToDischarge / batteryCapacity v) * f100)%f32 in
    let soc := if (soc <? f0)%f32 then f0 else soc in
    (set_batterySOC v soc, energyToDischarge).
End EV.

Module ChargingDock.
Record t : Type := mk {
  dockID : Z;
  powerRating : Z;
  isOccupied : bool;
  currentVehicleID : Z;
  energySource : option EnergySource
}.

Definition initialize (id rating : Z) (source : EnergySource) : t :=
  mk id rating false (-1) (Some source).

Definition occupy (d : t) (vID : Z) : t :=
  mk (dockID d) (powerRating d) true vID (energySource d).

Definition release (d : t) : t :=
  mk (dockID d) (powerRating d) false (-1) (energySource d).
End ChargingDock.

Module Booking.
Record t : Type := mk {
  bookingID : Z;
  userID : Z;
  vehicleID : Z;
  dockID : Z;
  stationID : Z;
  startTime : F32.t;
  duration : F32.t;
  isActive : bool;
  cost : F32.t;
  energyConsumed : F32.t;
  chargingType : Z
}.

Definition createBooking (bID uID vID dID sID : Z) (time dur : F32.t) (type : Z) : t :=
  mk bID uID vID dID sID time dur true f0 f0 type.

Definition cancelBooking (b : t) : t :=
  mk (bookingID b) (userID b) (vehicleID b) (dockID b) (stationID b)
     (startTime b) (duration b) false (cost b) (energyConsumed b) (chargingType b).

Definition set_energyConsumed (b : t) (e : F32.t) : t :=
  mk (bookingID b) (userID b) (vehicleID b) (dockID b) (stationID b)
     (startTime b) (duration b) (isActive b) (cost b) e (chargingType b).

Definition set_cost (b : t) (c : F32.t) : t :=
  mk (bookingID b) (userID b) (vehicleID b) (dockID b) (stationID b)
     (startTime b) (duration b) (isActive b) c (energyConsumed b) (chargingType b).
End Booking.

(** ** Array helpers: the loops of the program *)

(** [for (i = 0; i < n; i++) if (p(a[i])) { ...; break; }]: the first index
    whose slot satisfies [p], with the slot. *)
Fixpoint findFirst {A : Type} (p : A -> bool) (l : list A) : option (nat * A) :=
  match l with
  | [] => None
  | x :: l' =>
      if p x then Some (O, x)
      else match findFirst p l' with
           | Some (i, y) => Some (S i, y)
           | None => None
           end
  end.

(** [a[i] = x] for [i] inside the array. *)
Fixpoint setAt {A : Type} (i : nat) (x : A) (l : list A) : list A :=
  match l, i with
  | [], _ => []
  | _ :: l', O => x :: l'
  | y :: l', S i' => y :: setAt i' x l'
  end.

(** The loop [if (p(a[i])) { a[i] = f(a[i]); break; }]. *)
Fixpoint updateFirst {A : Type} (p : A -> bool) (f : A -> A) (l : list A) : list A :=
  match l with
  | [] => []
  | x :: l' => if p x then f x :: l' else x :: updateFirst p f l'
  end.

(** ** Output *)

(** What the program writes: a [notifyUser] call with its recipient, message
    and value, or a line on [cout] (with the number it prints, if any). *)
Inductive Output : Type :=
| Notify (userID : Z) (msg : string) (value : F32.t)
| Say (msg : string)
| SayInt (msg : string) (n : Z)
| SayNum (msg : string) (x : F32.t)
| BookingLine (bookingID vehicleID dockID : Z) (startTime duration : F32.t) (status : string).

(** ** The charging station *)

(** The queue [bookingQueue] of the class is not a field here: nothing
    pushes on it, and [processQueue], the one function that reads it, takes
    it as an argument. *)
Record ChargingStation : Type := mkStation {
  docks : list ChargingDock.t;
  users : list User.t;
  vehicles : list EV.t;
  bookings : list Booking.t;
  totalOccupiedTime : list F32.t;
  systemStartTime : F32.t;
  stationID : Z
}.

Definition userCount (st : ChargingStation) : Z := Z.of_nat (List.length (users st)).
Definition vehicleCount (st : ChargingStation) : Z := Z.of_nat (List.length (vehicles st)).
Definition bookingCount (st : ChargingStation) : Z := Z.of_nat (List.length (bookings st)).

Definition set_docks (st : ChargingStation) (ds : list ChargingDock.t) : ChargingStation :=
  mkStation ds (users st) (vehicles st) (bookings st) (totalOccupiedTime st)
            (systemStartTime st) (stationID st).

Definition set_users (st : ChargingStation) (us : list User.t) : ChargingStation :=
  mkStation (docks st) us (vehicles st) (bookings st) (totalOccupiedTime st)
            (systemStartTime st) (stationID st).

Definition set_vehicles (st : ChargingStation) (vs : list EV.t) : ChargingStation :=
  mkStation (docks st) (users st) vs (bookings st) (totalOccupiedTime st)
            (systemStartTime st) (stationID st).

Definition set_bookings (st : ChargingStation) (bs : list Booking.t) : ChargingStation :=
  mkStation (docks st) (users st) (vehicles st) bs (totalOccupiedTime st)
            (systemStartTime st) (stationID st).

Definition set_totalOccupiedTime (st : ChargingStation) (ts : list F32.t) : ChargingStation :=
  mkStation (docks st) (users st) (vehicles st) (bookings st) ts
            (systemStartTime st) (stationID st).

Definition set_systemStartTime (st : ChargingStation) (t0 : F32.t) : ChargingStation :=
  mkStation (docks st) (users st) (vehicles st) (bookings st) (totalOccupiedTime st)
            t0 (stationID st).

(** The constructor [ChargingStation(int sID)]. *)
Definition newStation (sID : Z) : ChargingStation :=
  mkStation
    [ ChargingDock.initialize 1 SLOW GridPower;
      ChargingDock.initialize 2 SLOW SolarPower;
      ChargingDock.initialize 3 MEDIUM GridPower;
      ChargingDock.initialize 4 MEDIUM SolarPower;
      ChargingDock.initialize 5 FAST GridPower ]
    [] [] []
    [f0; f0; f0; f0; f0]
    f0 sID.

Definition registerUser (st : ChargingStation) (id : Z) (name : string) (level : Z)
  : ChargingStation * bool * list Output :=
  if MAX_USERS <=? userCount st then
    (st, false, [Say "Maximum user limit reached!"])
  else if existsb (fun u => User.userID u =? id) (users st) then
    (st, false, [Say "User ID already exists!"])
  else
    (set_users st (users st ++ [User.registerUser id name level]), true,
     [SayInt "User registered successfully! Station ID: " (stationID st)]).

Definition registerVehicle (st : ChargingStation) (vID uID : Z) (soc capacity : F32.t) (v2g : bool)
  : ChargingStation * bool * list Output :=
  if MAX_USERS <=? vehicleCount st then
    (st, false, [Say "Maximum vehicle limit reached!"])
  else if existsb (fun u => (User.userID u =? uID) && User.isRegistered u) (users st) then
    if existsb (fun v => EV.vehicleID v =? vID) (vehicles st) then
      (st, false, [Say "Vehicle ID already exists!"])
    else
      (set_vehicles st (vehicles st ++ [EV.registerVehicle vID uID soc capacity v2g]), true,
       [SayInt "Vehicle registered successfully! Station ID: " (stationID st)])
  else
    (st, false, [Say "User not found!"]).

(** The first loop of [isCriticalBooking], and the same loop in
    [completeBooking]: is there a slot with this user ID at membership
    level 1. *)
Definition isPremium (st : ChargingStation) (uID : Z) : bool :=
  existsb (fun u => (User.userID u =? uID) && (User.membershipLevel u =? 1)) (users st).

Definition isCriticalBooking (st : ChargingStation) (uID vID : Z) : bool :=
  let soc :=
    match findFirst (fun v => EV.vehicleID v =? vID) (vehicles st) with
    | Some (_, v) => EV.batterySOC v
    | None => f0
    end in
  isPremium st uID || (soc <? f20)%f32.

(** The test of [isDockAvailable] on one booking: an active booking of the
    dock whose interval meets the requested one. *)
Definition conflicts (dockID : Z) (startTime duration : F32.t) (b : Booking.t) : bool :=
  Booking.isActive b && (Booking.dockID b =? dockID) &&
  (let bStart := Booking.startTime b in
   let bEnd := (bStart + Booking.duration b)%f32 in
   let newEnd := (startTime + duration)%f32 in
   (startTime <? bEnd)%f32 && (newEnd >? bStart)%f32).

Definition isDockAvailable (st : ChargingStation) (dockID : Z) (startTime duration : F32.t) : bool :=
  if (bookingCount st <? 0) || (MAX_BOOKINGS <? bookingCount st) then false
  else negb (existsb (conflicts dockID startTime duration) (bookings st)).

(** The condition under which [findAvailableDock] pushes a dock on
    [suitableDocks]. *)
Definition suitable (currentWeather : WeatherCondition) (st : ChargingStation)
    (powerRating : Z) (startTime duration : F32.t) (isSolarCharging : bool)
    (d : ChargingDock.t) : bool :=
  match ChargingDock.energySource d with
  | None => false
  | Some src =>
      let availablePower :=
        getAvailablePower currentWeather src (F32.of_int (ChargingDock.powerRating d)) in
      negb (ChargingDock.isOccupied d) &&
      (availablePower >=? F32.of_int powerRating)%f32 &&
      (negb isSolarCharging || isSolarPower (ChargingDock.energySource d)) &&
      isDockAvailable st (ChargingDock.dockID d) startTime duration
  end.

Definition suitableDocks (currentWeather : WeatherCondition) (st : ChargingStation)
    (powerRating : Z) (startTime duration : F32.t) (isSolarCharging : bool) : list Z :=
  map ChargingDock.dockID
      (filter (suitable currentWeather st powerRating startTime duration isSolarCharging)
              (docks st)).

Definition findAvailableDock (currentWeather : WeatherCondition) (st : ChargingStation)
    (powerRating : Z) (startTime duration : F32.t) (isSolarCharging : bool) : Z :=
  let isPeakHour := (startTime >=? PEAK_START)%f32 && (startTime <? PEAK_END)%f32 in
  let suitableDocks :=
    suitableDocks currentWeather st powerRating startTime duration isSolarCharging in
  match suitableDocks with
  | [] => -1
  | first :: _ =>
      if isPeakHour && negb isSolarCharging then
        match
          find (fun dockID =>
                  existsb (fun d => (ChargingDock.dockID d =? dockID) &&
                                    isSolarPower (ChargingDock.energySource d))
                          (docks st))
               suitableDocks
        with
        | Some dockID => dockID
        | None => first
        end
      else first
  end.

Definition getCurrentPowerConsumption (currentWeather : WeatherCondition)
    (st : ChargingStation) : F32.t :=
  fold_left
    (fun totalPower d =>
       match ChargingDock.energySource d with
       | Some src =>
           if ChargingDock.isOccupied d then
             (totalPower + getAvailablePower currentWeather src
                             (F32.of_int (ChargingDock.powerRating d)))%f32
           else totalPower
       | None => totalPower
       end)
    (docks st) f0.

(** The loops [if (docks[i].dockID == dockID) { ...; break; }]. *)
Definition occupyDock (ds : list ChargingDock.t) (dockID vID : Z) : list ChargingDock.t :=
  updateFirst (fun d => ChargingDock.dockID d =? dockID)
              (fun d => ChargingDock.occupy d vID) ds.

Definition releaseDock (ds : list ChargingDock.t) (dockID : Z) : list ChargingDock.t :=
  updateFirst (fun d => ChargingDock.dockID d =? dockID) ChargingDock.release ds.

Definition deferralMsg : string :=
  "Your booking has been deferred due to peak hours. New start time:".

Definition createBooking (currentWeather : WeatherCondition) (st : ChargingStation)
    (uID vID : Z) (startTime duration : F32.t) (powerRating chargingType : Z)
  : ChargingStation * bool * list Output :=
  if (bookingCount st <? 0) || (MAX_BOOKINGS <=? bookingCount st) then
    (st, false, [Say "Maximum booking limit reached or invalid bookingCount!"])
  else if (startTime <? f0)%f32 || (startTime >=? f24)%f32 || (duration <=? f0)%f32 then
    (st, false, [Say "Invalid start time or duration!"])
  else
    let userExists :=
      existsb (fun u => (User.userID u =? uID) && User.isRegistered u) (users st) in
    let vehicleExists :=
      existsb (fun v => (EV.vehicleID v =? vID) && (EV.userID v =? uID)) (vehicles st) in
    if negb userExists || negb vehicleExists then
      (st, false, [Say "User or vehicle not found!"])
    else
      let st := if bookingCount st =? 0 then set_systemStartTime st startTime else st in
      let isPeakHour := (startTime >=? PEAK_START)%f32 && (startTime <? PEAK_END)%f32 in
      let deferred := isPeakHour && negb (isCriticalBooking st uID vID) in
      let adjustedStartTime := if deferred then PEAK_END else startTime in
      let out := if deferred then [Notify uID deferralMsg adjustedStartTime] else [] in
      let isSolarCharging := chargingType =? 4 in
      let dockID :=
        findAvailableDock currentWeather st powerRating adjustedStartTime duration
                          isSolarCharging in
      if dockID =? -1 then
        (st, false, out ++ [Say "No available dock. Booking cannot be created."])
      else
        let b := Booking.createBooking (bookingCount st + 1) uID vID dockID (stationID st)
                                       adjustedStartTime duration chargingType in
        let st := set_docks (set_bookings st (bookings st ++ [b]))
                            (occupyDock (docks st) dockID vID) in
        (st, true,
         out ++ [Notify uID "Upcoming charging session scheduled at:" adjustedStartTime;
                 SayInt "Booking created successfully! Booking ID: " (bookingCount st)]).

Definition cancellationMsg : string := "Booking cancelled. Penalty charged: $".

Definition cancelBooking (st : ChargingStation) (bookingID : Z)
  : ChargingStation * list Output :=
  match findFirst (fun b => (Booking.bookingID b =? bookingID) && Booking.isActive b)
                  (bookings st) with
  | None => (st, [])
  | Some (i, b) =>
      let timeToStart := (Booking.startTime b - systemStartTime st)%f32 in
      let penalty :=
        if (timeToStart <? f1)%f32 then f5
        else if (timeToStart <? f4)%f32 then f2
        else f0 in
      let st := set_bookings st (setAt i (Booking.cancelBooking b) (bookings st)) in
      let st := set_docks st (releaseDock (docks st) (Booking.dockID b)) in
      (st, [Notify (Booking.userID b) cancellationMsg penalty])
  end.

(** The rate of [completeBooking], built in the order of the program. *)
Definition baseRate (chargingType : Z) : F32.t :=
  if chargingType =? 1 then F32.lit 2 10
  else if chargingType =? 2 then F32.lit 3 10
  else if chargingType =? 3 then F32.lit 4 10
  else if chargingType =? 4 then F32.lit 15 100
  else f0.

Definition isPeak (startTime : F32.t) : bool :=
  (startTime >=? PEAK_START)%f32 && (startTime <? PEAK_END)%f32.

Definition ratePerKWh (b : Booking.t) (src : EnergySource) : F32.t :=
  let rate := baseRate (Booking.chargingType b) in
  let rate := if Booking.chargingType b =? 4 then (rate * F32.lit 85 100)%f32 else rate in
  let rate := if isPeak (Booking.startTime b) then (rate * F32.lit 12 10)%f32 else rate in
  (rate * getRateAdjustment src)%f32.

(** The battery update at the end of [completeBooking]. *)
Definition chargeVehicle (energy : F32.t) (v : EV.t) : EV.t :=
  let soc := (EV.batterySOC v + (energy / EV.batteryCapacity v) * f100)%f32 in
  EV.set_batterySOC v (if (soc >? f100)%f32 then f100 else soc).

Definition completeBooking (currentWeather : WeatherCondition) (st : ChargingStation)
    (bookingID : Z) : ChargingStation * list Output :=
  match findFirst (fun b => (Booking.bookingID b =? bookingID) && Booking.isActive b)
                  (bookings st) with
  | None => (st, [])
  | Some (i, b) =>
      let b := Booking.cancelBooking b in
      let st := set_bookings st (setAt i b (bookings st)) in
      let dock := findFirst (fun d => ChargingDock.dockID d =? Booking.dockID b) (docks st) in
      let st := set_docks st (releaseDock (docks st) (Booking.dockID b)) in
      match dock with
      | None => (st, [Say "Error: Invalid dock or energy source!"])
      | Some (dockIndex, d) =>
          match ChargingDock.energySource d with
          | None => (st, [Say "Error: Invalid dock or energy source!"])
          | Some src =>
              let energy :=
                (getAvailablePower currentWeather src (F32.of_int (ChargingDock.powerRating d))
                 * Booking.duration b)%f32 in
              let b := Booking.set_energyConsumed b energy in
              let occupied :=
                (nth dockIndex (totalOccupiedTime st) f0 + Booking.duration b)%f32 in
              let st := set_totalOccupiedTime st (setAt dockIndex occupied (totalOccupiedTime st)) in
              let rate := ratePerKWh b src in
              let cost := (energy * rate)%f32 in
              let cost :=
                if isPremium st (Booking.userID b) then (cost * F32.lit 85 100)%f32 else cost in
              let b := Booking.set_cost b cost in
              let st := set_bookings st (setAt i b (bookings st)) in
              let st :=
                set_vehicles st
                  (updateFirst (fun v => EV.vehicleID v =? Booking.vehicleID b)
                               (chargeVehicle energy) (vehicles st)) in
              (st,
               [ SayInt "Invoice for Booking ID: " bookingID;
                 SayInt "User  ID: " (Booking.userID b);
                 SayInt "Vehicle ID: " (Booking.vehicleID b);
                 SayNum "Energy Consumed: " energy;
                 SayNum "Charging Rate: $" rate;
                 SayNum "Total Cost: $" cost;
                 Notify (Booking.userID b) "Charging session completed. Energy consumed:" energy;
                 Notify (Booking.userID b) "Total cost for the session: $" cost ])
          end
      end
  end.

(** The first figure of [generateReport]. *)
Definition utilization (st : ChargingStation) : F32.t :=
  let latestEndTime :=
    fold_left
      (fun latest b =>
         let endTime := (Booking.startTime b + Booking.duration b)%f32 in
         if (endTime >? latest)%f32 then endTime else latest)
      (bookings st) (systemStartTime st) in
  let totalSystemTime :=
    if bookingCount st >? 0 then (latestEndTime - systemStartTime st)%f32 else f0 in
  let totalOccupied := fold_left F32.add (totalOccupiedTime st) f0 in
  if (totalSystemTime >? f0)%f32 then
    ((totalOccupied / (totalSystemTime * F32.of_int MAX_DOCKS)) * f100)%f32
  else f0.

(** [viewUserBookings]: one line for each booking of the user, with the
    status the program prints for it. *)
Definition statusLabel (b : Booking.t) : string :=
  if Booking.isActive b then "Active" else "Completed".

Definition viewUserBookings (st : ChargingStation) (userID : Z) : list Output :=
  match filter (fun b => Booking.userID b =? userID) (bookings st) with
  | [] => [Say "No bookings found for this user."]
  | found =>
      map (fun b => BookingLine (Booking.bookingID b) (Booking.vehicleID b) (Booking.dockID b)
                                (Booking.startTime b) (Booking.duration b) (statusLabel b))
          found
  end.

(** ** The menu of [main] on one station *)

(** The weather is shared by all stations of the network; the stations have
    no other state in common, so one station and the weather make up the
    state. *)
Record World : Type := mkWorld {
  currentWeather : WeatherCondition;
  station : ChargingStation
}.

Definition initWorld (sID : Z) : World := mkWorld SUNNY (newStation sID).

(** Menu entry 9. *)
Definition dischargeToGrid (st : ChargingStation) (vehicleID : Z) (energy : F32.t)
  : ChargingStation * F32.t * list Output :=
  match findFirst (fun v => EV.vehicleID v =? vehicleID) (vehicles st) with
  | Some (i, v) =>
      let (v', discharged) := EV.dischargeToGrid v energy in
      (set_vehicles st (setAt i v' (vehicles st)), discharged,
       [SayNum "Discharged (kWh) to the grid: " discharged])
  | None => (st, f0, [Say "Vehicle ID not found."])
  end.

(** Menu entry 11. *)
Definition setWeather (w : World) (weather : Z) : World * list Output :=
  if weather =? 0 then (mkWorld SUNNY (station w), [Say "Weather condition updated."])
  else if weather =? 1 then (mkWorld CLOUDY (station w), [Say "Weather condition updated."])
  else if weather =? 2 then (mkWorld NIGHT (station w), [Say "Weather condition updated."])
  else (w, [Say "Invalid weather condition!"]).

(** Menu entry 3: the charging speed chosen fixes the power asked for; an
    unknown speed stops the entry before [createBooking] is called. *)
Definition powerOfChargingType (chargingType : Z) : option Z :=
  if chargingType =? 1 then Some SLOW
  else if chargingType =? 2 then Some MEDIUM
  else if chargingType =? 3 then Some FAST
  else if chargingType =? 4 then Some SOLAR
  else None.

Definition menuCreateBooking (currentWeather : WeatherCondition) (st : ChargingStation)
    (uID vID : Z) (startTime duration : F32.t) (chargingType : Z)
  : ChargingStation * bool * list Output :=
  match powerOfChargingType chargingType with
  | Some powerRating =>
      createBooking currentWeather st uID vID startTime duration powerRating chargingType
  | None => (st, false, [Say "Invalid charging speed!"])
  end.

(** The operations of a station, as the public member functions take them. *)
Inductive Op : Type :=
| RegisterUser (id : Z) (name : string) (level : Z)
| RegisterVehicle (vID uID : Z) (soc capacity : F32.t) (v2g : bool)
| CreateBooking (uID vID : Z) (startTime duration : F32.t) (powerRating chargingType : Z)
| CancelBooking (bookingID : Z)
| CompleteBooking (bookingID : Z)
| DischargeToGrid (vehicleID : Z) (energy : F32.t)
| SetWeather (weather : Z).

Definition step (w : World) (op : Op) : World * list Output :=
  let cw := currentWeather w in
  let st := station w in
  match op with
  | RegisterUser id name level =>
      let '(st', _, out) := registerUser st id name level in (mkWorld cw st', out)
  | RegisterVehicle vID uID soc capacity v2g =>
      let '(st', _, out) := registerVehicle st vID uID soc capacity v2g in (mkWorld cw st', out)
  | CreateBooking uID vID startTime duration powerRating chargingType =>
      let '(st', _, out) :=
        createBooking cw st uID vID startTime duration powerRating chargingType in
      (mkWorld cw st', out)
  | CancelBooking bookingID =>
      let '(st', out) := cancelBooking st bookingID in (mkWorld cw st', out)
  | CompleteBooking bookingID =>
      let '(st', out) := completeBooking cw st bookingID in (mkWorld cw st', out)
  | DischargeToGrid vehicleID energy =>
      let '(st', _, out) := dischargeToGrid st vehicleID energy in (mkWorld cw st', out)
  | SetWeather weather => setWeather w weather
  end.

(** The state after a sequence of operations. *)
Definition run (w : World) (ops : list Op) : World :=
  fold_left (fun w op => fst (step w op)) ops w.

(** ** Scenario of the specification, end to end *)

Definition scenario : list Op :=
  [ RegisterUser 1 "U1" 1;
    RegisterVehicle 1 1 (F32.of_int 50) (F32.of_int 40) false;
    CreateBooking 1 1 (F32.of_int 13) (F32.of_int 2) 22 2;
    CompleteBooking 1 ].

(** ** The queue of requests *)

Module QueuedBooking.
Record t : Type := mk {
  userID : Z;
  vehicleID : Z;
  startTime : F32.t;
  duration : F32.t;
  powerRating : Z;
  chargingType : Z
}.
End QueuedBooking.

(** [processQueue].  The member [bookingQueue], which no other function
    reads or writes, is passed in and handed back.  A turn of the loop pops
    the front request or leaves the loop, so the recursion is on the queue.
    The station handed back is the one [createBooking] left, also when it
    turned the request down. *)
Fixpoint processQueue (currentWeather : WeatherCondition) (st : ChargingStation)
    (bookingQueue : list QueuedBooking.t)
  : ChargingStation * list QueuedBooking.t * list Output :=
  match bookingQueue with
  | [] => (st, [], [])
  | qb :: rest =>
      let '(st', created, out) :=
        createBooking currentWeather st
          (QueuedBooking.userID qb) (QueuedBooking.vehicleID qb)
          (QueuedBooking.startTime qb) (QueuedBooking.duration qb)
          (QueuedBooking.powerRating qb) (QueuedBooking.chargingType qb) in
      if created then
        let '(st'', queue, out') := processQueue currentWeather st' rest in
        (st'', queue, out ++ out')
      else (st', qb :: rest, out)
  end.

(** ** The displays *)

(** A line that ends in a number is given by the text before the number. *)

(** [displayRealTimeData]: the time a session has run, for the clock
    [currentTime], kept between 0 and the duration. *)
Definition elapsedTime (currentTime : F32.t) (b : Booking.t) : F32.t :=
  let elapsedTime := (currentTime - Booking.startTime b)%f32 in
  let elapsedTime := if (elapsedTime <? f0)%f32 then f0 else elapsedTime in
  if (elapsedTime >? Booking.duration b)%f32 then Booking.duration b else elapsedTime.

Definition invalidDockMsg : string := "Error: Invalid dock for booking ".

(** What [displayRealTimeData] prints for one slot of the ledger. *)
Definition realTimeLines (currentWeather : WeatherCondition) (st : ChargingStation)
    (b : Booking.t) : list Output :=
  if Booking.isActive b then
    let currentTime := (systemStartTime st + f1)%f32 in
    let elapsedTime := elapsedTime currentTime b in
    match findFirst (fun d => ChargingDock.dockID d =? Booking.dockID b) (docks st) with
    | None => [SayInt invalidDockMsg (Booking.bookingID b)]
    | Some (_, d) =>
        match ChargingDock.energySource d with
        | None => [SayInt invalidDockMsg (Booking.bookingID b)]
        | Some src =>
            let energySoFar :=
              (getAvailablePower currentWeather src (F32.of_int (ChargingDock.powerRating d))
               * elapsedTime)%f32 in
            let remainingTime := (Booking.duration b - elapsedTime)%f32 in
            [ SayInt "Booking ID: " (Booking.bookingID b);
              SayInt "Vehicle ID: " (Booking.vehicleID b);
              SayNum "Energy Delivered: " energySoFar;
              SayNum "Remaining Time: " remainingTime;
              Say "------------------------" ]
        end
    end
  else [].

Definition displayRealTimeData (currentWeather : WeatherCondition) (st : ChargingStation)
  : list Output :=
  Say "=== Real-Time Charging Data ===" ::
  flat_map (realTimeLines currentWeather st) (bookings st) ++
  (if existsb Booking.isActive (bookings st) then [] else [Say "No active bookings."]).

(** [displayDockStatus]: the table has four columns; a cell is one event,
    a cell that holds a number only has no text before it. *)
Definition nullSourceMsg : string := "Error: Dock ".

Definition dockStatusLines (d : ChargingDock.t) : list Output :=
  match ChargingDock.energySource d with
  | None => [SayInt nullSourceMsg (ChargingDock.dockID d)]
  | Some src =>
      [ SayInt EmptyString (ChargingDock.dockID d);
        SayInt EmptyString (ChargingDock.powerRating d);
        Say (getSourceName src);
        if ChargingDock.isOccupied d
        then SayInt "Occupied (Vehicle ID: " (ChargingDock.currentVehicleID d)
        else Say "Available" ]
  end.

Definition displayDockStatus (st : ChargingStation) : list Output :=
  [ Say "=== Charging Station Dock Status ===";
    Say "Dock ID"; Say "Power (kW)"; Say "Source"; Say "Status";
    Say "-----------------------------------------------------------------" ] ++
  flat_map dockStatusLines (docks st) ++
  [ Say "=====================================" ].

(** ** The report *)

(** The figures of [generateReport] after [utilization], each by the loop
    that computes it. *)
Definition averageDuration (st : ChargingStation) : F32.t :=
  let '(totalDuration, completedBookings) :=
    fold_left
      (fun '(totalDuration, completedBookings) b =>
         if negb (Booking.isActive b)
         then ((totalDuration + Booking.duration b)%f32, completedBookings + 1)
         else (totalDuration, completedBookings))
      (bookings st) (f0, 0) in
  if completedBookings >? 0 then (totalDuration / F32.of_int completedBookings)%f32 else f0.

(** [dynamic_cast<GridPower*>(p)] as a condition. *)
Definition isGridPower (p : option EnergySource) : bool :=
  match p with Some GridPower => true | _ => false end.

(** The loop [if (docks[j].dockID == id && docks[j].energySource != nullptr)
    { ...; break; }]. *)
Definition hasSource (dockID : Z) (d : ChargingDock.t) : bool :=
  (ChargingDock.dockID d =? dockID) &&
  match ChargingDock.energySource d with Some _ => true | None => false end.

Definition energyBySource (st : ChargingStation) : F32.t * F32.t :=
  fold_left
    (fun '(gridEnergy, solarEnergy) b =>
       if negb (Booking.isActive b) then
         match findFirst (hasSource (Booking.dockID b)) (docks st) with
         | Some (_, d) =>
             if isGridPower (ChargingDock.energySource d)
             then ((gridEnergy + Booking.energyConsumed b)%f32, solarEnergy)
             else (gridEnergy, (solarEnergy + Booking.energyConsumed b)%f32)
         | None => (gridEnergy, solarEnergy)
         end
       else (gridEnergy, solarEnergy))
    (bookings st) (f0, f0).

Definition energyRatios (st : ChargingStation) : F32.t * F32.t :=
  let '(gridEnergy, solarEnergy) := energyBySource st in
  let totalEnergy := (gridEnergy + solarEnergy)%f32 in
  (if (totalEnergy >? f0)%f32 then ((gridEnergy / totalEnergy) * f100)%f32 else f0,
   if (totalEnergy >? f0)%f32 then ((solarEnergy / totalEnergy) * f100)%f32 else f0).

Definition demandTrends (st : ChargingStation) : Z * Z :=
  fold_left
    (fun '(regularBookings, premiumBookings) b =>
       match findFirst (fun u => User.userID u =? Booking.userID b) (users st) with
       | Some (_, u) =>
           if User.membershipLevel u =? 0
           then (regularBookings + 1, premiumBookings)
           else (regularBookings, premiumBookings + 1)
       | None => (regularBookings, premiumBookings)
       end)
    (bookings st) (0, 0).

Definition totalRevenue (st : ChargingStation) : F32.t :=
  fold_left
    (fun totalRevenue b =>
       if negb (Booking.isActive b) then (totalRevenue + Booking.cost b)%f32 else totalRevenue)
    (bookings st) f0.

Definition co2Savings (st : ChargingStation) : F32.t :=
  fold_left
    (fun co2Savings b =>
       if negb (Booking.isActive b) then
         match findFirst (hasSource (Booking.dockID b)) (docks st) with
         | Some (_, d) =>
             match ChargingDock.energySource d with
             | Some src => (co2Savings + getCO2Emission src (Booking.energyConsumed b))%f32
             | None => co2Savings
             end
         | None => co2Savings
         end
       else co2Savings)
    (bookings st) f0.

Definition generateReport (st : ChargingStation) : list Output :=
  [ Say "=== Charging Station Analytics Report ===";
    SayNum "Station Utilization: " (utilization st);
    SayNum "Average Session Duration: " (averageDuration st);
    SayNum "Energy Source Ratios: Grid: " (fst (energyRatios st));
    SayNum "%, Solar: " (snd (energyRatios st));
    SayInt "User Demand Trends: Regular Bookings: " (fst (demandTrends st));
    SayInt ", Premium Bookings: " (snd (demandTrends st));
    SayNum "Total Revenue: $" (totalRevenue st);
    SayNum "Environmental Impact: CO2 Savings: " (co2Savings st);
    Say "=====================================" ].

(** ** The network and the menu of [main] *)

Definition MAX_STATIONS : Z := 3.
Definition GRID_CAPACITY : F32.t := F32.dlit 150 1.

Module ChargingNetwork.
Record t : Type := mk { stations : list ChargingStation }.

(** The constructor: slot [i] holds the station of ID [i + 1]. *)
Definition create : t := mk [newStation 1; newStation 2; newStation 3].

(** [getStation] answers a reference to a slot of [stations]: here the
    index of the slot, with the warning it prints. *)
Definition getStation (stationID : Z) : nat * list Output :=
  if (stationID <? 1) || (MAX_STATIONS <? stationID)
  then (O, [Say "Invalid station ID! Defaulting to Station 1."])
  else (Z.to_nat (stationID - 1), []).
End ChargingNetwork.

(** The state of [main]: the global [currentWeather] and the network. *)
Record Main : Type := mkMain {
  weatherNow : WeatherCondition;
  network : ChargingNetwork.t
}.

Definition initMain : Main := mkMain SUNNY ChargingNetwork.create.

(** The entries of the menu with the values [main] reads for them; [Other]
    is a choice outside 1 to 12.  The prompts are left out of the
    output. *)
Inductive Choice : Type :=
| Choice1 (stationID userID : Z) (name : string) (membershipLevel : Z)
| Choice2 (stationID vehicleID userID : Z) (soc capacity : F32.t) (v2g : bool)
| Choice3 (stationID userID vehicleID : Z) (startTime duration : F32.t) (chargingType : Z)
| Choice4 (stationID bookingID : Z)
| Choice5 (stationID : Z)
| Choice6 (stationID : Z)
| Choice7 (stationID : Z)
| Choice8 (stationID bookingID : Z)
| Choice9 (stationID vehicleID : Z) (dischargeEnergy : F32.t)
| Choice10 (stationID userID : Z)
| Choice11 (weather : Z)
| Choice12
| Other (choice : Z).

(** [network.getStation(stationID).f(...)]: the warning of [getStation],
    then what [f] prints; [f] works on the slot in place.  The array has
    [MAX_STATIONS] slots, so the slot is there. *)
Definition onStation (m : Main) (stationID : Z)
    (f : ChargingStation -> ChargingStation * list Output) : Main * list Output :=
  let (i, warning) := ChargingNetwork.getStation stationID in
  match nth_error (ChargingNetwork.stations (network m)) i with
  | Some st =>
      let (st', out) := f st in
      (mkMain (weatherNow m)
              (ChargingNetwork.mk (setAt i st' (ChargingNetwork.stations (network m)))),
       warning ++ out)
  | None => (m, warning)
  end.

(** The body of the [switch] of [main]; entry 12 leaves the loop before
    the [switch], which has no case for it. *)
Definition menu (m : Main) (c : Choice) : Main * list Output :=
  match c with
  | Choice1 stationID userID name membershipLevel =>
      onStation m stationID
        (fun st => let '(st', _, out) := registerUser st userID name membershipLevel in
                   (st', out))
  | Choice2 stationID vehicleID userID soc capacity v2g =>
      onStation m stationID
        (fun st => let '(st', _, out) := registerVehicle st vehicleID userID soc capacity v2g in
                   (st', out))
  | Choice3 stationID userID vehicleID startTime duration chargingType =>
      match powerOfChargingType chargingType with
      | Some powerRating =>
          onStation m stationID
            (fun st => let '(st', _, out) :=
                         createBooking (weatherNow m) st userID vehicleID startTime duration
                                       powerRating chargingType in
                       (st', out))
      | None => (m, [Say "Invalid charging speed!"])
      end
  | Choice4 stationID bookingID =>
      onStation m stationID (fun st => completeBooking (weatherNow m) st bookingID)
  | Choice5 stationID =>
      onStation m stationID (fun st => (st, displayDockStatus st))
  | Choice6 stationID =>
      onStation m stationID (fun st => (st, generateReport st))
  | Choice7 stationID =>
      onStation m stationID (fun st => (st, displayRealTimeData (weatherNow m) st))
  | Choice8 stationID bookingID =>
      onStation m stationID (fun st => cancelBooking st bookingID)
  | Choice9 stationID vehicleID dischargeEnergy =>
      onStation m stationID
        (fun st => let '(st', _, out) := dischargeToGrid st vehicleID dischargeEnergy in
                   (st', out))
  | Choice10 stationID userID =>
      onStation m stationID (fun st => (st, viewUserBookings st userID))
  | Choice11 code =>
      if code =? 0 then (mkMain SUNNY (network m), [Say "Weather condition updated."])
      else if code =? 1 then (mkMain CLOUDY (network m), [Say "Weather condition updated."])
      else if code =? 2 then (mkMain NIGHT (network m), [Say "Weather condition updated."])
      else (m, [Say "Invalid weather condition!"])
  | Choice12 | Other _ => (m, [Say "Invalid choice!"])
  end.

(** The loop of [main] on the entries read so far: it ends at entry 12. *)
Fixpoint mainLoop (m : Main) (input : list Choice) : Main * list Output :=
  match input with
  | [] => (m, [])
  | Choice12 :: _ => (m, [Say "Thank you for using the EV Charging Station System!"])
  | c :: rest =>
      let (m', out) := menu m c in
      let (m'', out') := mainLoop m' rest in
      (m'', out ++ out')
  end.

(** * Vocabulary of the statements *)

(** ** The request checks *)

(** The three guards at the head of [createBooking], negated: the ledger
    has room, the times are in range, the user is registered and owns the
    vehicle. *)
Definition requestValid (st : ChargingStation) (uID vID : Z) (startTime duration : F32.t) : bool :=
  negb ((bookingCount st <? 0) || (MAX_BOOKINGS <=? bookingCount st)) &&
  negb ((startTime <? f0)%f32 || (startTime >=? f24)%f32 || (duration <=? f0)%f32) &&
  existsb (fun u => (User.userID u =? uID) && User.isRegistered u) (users st) &&
  existsb (fun v => (EV.vehicleID v =? vID) && (EV.userID v =? uID)) (vehicles st).

(** The station once [if (bookingCount == 0) systemStartTime = startTime;]
    has run. *)
Definition anchored (st : ChargingStation) (startTime : F32.t) : ChargingStation :=
  if bookingCount st =? 0 then set_systemStartTime st startTime else st.

Definition isDeferred (st : ChargingStation) (uID vID : Z) (startTime : F32.t) : bool :=
  isPeak startTime && negb (isCriticalBooking st uID vID).

(** [adjustedStartTime] of [createBooking]. *)
Definition effectiveStart (st : ChargingStation) (uID vID : Z) (startTime : F32.t) : F32.t :=
  if isDeferred st uID vID startTime then PEAK_END else startTime.

(** The booking that a successful request appends and the station it
    leaves. *)
Definition newBooking (cw : WeatherCondition) (st : ChargingStation)
    (uID vID : Z) (s d : F32.t) (p t : Z) : Booking.t :=
  let st0 := anchored st s in
  let adjusted := effectiveStart st uID vID s in
  Booking.createBooking (bookingCount st0 + 1) uID vID
    (findAvailableDock cw st0 p adjusted d (t =? 4)) (stationID st0) adjusted d t.

Definition booked (cw : WeatherCondition) (st : ChargingStation)
    (uID vID : Z) (s d : F32.t) (p t : Z) : ChargingStation :=
  let st0 := anchored st s in
  let b := newBooking cw st uID vID s d p t in
  set_docks (set_bookings st0 (bookings st0 ++ [b]))
            (occupyDock (docks st0) (Booking.dockID b) vID).

(** ** Looking up bookings and docks *)

(** The test of the loops of [cancelBooking] and [completeBooking]: an
    active booking that carries the ID. *)
Definition isActiveBooking (bookingID : Z) (b : Booking.t) : bool :=
  (Booking.bookingID b =? bookingID) && Booking.isActive b.

Definition isDock (dockID : Z) (d : ChargingDock.t) : bool :=
  ChargingDock.dockID d =? dockID.

(** The dock an ID stands for: the first slot of [docks] with this ID. *)
Definition dockOf (st : ChargingStation) (dockID : Z) : option ChargingDock.t :=
  match findFirst (isDock dockID) (docks st) with
  | Some (_, d) => Some d
  | None => None
  end.

(** ** Invariants of the reachable states *)

(** What the operations never change in a dock. *)
Definition dockStatic (d : ChargingDock.t) : Z * Z * option EnergySource :=
  (ChargingDock.dockID d, ChargingDock.powerRating d, ChargingDock.energySource d).

(** The five docks of the constructor. *)
Definition stationLayout : list (Z * Z * option EnergySource) :=
  [ (1, SLOW, Some GridPower); (2, SLOW, Some SolarPower); (3, MEDIUM, Some GridPower);
    (4, MEDIUM, Some SolarPower); (5, FAST, Some GridPower) ].

(** The dock of a booking is one of the five, and a Solar one for charging
    type 4. *)
Definition bookingOnDock (b : Booking.t) : bool :=
  (1 <=? Booking.dockID b) && (Booking.dockID b <=? 5) &&
  (negb (Booking.chargingType b =? 4) ||
   (Booking.dockID b =? 2) || (Booking.dockID b =? 4)).

(** The IDs [1 .. n]. *)
Definition idRange (n : nat) : list Z := map (fun i => Z.of_nat i + 1) (seq 0 n).

(** The docks are those of the constructor; the booking of slot [i] has ID
    [i + 1]; the ledger holds at most [MAX_BOOKINGS] bookings, each on one
    of the docks; user IDs and vehicle IDs are not repeated. *)
Record Inv (st : ChargingStation) : Prop := {
  inv_layout : map dockStatic (docks st) = stationLayout;
  inv_ids : map Booking.bookingID (bookings st) = idRange (List.length (bookings st));
  inv_cap : (List.length (bookings st) <= 20)%nat;
  inv_docks : Forall (fun b => bookingOnDock b = true) (bookings st);
  inv_users : NoDup (map User.userID (users st));
  inv_vehicles : NoDup (map EV.vehicleID (vehicles st));
  inv_total : List.length (totalOccupiedTime st) = 5%nat
}.

(** Every active booking has its dock flagged occupied, and no dock carries
    two active bookings. *)
Definition Occupancy (st : ChargingStation) : Prop :=
  (forall i b, nth_error (bookings st) i = Some b -> Booking.isActive b = true ->
               exists dk, dockOf st (Booking.dockID b) = Some dk /\
                          ChargingDock.isOccupied dk = true) /\
  (forall i j b1 b2, i <> j ->
     nth_error (bookings st) i = Some b1 -> nth_error (bookings st) j = Some b2 ->
     Booking.isActive b1 = true -> Booking.isActive b2 = true ->
     Booking.dockID b1 <> Booking.dockID b2).

(** The ID has been handed out and no active booking carries it. *)
Definition settled (st : ChargingStation) (id : Z) : Prop :=
  1 <= id <= bookingCount st /\
  forall i b, nth_error (bookings st) i = Some b -> Booking.bookingID b = id ->
              Booking.isActive b = false.

(** An operation as the menu of [main] issues it: the power asked for is
    the one of the charging speed chosen. *)
Definition fromMenu (op : Op) : Prop :=
  match op with
  | CreateBooking _ _ _ _ powerRating chargingType =>
      powerOfChargingType chargingType = Some powerRating
  | _ => True
  end.

(** The bookings of charging type 3 (Fast) are on dock 5. *)
Definition FastOnDock5 (st : ChargingStation) : Prop :=
  Forall (fun b => Booking.chargingType b = 3 -> Booking.dockID b = 5) (bookings st).

(** ** Overlap *)

(** The half-open intervals [[s1, s1+d1)] and [[s2, s2+d2)] meet. *)
Definition overlap (b1 b2 : Booking.t) : bool :=
  (Booking.startTime b1 <? Booking.startTime b2 + Booking.duration b2)%f32 &&
  (Booking.startTime b2 <? Booking.startTime b1 + Booking.duration b1)%f32.

(** No two distinct active bookings of one dock overlap. *)
Definition NoOverlap (st : ChargingStation) : Prop :=
  forall i j b1 b2,
    i <> j ->
    nth_error (bookings st) i = Some b1 ->
    nth_error (bookings st) j = Some b2 ->
    Booking.isActive b1 = true -> Booking.isActive b2 = true ->
    Booking.dockID b1 = Booking.dockID b2 ->
    overlap b1 b2 = false.

(** A checker for [NoOverlap] on a given ledger. *)
Definition clash (b1 b2 : Booking.t) : bool :=
  Booking.isActive b1 && Booking.isActive b2 &&
  (Booking.dockID b1 =? Booking.dockID b2) && overlap b1 b2.

Fixpoint noOverlapb (bs : list Booking.t) : bool :=
  match bs with
  | [] => true
  | b :: bs' => forallb (fun b2 => negb (clash b b2)) bs' && noOverlapb bs'
  end.

(** A ledger [bs'] whose slots keep the ID, the dock, the charging type and
    the interval of those of [bs] and are active only where [bs] is. *)
Definition fades (bs bs' : list Booking.t) : Prop :=
  forall j b', nth_error bs' j = Some b' ->
    exists b, nth_error bs j = Some b /\
              Booking.bookingID b' = Booking.bookingID b /\
              Booking.dockID b' = Booking.dockID b /\
              Booking.chargingType b' = Booking.chargingType b /\
              Booking.startTime b' = Booking.startTime b /\
              Booking.duration b' = Booking.duration b /\
              (Booking.isActive b' = true -> Booking.isActive b = true).

(** ** Cancellation and billing *)

(** The flat penalty of [cancelBooking] for a booking that starts
    [timeToStart] hours after the anchor. *)
Definition penaltyFor (timeToStart : F32.t) : F32.t :=
  if (timeToStart <? f1)%f32 then f5
  else if (timeToStart <? f4)%f32 then f2
  else f0.

(** The booking as [completeBooking] leaves it. *)
Definition billed (b : Booking.t) (energy cost : F32.t) : Booking.t :=
  Booking.set_cost (Booking.set_energyConsumed (Booking.cancelBooking b) energy) cost.

Definition billedEnergy (cw : WeatherCondition) (dk : ChargingDock.t) (src : EnergySource)
    (b : Booking.t) : F32.t :=
  (getAvailablePower cw src (F32.of_int (ChargingDock.powerRating dk)) * Booking.duration b)%f32.

Definition billedCost (cw : WeatherCondition) (st : ChargingStation) (dk : ChargingDock.t)
    (src : EnergySource) (b : Booking.t) : F32.t :=
  let cost := (billedEnergy cw dk src b * ratePerKWh b src)%f32 in
  if isPremium st (Booking.userID b) then (cost * F32.lit 85 100)%f32 else cost.

(** ** Sessions used as examples *)

(** A user who is not Premium and one vehicle, half charged. *)
Definition oneVehicle : list Op :=
  [ RegisterUser 1 "U1" 0;
    RegisterVehicle 1 1 (F32.of_int 50) (F32.of_int 40) true ].

Definition regularUser : User.t := User.mk 1 "U1" true 0.
Definition halfCharged : EV.t := EV.mk 1 1 (F32.of_int 50) (F32.of_int 40) true.

(** Two vehicles booked over the same hours: docks 1 and 2. *)
Definition twoBookings : list Op :=
  [ RegisterUser 1 "U1" 0;
    RegisterVehicle 1 1 (F32.of_int 50) (F32.of_int 40) true;
    RegisterVehicle 2 1 (F32.of_int 60) (F32.of_int 40) false;
    CreateBooking 1 1 (F32.of_int 9) (F32.of_int 2) 7 1;
    CreateBooking 1 2 (F32.of_int 10) (F32.of_int 2) 7 1 ].

(** The anchor is 10.0; the second booking starts at 10.5. *)
Definition lateSession : list Op :=
  [ RegisterUser 1 "U1" 0;
    RegisterVehicle 1 1 (F32.of_int 50) (F32.of_int 40) true;
    RegisterVehicle 2 1 (F32.of_int 60) (F32.of_int 40) false;
    CreateBooking 1 1 (F32.of_int 10) (F32.of_int 2) 7 1;
    CreateBooking 1 2 (F32.lit 105 10) (F32.of_int 1) 7 1 ].

Definition lateBooking : Booking.t :=
  Booking.createBooking 2 1 2 2 1 (F32.lit 105 10) (F32.of_int 1) 1.

(** A Premium user charges a vehicle on Solar at 13:00. *)
Definition solarAtPeak : list Op :=
  [ RegisterUser 1 "U1" 1;
    RegisterVehicle 1 1 (F32.of_int 50) (F32.of_int 40) false;
    CreateBooking 1 1 (F32.of_int 13) (F32.of_int 2) 7 4 ].

Definition solarPeakBooking : Booking.t :=
  Booking.createBooking 1 1 1 2 1 (F32.of_int 13) (F32.of_int 2) 4.

(** Dock 1 is taken at 9:00; a second request, of charging type 3 (Fast)
    with power 7, lands on the Solar dock 2. *)
Definition fastOnSolar : list Op :=
  [ RegisterUser 1 "U1" 0;
    RegisterVehicle 1 1 (F32.of_int 50) (F32.of_int 40) false;
    RegisterVehicle 2 1 (F32.of_int 50) (F32.of_int 40) false;
    CreateBooking 1 1 (F32.of_int 9) (F32.of_int 1) 7 1;
    CreateBooking 1 2 (F32.of_int 9) (F32.of_int 1) 7 3 ].

(** One booking, on dock 1 from 8:00 to 9:00. *)
Definition morningBooking : list Op :=
  [ RegisterUser 1 "U1" 0;
    RegisterVehicle 1 1 (F32.of_int 50) (F32.of_int 40) false;
    CreateBooking 1 1 (F32.of_int 8) (F32.of_int 1) 7 1 ].

(** A user, a vehicle, and night: no Solar dock delivers power. *)
Definition nightRequest : list Op :=
  [ RegisterUser 1 "U1" 0;
    RegisterVehicle 1 1 (F32.of_int 50) (F32.of_int 40) false;
    SetWeather 2 ].

(** ** The registry and the ledger *)

(** A user as [registerUser] leaves it. *)
Definition userOk (u : User.t) : Prop :=
  User.isRegistered u = true /\
  (User.membershipLevel u = 0 \/ User.membershipLevel u = 1) /\
  (String.length (User.name u) <= 49)%nat.

(** What no operation changes in a vehicle, and in a booking. *)
Definition vehicleStatic (v : EV.t) : Z * Z * F32.t * bool :=
  (EV.vehicleID v, EV.userID v, EV.batteryCapacity v, EV.supportsV2G v).

Definition bookingStatic (b : Booking.t) : Z * Z * Z * Z * Z * F32.t * F32.t * Z :=
  (Booking.bookingID b, Booking.userID b, Booking.vehicleID b, Booking.dockID b,
   Booking.stationID b, Booking.startTime b, Booking.duration b, Booking.chargingType b).

(** The owner of the vehicle is a user of the station and the capacity is
    not below 0. *)
Definition vehicleOk (us : list User.t) (v : EV.t) : Prop :=
  (exists u, In u us /\ User.userID u = EV.userID v) /\
  (f0 <=? EV.batteryCapacity v)%f32 = true.

(** The times [createBooking] lets through: a start in [[0, 24)] and a
    duration above 0. *)
Definition validTimes (startTime duration : F32.t) : bool :=
  negb (startTime <? f0)%f32 && negb (startTime >=? f24)%f32 && negb (duration <=? f0)%f32.

(** The booking is for a user of the station and a vehicle of this user,
    carries the ID of the station and has valid times. *)
Definition bookingOk (st : ChargingStation) (b : Booking.t) : Prop :=
  (exists u, In u (users st) /\ User.userID u = Booking.userID b) /\
  (exists v, In v (vehicles st) /\ EV.vehicleID v = Booking.vehicleID b /\
             EV.userID v = Booking.userID b) /\
  Booking.stationID b = stationID st /\
  validTimes (Booking.startTime b) (Booking.duration b) = true.

Record Registry (st : ChargingStation) : Prop := {
  reg_users_cap : (List.length (users st) <= 10)%nat;
  reg_users : Forall userOk (users st);
  reg_vehicles_cap : (List.length (vehicles st) <= 10)%nat;
  reg_vehicles : Forall (vehicleOk (users st)) (vehicles st);
  reg_bookings : Forall (bookingOk st) (bookings st)
}.

(** The flags of the docks read against the ledger: an occupied dock
    carries an active booking, for the vehicle the dock names; a free dock
    names no vehicle. *)
Definition DockLedger (st : ChargingStation) : Prop :=
  forall dk, In dk (docks st) ->
    if ChargingDock.isOccupied dk then
      exists i b, nth_error (bookings st) i = Some b /\ Booking.isActive b = true /\
                  Booking.dockID b = ChargingDock.dockID dk /\
                  Booking.vehicleID b = ChargingDock.currentVehicleID dk
    else ChargingDock.currentVehicleID dk = -1.

(** The number of active bookings and of occupied docks. *)
Definition activeBookings (st : ChargingStation) : list Booking.t :=
  filter Booking.isActive (bookings st).

Definition occupiedDocks (st : ChargingStation) : list ChargingDock.t :=
  filter ChargingDock.isOccupied (docks st).

(** The bookings that are no longer active: completed or cancelled. *)
Definition closedBookings (st : ChargingStation) : list Booking.t :=
  filter (fun b => negb (Booking.isActive b)) (bookings st).

(** The active booking of a dock, if there is one. *)
Definition activeOn (st : ChargingStation) (dockID : Z) : option Booking.t :=
  find (fun b => Booking.isActive b && (Booking.dockID b =? dockID)) (bookings st).

(** The docks 2 and 4, which the constructor binds to [SolarPower]. *)
Definition isSolarDock (dockID : Z) : bool := (dockID =? 2) || (dockID =? 4).

(** The rating of the dock of an ID, as the constructor sets it. *)
Definition ratingOf (dockID : Z) : Z :=
  if dockID <=? 2 then SLOW else if dockID <=? 4 then MEDIUM else FAST.

(** The dock of the booking is rated for the power of its charging
    speed. *)
Definition ratedFor (b : Booking.t) : bool :=
  match powerOfChargingType (Booking.chargingType b) with
  | Some powerRating => powerRating <=? ratingOf (Booking.dockID b)
  | None => false
  end.

(** ** The menu and the stations *)

(** The station an ID stands for in [getStation]. *)
Definition addressed (stationID : Z) : Z :=
  if (stationID <? 1) || (MAX_STATIONS <? stationID) then 1 else stationID.

(** The operations an entry of the menu amounts to at station [k]: the
    member function it calls when it is addressed to [k], the change of
    weather at every station, nothing otherwise. *)
Definition opsOf (k : Z) (c : Choice) : list Op :=
  let at_ (stationID : Z) (op : Op) := if addressed stationID =? k then [op] else [] in
  match c with
  | Choice1 stationID userID name membershipLevel =>
      at_ stationID (RegisterUser userID name membershipLevel)
  | Choice2 stationID vehicleID userID soc capacity v2g =>
      at_ stationID (RegisterVehicle vehicleID userID soc capacity v2g)
  | Choice3 stationID userID vehicleID startTime duration chargingType =>
      match powerOfChargingType chargingType with
      | Some powerRating =>
          at_ stationID (CreateBooking userID vehicleID startTime duration powerRating chargingType)
      | None => []
      end
  | Choice4 stationID bookingID => at_ stationID (CompleteBooking bookingID)
  | Choice8 stationID bookingID => at_ stationID (CancelBooking bookingID)
  | Choice9 stationID vehicleID dischargeEnergy =>
      at_ stationID (DischargeToGrid vehicleID dischargeEnergy)
  | Choice11 code => [SetWeather code]
  | _ => []
  end.

Fixpoint sessionOps (k : Z) (input : list Choice) : list Op :=
  match input with
  | [] => []
  | Choice12 :: _ => []
  | c :: rest => opsOf k c ++ sessionOps k rest
  end.

(** The station of ID [k] in the network. *)
Definition stationOf (m : Main) (k : Z) : option ChargingStation :=
  nth_error (ChargingNetwork.stations (network m)) (Z.to_nat (k - 1)).

(** ** More sessions used as examples *)

(** Five vehicles of one user, booked for five different hours of the
    morning: each booking takes the next dock. *)
Definition fiveBookings : list Op :=
  [ RegisterUser 1 "U1" 0;
    RegisterVehicle 1 1 (F32.of_int 50) (F32.of_int 40) false;
    RegisterVehicle 2 1 (F32.of_int 50) (F32.of_int 40) false;
    RegisterVehicle 3 1 (F32.of_int 50) (F32.of_int 40) false;
    RegisterVehicle 4 1 (F32.of_int 50) (F32.of_int 40) false;
    RegisterVehicle 5 1 (F32.of_int 50) (F32.of_int 40) false;
    CreateBooking 1 1 (F32.of_int 6) (F32.of_int 1) 7 1;
    CreateBooking 1 2 (F32.of_int 7) (F32.of_int 1) 7 1;
    CreateBooking 1 3 (F32.of_int 8) (F32.of_int 1) 7 1;
    CreateBooking 1 4 (F32.of_int 9) (F32.of_int 1) 7 1;
    CreateBooking 1 5 (F32.of_int 10) (F32.of_int 1) 7 1 ].

(** * Properties of the model *)

(** The proofs compute with binary32 numbers by [vm_compute] only. *)
Arguments F32.add : simpl never.
Arguments F32.sub : simpl never.
Arguments F32.mul : simpl never.
Arguments F32.div : simpl never.
Arguments F32.ltb : simpl never.
Arguments F32.leb : simpl never.
Arguments F32.gtb : simpl never.
Arguments F32.geb : simpl never.
Arguments F32.of_int : simpl never.
Arguments F32.lit : simpl never.
Arguments F32.dlit : simpl never.

(** ** The loops *)

Section Loops.
Context {A : Type}.
Variable p : A -> bool.

Lemma findFirst_Some (l : list A) (i : nat) (x : A) :
  findFirst p l = Some (i, x) ->
  nth_error l i = Some x /\ p x = true /\
  forall j y, (j < i)%nat -> nth_error l j = Some y -> p y = false.
Proof.
  revert i; induction l as [|a l IH]; intros i H; simpl in H; [discriminate|].
  destruct (p a) eqn:Hp.
  - inversion H; subst; simpl; repeat split; auto; intros; lia.
  - destruct (findFirst p l) as [[k y]|] eqn:Hf; [|discriminate].
    inversion H; subst; clear H.
    destruct (IH k eq_refl) as (H1 & H2 & H3).
    simpl; repeat split; auto.
    intros [|j] z Hlt Hz; simpl in Hz.
    + inversion Hz; subst; assumption.
    + apply (H3 j); [lia|assumption].
Qed.

Lemma findFirst_None (l : list A) :
  findFirst p l = None <-> forall x, In x l -> p x = false.
Proof.
  induction l as [|a l IH]; simpl.
  - split; [intros _ x []|reflexivity].
  - destruct (p a) eqn:Hp.
    + split; [discriminate|]. intros H. rewrite (H a) in Hp; [discriminate|auto].
    + destruct (findFirst p l) as [[k y]|].
      * split; [discriminate|]. intros H.
        assert (Hn : Some (k, y) = None); [|discriminate].
        apply IH. intros x Hx; apply H; auto.
      * split; [|reflexivity]. intros _ x [<-|Hx]; [assumption|].
        apply IH; auto.
Qed.

Lemma findFirst_In (l : list A) (x : A) :
  In x l -> p x = true -> exists i y, findFirst p l = Some (i, y).
Proof.
  intros Hin Hp. destruct (findFirst p l) as [[i y]|] eqn:Hf; [eauto|].
  rewrite findFirst_None in Hf. rewrite (Hf x Hin) in Hp; discriminate.
Qed.

Lemma findFirst_updateFirst (f : A -> A) (l : list A) :
  (forall x, p (f x) = p x) ->
  findFirst p (updateFirst p f l) =
  match findFirst p l with Some (i, x) => Some (i, f x) | None => None end.
Proof.
  intros Hpf. induction l as [|a l IH]; simpl; [reflexivity|].
  destruct (p a) eqn:Hp; simpl.
  - rewrite Hpf, Hp. reflexivity.
  - rewrite Hp, IH. destruct (findFirst p l) as [[k y]|]; reflexivity.
Qed.

End Loops.

Section Arrays.
Context {A : Type}.

Lemma length_setAt (i : nat) (x : A) (l : list A) :
  List.length (setAt i x l) = List.length l.
Proof.
  revert i; induction l as [|a l IH]; intros [|i]; simpl; auto.
Qed.

Lemma nth_error_setAt_eq (i : nat) (x : A) (l : list A) :
  (i < List.length l)%nat -> nth_error (setAt i x l) i = Some x.
Proof.
  revert i; induction l as [|a l IH]; intros [|i] H; simpl in *; try lia; auto.
  apply IH; lia.
Qed.

Lemma nth_error_setAt_ne (i j : nat) (x : A) (l : list A) :
  i <> j -> nth_error (setAt i x l) j = nth_error l j.
Proof.
  revert i j; induction l as [|a l IH]; intros [|i] [|j] H; simpl; auto; try lia.
Qed.

Lemma nth_error_setAt (i j : nat) (x : A) (l : list A) (y : A) :
  nth_error (setAt i x l) j = Some y ->
  (i = j /\ y = x) \/ (i <> j /\ nth_error l j = Some y).
Proof.
  intros H. destruct (Nat.eq_dec i j) as [->|Hne].
  - left. split; [reflexivity|].
    assert (Hlt : (j < List.length l)%nat).
    { rewrite <- (length_setAt j x l). apply nth_error_Some. congruence. }
    rewrite nth_error_setAt_eq in H by assumption. congruence.
  - right. rewrite nth_error_setAt_ne in H by assumption. auto.
Qed.

Lemma map_setAt {B : Type} (g : A -> B) (i : nat) (x y : A) (l : list A) :
  nth_error l i = Some y -> g x = g y -> map g (setAt i x l) = map g l.
Proof.
  revert i; induction l as [|a l IH]; intros [|i] H Hg; simpl in *; try discriminate.
  - inversion H; subst. rewrite Hg; reflexivity.
  - f_equal. apply IH; assumption.
Qed.

Lemma map_updateFirst {B : Type} (g : A -> B) (p : A -> bool) (f : A -> A) (l : list A) :
  (forall x, g (f x) = g x) -> map g (updateFirst p f l) = map g l.
Proof.
  intros Hg. induction l as [|a l IH]; simpl; [reflexivity|].
  destruct (p a); simpl; [rewrite Hg|rewrite IH]; reflexivity.
Qed.

End Arrays.

(** ** The request checks and the dock search *)

Lemma isCriticalBooking_anchored st s uID vID :
  isCriticalBooking (anchored st s) uID vID = isCriticalBooking st uID vID.
Proof. unfold anchored. destruct (bookingCount st =? 0); reflexivity. Qed.

Lemma createBooking_invalid cw st uID vID s d p t :
  requestValid st uID vID s d = false ->
  exists msg, createBooking cw st uID vID s d p t = (st, false, [Say msg]).
Proof.
  unfold requestValid, createBooking. intros H.
  destruct ((bookingCount st <? 0) || (MAX_BOOKINGS <=? bookingCount st)); [eauto|].
  destruct ((s <? f0)%f32 || (s >=? f24)%f32 || (d <=? f0)%f32); [eauto|].
  simpl in H.
  destruct (existsb (fun u => (User.userID u =? uID) && User.isRegistered u) (users st));
    simpl in *; [|eauto].
  rewrite H. simpl. eauto.
Qed.

Lemma createBooking_valid cw st uID vID s d p t :
  requestValid st uID vID s d = true ->
  createBooking cw st uID vID s d p t =
  let st1 := anchored st s in
  let adjusted := effectiveStart st uID vID s in
  let out :=
    if isDeferred st uID vID s then [Notify uID deferralMsg adjusted] else [] in
  let dockID := findAvailableDock cw st1 p adjusted d (t =? 4) in
  if dockID =? -1 then
    (st1, false, out ++ [Say "No available dock. Booking cannot be created."])
  else
    let b := Booking.createBooking (bookingCount st1 + 1) uID vID dockID (stationID st1)
                                   adjusted d t in
    let st2 := set_docks (set_bookings st1 (bookings st1 ++ [b]))
                         (occupyDock (docks st1) dockID vID) in
    (st2, true,
     out ++ [Notify uID "Upcoming charging session scheduled at:" adjusted;
             SayInt "Booking created successfully! Booking ID: " (bookingCount st2)]).
Proof.
  unfold requestValid, createBooking. intros H.
  destruct ((bookingCount st <? 0) || (MAX_BOOKINGS <=? bookingCount st)); [discriminate|].
  destruct ((s <? f0)%f32 || (s >=? f24)%f32 || (d <=? f0)%f32); [discriminate|].
  simpl in H. apply andb_prop in H. destruct H as [Hu Hv]. rewrite Hu, Hv. simpl.
  unfold effectiveStart, isDeferred, isPeak. fold (anchored st s).
  rewrite isCriticalBooking_anchored. reflexivity.
Qed.

Lemma suitableDocks_In cw st p s d sol (id : Z) :
  In id (suitableDocks cw st p s d sol) <->
  exists dock, In dock (docks st) /\ ChargingDock.dockID dock = id /\
               suitable cw st p s d sol dock = true.
Proof.
  unfold suitableDocks. rewrite in_map_iff. split.
  - intros (dock & Hid & Hin). apply filter_In in Hin. destruct Hin. eauto.
  - intros (dock & Hin & Hid & Hs). exists dock. split; [assumption|].
    apply filter_In. auto.
Qed.

Lemma findAvailableDock_spec cw st p s d sol :
  (suitableDocks cw st p s d sol = [] /\ findAvailableDock cw st p s d sol = -1) \/
  In (findAvailableDock cw st p s d sol) (suitableDocks cw st p s d sol).
Proof.
  unfold findAvailableDock.
  destruct (suitableDocks cw st p s d sol) as [|first rest] eqn:Hs; [left; auto|].
  right.
  destruct ((s >=? PEAK_START)%f32 && (s <? PEAK_END)%f32 && negb sol); [|left; reflexivity].
  match goal with |- context [find ?f ?l] => destruct (find f l) as [id|] eqn:Hf end.
  - apply find_some in Hf. apply Hf.
  - left; reflexivity.
Qed.

(** ** Invariants of the reachable states *)

Lemma Inv_newStation sID : Inv (newStation sID).
Proof.
  constructor; simpl; try reflexivity; try lia; constructor.
Qed.

Lemma layout_dock ds dock :
  map dockStatic ds = stationLayout -> In dock ds -> In (dockStatic dock) stationLayout.
Proof. intros <- H. apply in_map. assumption. Qed.

Lemma suitable_bookingOnDock cw st p s d t dockID :
  map dockStatic (docks st) = stationLayout ->
  In dockID (suitableDocks cw st p s d (t =? 4)) ->
  (1 <=? dockID) && (dockID <=? 5) &&
  (negb (t =? 4) || (dockID =? 2) || (dockID =? 4)) = true.
Proof.
  intros Hl Hin. apply suitableDocks_In in Hin. destruct Hin as (dock & Hin & <- & Hs).
  apply (layout_dock _ _ Hl) in Hin. unfold suitable in Hs.
  unfold dockStatic, stationLayout in Hin. simpl in Hin.
  destruct (t =? 4); simpl;
    repeat (destruct Hin as [Hin|Hin]; [inversion Hin as [[H1 H2 H3]]; rewrite <- ?H3 in Hs;
            simpl in Hs; rewrite ?andb_false_r in Hs; simpl in Hs; try discriminate;
            reflexivity|]);
    destruct Hin.
Qed.

Lemma setAt_setAt {A : Type} (i : nat) (x y : A) (l : list A) :
  setAt i x (setAt i y l) = setAt i x l.
Proof.
  revert i; induction l as [|a l IH]; intros [|i]; simpl; auto. f_equal; apply IH.
Qed.

Lemma Forall_setAt {A : Type} (P : A -> Prop) (i : nat) (x : A) (l : list A) :
  Forall P l -> P x -> Forall P (setAt i x l).
Proof.
  intros Hl Hx. revert i; induction Hl as [|a l Ha Hl IH]; intros [|i]; simpl; auto.
Qed.

Lemma NoDup_snoc {A : Type} (l : list A) (a : A) :
  NoDup l -> ~ In a l -> NoDup (l ++ [a]).
Proof.
  intros Hl Ha. apply NoDup_app; [assumption|repeat constructor; auto|].
  intros x Hx [<-|[]]. contradiction.
Qed.

Lemma existsb_false_notin {A : Type} (key : A -> Z) (id : Z) (l : list A) :
  existsb (fun x => key x =? id) l = false -> ~ In id (map key l).
Proof.
  intros H Hin. apply in_map_iff in Hin. destruct Hin as (x & <- & Hx).
  assert (He : existsb (fun y => key y =? key x) l = true).
  { apply existsb_exists. exists x. split; [assumption|apply Z.eqb_refl]. }
  congruence.
Qed.

Lemma idRange_S (n : nat) : idRange (S n) = idRange n ++ [Z.of_nat n + 1].
Proof. unfold idRange. rewrite seq_S, map_app. reflexivity. Qed.

Lemma idRange_nth (n i : nat) (z : Z) :
  nth_error (idRange n) i = Some z -> z = Z.of_nat i + 1.
Proof.
  unfold idRange. rewrite nth_error_map, nth_error_seq.
  destruct (i <? n)%nat; simpl; congruence.
Qed.

(** In a station that satisfies the invariant the booking in slot [i] has
    ID [i + 1]. *)
Lemma Inv_bookingID st i b :
  Inv st -> nth_error (bookings st) i = Some b -> Booking.bookingID b = Z.of_nat i + 1.
Proof.
  intros HI Hb. apply (idRange_nth (List.length (bookings st))).
  rewrite <- (inv_ids _ HI). apply map_nth_error. assumption.
Qed.

(** *** What each operation leaves alone *)

Lemma Inv_registerUser st id name level :
  Inv st -> Inv (fst (fst (registerUser st id name level))).
Proof.
  intros HI. unfold registerUser.
  destruct (MAX_USERS <=? userCount st); [assumption|].
  destruct (existsb (fun u => User.userID u =? id) (users st)) eqn:He; [assumption|].
  destruct HI. constructor; simpl; try assumption.
  rewrite map_app. apply NoDup_snoc; [assumption|].
  apply existsb_false_notin. assumption.
Qed.

Lemma Inv_registerVehicle st vID uID soc capacity v2g :
  Inv st -> Inv (fst (fst (registerVehicle st vID uID soc capacity v2g))).
Proof.
  intros HI. unfold registerVehicle.
  destruct (MAX_USERS <=? vehicleCount st); [assumption|].
  destruct (existsb _ (users st)); [|assumption].
  destruct (existsb (fun v => EV.vehicleID v =? vID) (vehicles st)) eqn:He; [assumption|].
  destruct HI. constructor; simpl; try assumption.
  rewrite map_app. apply NoDup_snoc; [assumption|].
  apply existsb_false_notin. assumption.
Qed.

Lemma Inv_anchored st s : Inv st -> Inv (anchored st s).
Proof.
  intros HI. unfold anchored. destruct (bookingCount st =? 0); [|assumption].
  destruct HI. constructor; assumption.
Qed.

Lemma requestValid_room st uID vID s d :
  requestValid st uID vID s d = true -> (List.length (bookings st) < 20)%nat.
Proof.
  unfold requestValid, bookingCount, MAX_BOOKINGS. intros H.
  repeat (apply andb_prop in H; destruct H as [H ?]).
  apply negb_true_iff, orb_false_iff in H. destruct H as [_ H].
  apply Z.leb_gt in H. lia.
Qed.

Lemma bookings_anchored st s : bookings (anchored st s) = bookings st.
Proof. unfold anchored. destruct (bookingCount st =? 0); reflexivity. Qed.

Lemma Inv_createBooking cw st uID vID s d p t :
  Inv st -> Inv (fst (fst (createBooking cw st uID vID s d p t))).
Proof.
  intros HI. destruct (requestValid st uID vID s d) eqn:Hv.
  - rewrite createBooking_valid by assumption. cbv zeta.
    pose proof (requestValid_room _ _ _ _ _ Hv) as Hroom.
    pose proof (Inv_anchored _ s HI) as HA.
    set (st1 := anchored st s) in *.
    set (adj := effectiveStart st uID vID s).
    destruct (findAvailableDock_spec cw st1 p adj d (t =? 4)) as [[_ Hnone]|Hin].
    + rewrite Hnone. simpl. assumption.
    + pose proof (suitable_bookingOnDock _ _ _ _ _ _ _ (inv_layout _ HA) Hin) as Hok.
      set (dockID := findAvailableDock cw st1 p adj d (t =? 4)) in *.
      destruct (dockID =? -1) eqn:He.
      { simpl. assumption. }
      assert (Hb : bookings st1 = bookings st) by apply bookings_anchored.
      destruct HA. constructor; simpl.
      * unfold occupyDock. rewrite map_updateFirst; [assumption|reflexivity].
      * rewrite map_app, length_app. simpl. rewrite Nat.add_1_r, idRange_S.
        unfold bookingCount. congruence.
      * rewrite length_app, Hb. simpl. lia.
      * apply Forall_app. split; [assumption|]. constructor; [|constructor].
        unfold bookingOnDock. simpl. assumption.
      * assumption.
      * assumption.
      * assumption.
  - destruct (createBooking_invalid cw _ _ _ _ _ p t Hv) as [msg ->]. assumption.
Qed.

Lemma Inv_cancelBooking st id : Inv st -> Inv (fst (cancelBooking st id)).
Proof.
  intros HI. unfold cancelBooking.
  destruct (findFirst _ (bookings st)) as [[i b]|] eqn:Hf; [|assumption].
  apply findFirst_Some in Hf. destruct Hf as (Hn & _ & _).
  destruct HI. constructor; simpl; try assumption.
  - unfold releaseDock. rewrite map_updateFirst; [assumption|reflexivity].
  - rewrite length_setAt. erewrite map_setAt; [assumption|eassumption|reflexivity].
  - rewrite length_setAt. assumption.
  - apply Forall_setAt; [assumption|].
    rewrite Forall_forall in inv_docks0. apply (inv_docks0 b).
    eapply nth_error_In; eassumption.
Qed.

Lemma Inv_completeBooking cw st id : Inv st -> Inv (fst (completeBooking cw st id)).
Proof.
  intros HI. unfold completeBooking.
  destruct (findFirst _ (bookings st)) as [[i b]|] eqn:Hf; [|assumption].
  apply findFirst_Some in Hf. destruct Hf as (Hn & _ & _).
  assert (Hon : bookingOnDock b = true).
  { pose proof (inv_docks _ HI) as H. rewrite Forall_forall in H. apply H.
    eapply nth_error_In; eassumption. }
  assert (Hcancelled : Inv (set_docks (set_bookings st (setAt i (Booking.cancelBooking b) (bookings st)))
                                      (releaseDock (docks st) (Booking.dockID b)))).
  { destruct HI. constructor; simpl; try assumption.
    - unfold releaseDock. rewrite map_updateFirst; [assumption|reflexivity].
    - rewrite length_setAt. erewrite map_setAt; [assumption|eassumption|reflexivity].
    - rewrite length_setAt. assumption.
    - apply Forall_setAt; assumption. }
  cbn [docks set_bookings Booking.dockID Booking.cancelBooking].
  destruct (findFirst _ (docks st)) as [[j dk]|]; [|exact Hcancelled].
  destruct (ChargingDock.energySource dk) as [src|]; [|exact Hcancelled].
  destruct Hcancelled. simpl in *. constructor; simpl; try assumption.
  - rewrite setAt_setAt in *. rewrite length_setAt in *.
    erewrite map_setAt; [|eassumption|reflexivity].
    erewrite map_setAt in inv_ids0; [assumption|eassumption|reflexivity].
  - rewrite setAt_setAt, length_setAt in *. assumption.
  - rewrite setAt_setAt. apply Forall_setAt; [|assumption].
    destruct HI; assumption.
  - rewrite map_updateFirst; [assumption|reflexivity].
  - rewrite length_setAt. assumption.
Qed.

Lemma Inv_dischargeToGrid st vID energy :
  Inv st -> Inv (fst (fst (dischargeToGrid st vID energy))).
Proof.
  intros HI. unfold dischargeToGrid.
  destruct (findFirst _ (vehicles st)) as [[i v]|] eqn:Hf; [|assumption].
  apply findFirst_Some in Hf. destruct Hf as (Hn & _ & _).
  destruct (EV.dischargeToGrid v energy) as [v' e] eqn:Hd.
  destruct HI. constructor; simpl; try assumption.
  erewrite map_setAt; [assumption|eassumption|].
  unfold EV.dischargeToGrid in Hd. destruct (negb (EV.supportsV2G v)); inversion Hd; reflexivity.
Qed.

Lemma Inv_step w op : Inv (station w) -> Inv (station (fst (step w op))).
Proof.
  intros HI. destruct op; simpl.
  - pose proof (Inv_registerUser _ id name level HI) as H.
    destruct (registerUser (station w) id name level) as [[st' ok] out]. exact H.
  - pose proof (Inv_registerVehicle _ vID uID soc capacity v2g HI) as H.
    destruct (registerVehicle (station w) vID uID soc capacity v2g) as [[st' ok] out]. exact H.
  - pose proof (Inv_createBooking (currentWeather w) _ uID vID startTime duration
                                  powerRating chargingType HI) as H.
    destruct (createBooking _ _ _ _ _ _ _ _) as [[st' ok] out]. exact H.
  - pose proof (Inv_cancelBooking _ bookingID HI) as H.
    destruct (cancelBooking (station w) bookingID) as [st' out]. exact H.
  - pose proof (Inv_completeBooking (currentWeather w) _ bookingID HI) as H.
    destruct (completeBooking _ _ _) as [st' out]. exact H.
  - pose proof (Inv_dischargeToGrid _ vehicleID energy HI) as H.
    destruct (dischargeToGrid (station w) vehicleID energy) as [[st' e] out]. exact H.
  - unfold setWeather.
    destruct (weather =? 0); [exact HI|].
    destruct (weather =? 1); [exact HI|].
    destruct (weather =? 2); exact HI.
Qed.

Lemma run_snoc w ops op : run w (ops ++ [op]) = fst (step (run w ops) op).
Proof. unfold run. rewrite fold_left_app. reflexivity. Qed.

(** Every state the menu can reach from a new station satisfies the
    invariant. *)
Lemma Inv_run sID ops : Inv (station (run (initWorld sID) ops)).
Proof.
  induction ops as [|op ops IH] using rev_ind.
  - apply Inv_newStation.
  - rewrite run_snoc. apply Inv_step. assumption.
Qed.

(** ** No two active bookings of a dock overlap *)

Lemma overlap_sym b1 b2 : overlap b1 b2 = overlap b2 b1.
Proof. unfold overlap. apply andb_comm. Qed.

(** The test of [isDockAvailable] is the overlap test against the new
    booking. *)
Lemma conflicts_overlap b dockID uID vID bID sID s d t :
  conflicts dockID s d b =
  Booking.isActive b && (Booking.dockID b =? dockID) &&
  overlap (Booking.createBooking bID uID vID dockID sID s d t) b.
Proof. reflexivity. Qed.

Lemma clash_sym b1 b2 : clash b1 b2 = clash b2 b1.
Proof.
  unfold clash. rewrite (overlap_sym b1 b2), (Z.eqb_sym (Booking.dockID b1)).
  destruct (Booking.isActive b1), (Booking.isActive b2); reflexivity.
Qed.

Lemma clash_false b1 b2 :
  clash b1 b2 = false ->
  Booking.isActive b1 = true -> Booking.isActive b2 = true ->
  Booking.dockID b1 = Booking.dockID b2 -> overlap b1 b2 = false.
Proof.
  unfold clash. intros H A1 A2 D. rewrite A1, A2, D, Z.eqb_refl in H. exact H.
Qed.

Lemma noOverlapb_pairs bs :
  noOverlapb bs = true ->
  forall i j b1 b2, i <> j -> nth_error bs i = Some b1 -> nth_error bs j = Some b2 ->
                    clash b1 b2 = false.
Proof.
  induction bs as [|b bs IH]; intros H i j b1 b2 Hne H1 H2.
  - destruct i; discriminate.
  - simpl in H. apply andb_prop in H. destruct H as [Hhd Htl].
    rewrite forallb_forall in Hhd.
    destruct i as [|i], j as [|j]; simpl in H1, H2; try congruence.
    + inversion H1; subst. apply negb_true_iff, Hhd. eapply nth_error_In; eassumption.
    + inversion H2; subst. rewrite clash_sym.
      apply negb_true_iff, Hhd. eapply nth_error_In; eassumption.
    + apply (IH Htl i j); auto.
Qed.

Lemma noOverlapb_sound st : noOverlapb (bookings st) = true -> NoOverlap st.
Proof.
  intros H i j b1 b2 Hne H1 H2. apply clash_false.
  eapply noOverlapb_pairs; eassumption.
Qed.

Lemma fades_refl bs : fades bs bs.
Proof. intros j b H. exists b. auto 10. Qed.

Lemma fades_setAt bs i b x :
  nth_error bs i = Some b ->
  Booking.bookingID x = Booking.bookingID b ->
  Booking.dockID x = Booking.dockID b ->
  Booking.chargingType x = Booking.chargingType b ->
  Booking.startTime x = Booking.startTime b ->
  Booking.duration x = Booking.duration b ->
  (Booking.isActive x = true -> Booking.isActive b = true) ->
  fades bs (setAt i x bs).
Proof.
  intros Hn H0 H1 H2 H3 H4 H5 j b' Hj.
  apply nth_error_setAt in Hj. destruct Hj as [[<- ->]|[_ Hj]].
  - exists b. auto 10.
  - exists b'. auto 10.
Qed.

Lemma NoOverlap_fades st st' :
  fades (bookings st) (bookings st') -> NoOverlap st -> NoOverlap st'.
Proof.
  intros Hf HN i j b1 b2 Hne H1 H2 A1 A2 Hd.
  destruct (Hf _ _ H1) as (c1 & G1 & _ & D1 & _ & S1 & U1 & Act1).
  destruct (Hf _ _ H2) as (c2 & G2 & _ & D2 & _ & S2 & U2 & Act2).
  unfold overlap. rewrite S1, S2, U1, U2.
  apply (HN i j c1 c2); auto. congruence.
Qed.

Lemma suitable_isDockAvailable cw st p s d sol dock :
  suitable cw st p s d sol dock = true ->
  isDockAvailable st (ChargingDock.dockID dock) s d = true.
Proof.
  unfold suitable. destruct (ChargingDock.energySource dock); [|discriminate].
  intros H. apply andb_prop in H. apply H.
Qed.

Lemma isDockAvailable_conflicts st dockID s d b :
  isDockAvailable st dockID s d = true -> In b (bookings st) ->
  conflicts dockID s d b = false.
Proof.
  unfold isDockAvailable.
  destruct ((bookingCount st <? 0) || (MAX_BOOKINGS <? bookingCount st)); [discriminate|].
  intros H Hin. apply negb_true_iff in H.
  destruct (conflicts dockID s d b) eqn:Hc; [|reflexivity].
  assert (existsb (conflicts dockID s d) (bookings st) = true).
  { apply existsb_exists. eauto. }
  congruence.
Qed.

Lemma NoOverlap_createBooking cw st uID vID s d p t :
  NoOverlap st -> NoOverlap (fst (fst (createBooking cw st uID vID s d p t))).
Proof.
  intros HN. destruct (requestValid st uID vID s d) eqn:Hv.
  2: { destruct (createBooking_invalid cw _ _ _ _ _ p t Hv) as [msg ->]. assumption. }
  rewrite createBooking_valid by assumption. cbv zeta.
  assert (HN1 : NoOverlap (anchored st s)).
  { unfold NoOverlap. rewrite bookings_anchored. exact HN. }
  set (st1 := anchored st s) in *.
  set (adj := effectiveStart st uID vID s).
  destruct (findAvailableDock_spec cw st1 p adj d (t =? 4)) as [[_ Hnone]|Hin].
  { rewrite Hnone. simpl. assumption. }
  set (dockID := findAvailableDock cw st1 p adj d (t =? 4)) in *.
  destruct (dockID =? -1); [simpl; assumption|].
  apply suitableDocks_In in Hin. destruct Hin as (dock & _ & Hid & Hs).
  apply suitable_isDockAvailable in Hs. rewrite Hid in Hs.
  set (b := Booking.createBooking _ _ _ _ _ _ _ _).
  assert (Hnew : forall b0, In b0 (bookings st1) -> Booking.isActive b0 = true ->
                            Booking.dockID b0 = dockID -> overlap b b0 = false).
  { intros b0 Hb0 Hact Hd0.
    pose proof (isDockAvailable_conflicts _ _ _ _ _ Hs Hb0) as Hc.
    unfold conflicts in Hc. rewrite Hact, Hd0, Z.eqb_refl in Hc. exact Hc. }
  intros i j b1 b2 Hne H1 H2 A1 A2 Hd. simpl in H1, H2.
  rewrite nth_error_app in H1, H2.
  destruct (Nat.ltb_spec i (List.length (bookings st1))) as [Hi|Hi];
    destruct (Nat.ltb_spec j (List.length (bookings st1))) as [Hj|Hj].
  - apply (HN1 i j); assumption.
  - destruct (j - List.length (bookings st1))%nat as [|k] eqn:Hk; simpl in H2;
      [|destruct k; discriminate].
    inversion H2; subst b2. rewrite overlap_sym.
    apply Hnew; [eapply nth_error_In; eassumption|assumption|]. rewrite Hd. reflexivity.
  - destruct (i - List.length (bookings st1))%nat as [|k] eqn:Hk; simpl in H1;
      [|destruct k; discriminate].
    inversion H1; subst b1.
    apply Hnew; [eapply nth_error_In; eassumption|assumption|]. rewrite <- Hd. reflexivity.
  - destruct (i - List.length (bookings st1))%nat as [|k] eqn:Hk; simpl in H1;
      [|destruct k; discriminate].
    destruct (j - List.length (bookings st1))%nat as [|k'] eqn:Hk'; simpl in H2;
      [|destruct k'; discriminate].
    lia.
Qed.

Lemma fades_cancelBooking st id :
  fades (bookings st) (bookings (fst (cancelBooking st id))).
Proof.
  unfold cancelBooking.
  destruct (findFirst _ (bookings st)) as [[i b]|] eqn:Hf; [|apply fades_refl].
  apply findFirst_Some in Hf. destruct Hf as (Hn & _ & _). simpl.
  eapply fades_setAt; try eassumption; try reflexivity. discriminate.
Qed.

Lemma fades_completeBooking cw st id :
  fades (bookings st) (bookings (fst (completeBooking cw st id))).
Proof.
  unfold completeBooking.
  destruct (findFirst _ (bookings st)) as [[i b]|] eqn:Hf; [|apply fades_refl].
  apply findFirst_Some in Hf. destruct Hf as (Hn & _ & _).
  cbn [docks set_bookings Booking.dockID Booking.cancelBooking].
  assert (H0 : fades (bookings st) (setAt i (Booking.cancelBooking b) (bookings st))).
  { eapply fades_setAt; try eassumption; try reflexivity. discriminate. }
  destruct (findFirst _ (docks st)) as [[j dk]|]; [|exact H0].
  destruct (ChargingDock.energySource dk) as [src|]; [|exact H0].
  simpl. rewrite setAt_setAt.
  eapply fades_setAt; try eassumption; try reflexivity. discriminate.
Qed.

Lemma NoOverlap_same_bookings st st' :
  bookings st' = bookings st -> NoOverlap st -> NoOverlap st'.
Proof. unfold NoOverlap. intros ->. auto. Qed.

Lemma bookings_registerUser st id name level :
  bookings (fst (fst (registerUser st id name level))) = bookings st.
Proof.
  unfold registerUser. destruct (MAX_USERS <=? userCount st); [reflexivity|].
  destruct (existsb _ (users st)); reflexivity.
Qed.

Lemma bookings_registerVehicle st vID uID soc capacity v2g :
  bookings (fst (fst (registerVehicle st vID uID soc capacity v2g))) = bookings st.
Proof.
  unfold registerVehicle. destruct (MAX_USERS <=? vehicleCount st); [reflexivity|].
  destruct (existsb _ (users st)); [|reflexivity].
  destruct (existsb _ (vehicles st)); reflexivity.
Qed.

Lemma bookings_dischargeToGrid st vID energy :
  bookings (fst (fst (dischargeToGrid st vID energy))) = bookings st.
Proof.
  unfold dischargeToGrid. destruct (findFirst _ (vehicles st)) as [[i v]|]; [|reflexivity].
  destruct (EV.dischargeToGrid v energy); reflexivity.
Qed.

Lemma station_setWeather w weather : station (fst (setWeather w weather)) = station w.
Proof.
  unfold setWeather. destruct (weather =? 0); [reflexivity|].
  destruct (weather =? 1); [reflexivity|]. destruct (weather =? 2); reflexivity.
Qed.

(** The station after each operation of the menu, by the member function
    that computes it. *)
Lemma station_step w op :
  station (fst (step w op)) =
  match op with
  | RegisterUser id name level => fst (fst (registerUser (station w) id name level))
  | RegisterVehicle vID uID soc capacity v2g =>
      fst (fst (registerVehicle (station w) vID uID soc capacity v2g))
  | CreateBooking uID vID s d p t =>
      fst (fst (createBooking (currentWeather w) (station w) uID vID s d p t))
  | CancelBooking id => fst (cancelBooking (station w) id)
  | CompleteBooking id => fst (completeBooking (currentWeather w) (station w) id)
  | DischargeToGrid vID energy => fst (fst (dischargeToGrid (station w) vID energy))
  | SetWeather _ => station w
  end.
Proof.
  destruct op; simpl.
  - destruct (registerUser _ _ _ _) as [[? ?] ?]; reflexivity.
  - destruct (registerVehicle _ _ _ _ _ _) as [[? ?] ?]; reflexivity.
  - destruct (createBooking _ _ _ _ _ _ _ _) as [[? ?] ?]; reflexivity.
  - destruct (cancelBooking _ _) as [? ?]; reflexivity.
  - destruct (completeBooking _ _ _) as [? ?]; reflexivity.
  - destruct (dischargeToGrid _ _ _) as [[? ?] ?]; reflexivity.
  - apply station_setWeather.
Qed.

Lemma NoOverlap_step w op :
  NoOverlap (station w) -> NoOverlap (station (fst (step w op))).
Proof.
  intros HN. rewrite station_step. destruct op.
  - eapply NoOverlap_same_bookings; [apply bookings_registerUser|assumption].
  - eapply NoOverlap_same_bookings; [apply bookings_registerVehicle|assumption].
  - apply NoOverlap_createBooking. assumption.
  - eapply NoOverlap_fades; [apply fades_cancelBooking|assumption].
  - eapply NoOverlap_fades; [apply fades_completeBooking|assumption].
  - eapply NoOverlap_same_bookings; [apply bookings_dischargeToGrid|assumption].
  - assumption.
Qed.

(** The invariant holds in a new station, hence in every reachable state. *)
Lemma no_overlap_reachable sID ops : NoOverlap (station (run (initWorld sID) ops)).
Proof.
  induction ops as [|op ops IH] using rev_ind.
  - intros i j b1 b2 _ H. destruct i; discriminate.
  - rewrite run_snoc. apply NoOverlap_step. assumption.
Qed.

(** ** Looking up bookings and docks in a reachable station *)

Lemma findFirst_unique {A : Type} (p : A -> bool) (l : list A) (i : nat) (x : A) :
  nth_error l i = Some x -> p x = true ->
  (forall j y, (j < i)%nat -> nth_error l j = Some y -> p y = false) ->
  findFirst p l = Some (i, x).
Proof.
  revert i; induction l as [|a l IH]; intros [|i] Hn Hp Hlt; simpl in *; try discriminate.
  - inversion Hn; subst. rewrite Hp. reflexivity.
  - rewrite (Hlt O a) by (auto; lia).
    rewrite (IH i Hn Hp); [reflexivity|].
    intros j y Hj Hy. apply (Hlt (S j) y); [lia|assumption].
Qed.

Lemma findFirst_active st i b :
  Inv st -> nth_error (bookings st) i = Some b -> Booking.isActive b = true ->
  findFirst (isActiveBooking (Booking.bookingID b)) (bookings st) = Some (i, b).
Proof.
  intros HI Hn Hact. apply findFirst_unique; [assumption| |].
  - unfold isActiveBooking. rewrite Z.eqb_refl, Hact. reflexivity.
  - intros j y Hj Hy. unfold isActiveBooking.
    rewrite (@Inv_bookingID st i b HI Hn), (@Inv_bookingID st j y HI Hy).
    replace (Z.of_nat j + 1 =? Z.of_nat i + 1) with false; [reflexivity|].
    symmetry. apply Z.eqb_neq. lia.
Qed.

Lemma findFirst_inactive st id :
  Inv st ->
  (forall i b, nth_error (bookings st) i = Some b -> Booking.bookingID b = id ->
               Booking.isActive b = false) ->
  findFirst (isActiveBooking id) (bookings st) = None.
Proof.
  intros HI H. apply findFirst_None. intros b Hin.
  apply In_nth_error in Hin. destruct Hin as [i Hi].
  unfold isActiveBooking. destruct (Booking.bookingID b =? id) eqn:He; [|reflexivity].
  apply Z.eqb_eq in He. rewrite (H i b Hi He). reflexivity.
Qed.

Lemma layout_docks ds :
  map dockStatic ds = stationLayout ->
  exists d1 d2 d3 d4 d5,
    ds = [d1; d2; d3; d4; d5] /\
    dockStatic d1 = (1, SLOW, Some GridPower) /\
    dockStatic d2 = (2, SLOW, Some SolarPower) /\
    dockStatic d3 = (3, MEDIUM, Some GridPower) /\
    dockStatic d4 = (4, MEDIUM, Some SolarPower) /\
    dockStatic d5 = (5, FAST, Some GridPower).
Proof.
  intros H. unfold stationLayout in H.
  destruct ds as [|d1 [|d2 [|d3 [|d4 [|d5 [|d6 ds]]]]]]; try discriminate.
  simpl in H.
  exists d1, d2, d3, d4, d5.
  repeat split; congruence.
Qed.

(** In the layout of the constructor the dock of an ID between 1 and 5 sits
    in slot [ID - 1], with the power rating and the source given there. *)
Lemma dock_found ds dockID :
  map dockStatic ds = stationLayout -> 1 <= dockID <= 5 ->
  exists j d, findFirst (isDock dockID) ds = Some (j, d) /\
              In (dockStatic d) stationLayout /\ ChargingDock.dockID d = dockID /\
              Z.of_nat j + 1 = dockID.
Proof.
  intros Hl Hr.
  destruct (layout_docks _ Hl) as (d1 & d2 & d3 & d4 & d5 & -> & E1 & E2 & E3 & E4 & E5).
  assert (I1 : ChargingDock.dockID d1 = 1) by (unfold dockStatic in E1; congruence).
  assert (I2 : ChargingDock.dockID d2 = 2) by (unfold dockStatic in E2; congruence).
  assert (I3 : ChargingDock.dockID d3 = 3) by (unfold dockStatic in E3; congruence).
  assert (I4 : ChargingDock.dockID d4 = 4) by (unfold dockStatic in E4; congruence).
  assert (I5 : ChargingDock.dockID d5 = 5) by (unfold dockStatic in E5; congruence).
  unfold findFirst, isDock. rewrite I1, I2, I3, I4, I5.
  assert (Hc : dockID = 1 \/ dockID = 2 \/ dockID = 3 \/ dockID = 4 \/ dockID = 5) by lia.
  unfold stationLayout.
  destruct Hc as [->|[->|[->|[->| ->]]]]; simpl.
  - exists 0%nat, d1. rewrite E1. simpl; auto 10.
  - exists 1%nat, d2. rewrite E2. simpl; auto 10.
  - exists 2%nat, d3. rewrite E3. simpl; auto 10.
  - exists 3%nat, d4. rewrite E4. simpl; auto 10.
  - exists 4%nat, d5. rewrite E5. simpl; auto 10.
Qed.

Lemma bookingOnDock_range b : bookingOnDock b = true -> 1 <= Booking.dockID b <= 5.
Proof.
  unfold bookingOnDock. intros H.
  apply andb_prop in H. destruct H as [H _]. apply andb_prop in H. lia.
Qed.

Lemma Inv_booking_dock st i b :
  Inv st -> nth_error (bookings st) i = Some b ->
  exists j d, findFirst (isDock (Booking.dockID b)) (docks st) = Some (j, d) /\
              In (dockStatic d) stationLayout /\
              ChargingDock.dockID d = Booking.dockID b /\
              Z.of_nat j + 1 = Booking.dockID b.
Proof.
  intros HI Hn. apply dock_found; [apply (inv_layout _ HI)|].
  apply bookingOnDock_range.
  pose proof (inv_docks _ HI) as H. rewrite Forall_forall in H. apply H.
  eapply nth_error_In; eassumption.
Qed.

Lemma dockOf_releaseDock st dockID j d :
  findFirst (isDock dockID) (docks st) = Some (j, d) ->
  dockOf (set_docks st (releaseDock (docks st) dockID)) dockID = Some (ChargingDock.release d).
Proof.
  intros H. unfold dockOf, releaseDock. simpl.
  change (fun d0 => ChargingDock.dockID d0 =? dockID) with (isDock dockID).
  rewrite findFirst_updateFirst by reflexivity. rewrite H. reflexivity.
Qed.

(** ** Cancellation *)

Lemma cancelBooking_found st id i b :
  findFirst (isActiveBooking id) (bookings st) = Some (i, b) ->
  cancelBooking st id =
  (set_docks (set_bookings st (setAt i (Booking.cancelBooking b) (bookings st)))
             (releaseDock (docks st) (Booking.dockID b)),
   [Notify (Booking.userID b) cancellationMsg
           (penaltyFor (Booking.startTime b - systemStartTime st)%f32)]).
Proof.
  intros H. unfold cancelBooking.
  change (fun b0 => (Booking.bookingID b0 =? id) && Booking.isActive b0)
    with (isActiveBooking id).
  rewrite H. reflexivity.
Qed.

Lemma cancelBooking_not_found st id :
  findFirst (isActiveBooking id) (bookings st) = None -> cancelBooking st id = (st, []).
Proof.
  intros H. unfold cancelBooking.
  change (fun b0 => (Booking.bookingID b0 =? id) && Booking.isActive b0)
    with (isActiveBooking id).
  rewrite H. reflexivity.
Qed.

(** ** The outcomes of [createBooking] *)

Lemma createBooking_accepted cw st uID vID s d p t :
  snd (fst (createBooking cw st uID vID s d p t)) = true ->
  requestValid st uID vID s d = true /\
  In (Booking.dockID (newBooking cw st uID vID s d p t))
     (suitableDocks cw (anchored st s) p (effectiveStart st uID vID s) d (t =? 4)) /\
  fst (fst (createBooking cw st uID vID s d p t)) = booked cw st uID vID s d p t.
Proof.
  intros Hok. destruct (requestValid st uID vID s d) eqn:Hv.
  2: { destruct (createBooking_invalid cw _ _ _ _ _ p t Hv) as [msg Hm].
       rewrite Hm in Hok. discriminate. }
  split; [reflexivity|].
  rewrite createBooking_valid in * by assumption. cbv zeta in *.
  unfold booked, newBooking. simpl Booking.dockID.
  destruct (findAvailableDock_spec cw (anchored st s) p (effectiveStart st uID vID s) d (t =? 4))
    as [[_ Hnone]|Hin].
  - rewrite Hnone in Hok. simpl in Hok. discriminate.
  - split; [assumption|].
    destruct (findAvailableDock cw (anchored st s) p (effectiveStart st uID vID s) d (t =? 4) =? -1);
      [discriminate|reflexivity].
Qed.

Lemma createBooking_rejected cw st uID vID s d p t :
  snd (fst (createBooking cw st uID vID s d p t)) = false ->
  fst (fst (createBooking cw st uID vID s d p t)) =
  if requestValid st uID vID s d then anchored st s else st.
Proof.
  intros Hok. destruct (requestValid st uID vID s d) eqn:Hv.
  2: { destruct (createBooking_invalid cw _ _ _ _ _ p t Hv) as [msg ->]. reflexivity. }
  rewrite createBooking_valid in * by assumption. cbv zeta in *.
  destruct (findAvailableDock cw (anchored st s) p (effectiveStart st uID vID s) d (t =? 4) =? -1);
    [reflexivity|discriminate].
Qed.

Lemma anchored_fields st s :
  docks (anchored st s) = docks st /\ users (anchored st s) = users st /\
  vehicles (anchored st s) = vehicles st /\ bookings (anchored st s) = bookings st /\
  totalOccupiedTime (anchored st s) = totalOccupiedTime st /\
  stationID (anchored st s) = stationID st.
Proof. unfold anchored. destruct (bookingCount st =? 0); simpl; auto 10. Qed.

Lemma bookingCount_anchored st s : bookingCount (anchored st s) = bookingCount st.
Proof. unfold bookingCount. rewrite bookings_anchored. reflexivity. Qed.

Lemma Inv_run_from w ops : Inv (station w) -> Inv (station (run w ops)).
Proof.
  intros HI. induction ops as [|op ops IH] using rev_ind; [assumption|].
  rewrite run_snoc. apply Inv_step. assumption.
Qed.

(** ** A booking that is no longer active stays so *)

Lemma settled_fades st st' id :
  fades (bookings st) (bookings st') ->
  List.length (bookings st') = List.length (bookings st) ->
  settled st id -> settled st' id.
Proof.
  intros Hf Hlen [Hr Hs]. split.
  - unfold bookingCount in *. rewrite Hlen. assumption.
  - intros i b' Hn Hid. destruct (Hf _ _ Hn) as (b & Hb & Eid & _ & _ & _ & _ & Hact).
    destruct (Booking.isActive b') eqn:Ha; [|reflexivity].
    assert (Hoff : Booking.isActive b = false) by (apply (Hs i b Hb); congruence).
    assert (Hon : Booking.isActive b = true) by auto.
    congruence.
Qed.

Lemma settled_same_bookings st st' id :
  bookings st' = bookings st -> settled st id -> settled st' id.
Proof. unfold settled, bookingCount. intros ->. auto. Qed.

Lemma length_bookings_cancelBooking st id :
  List.length (bookings (fst (cancelBooking st id))) = List.length (bookings st).
Proof.
  unfold cancelBooking. destruct (findFirst _ (bookings st)) as [[i b]|]; [|reflexivity].
  simpl. apply length_setAt.
Qed.

Lemma length_bookings_completeBooking cw st id :
  List.length (bookings (fst (completeBooking cw st id))) = List.length (bookings st).
Proof.
  unfold completeBooking. destruct (findFirst _ (bookings st)) as [[i b]|]; [|reflexivity].
  cbn [docks set_bookings Booking.dockID Booking.cancelBooking].
  destruct (findFirst _ (docks st)) as [[j dk]|]; [|simpl; apply length_setAt].
  destruct (ChargingDock.energySource dk); simpl; rewrite ?length_setAt; reflexivity.
Qed.

Lemma settled_createBooking cw st uID vID s d p t id :
  settled st id -> settled (fst (fst (createBooking cw st uID vID s d p t))) id.
Proof.
  intros Hs.
  assert (Ha : settled (anchored st s) id).
  { apply (settled_same_bookings st); [apply bookings_anchored|assumption]. }
  destruct (snd (fst (createBooking cw st uID vID s d p t))) eqn:Hok.
  - destruct (createBooking_accepted _ _ _ _ _ _ _ _ Hok) as (_ & _ & ->).
    unfold booked. destruct Ha as [Hr Hin]. split.
    + unfold bookingCount in *. simpl. rewrite length_app. simpl. lia.
    + simpl. intros i b Hn Hid. rewrite nth_error_app in Hn.
      destruct (Nat.ltb_spec i (List.length (bookings (anchored st s)))) as [Hi|Hi].
      * apply (Hin i b); assumption.
      * destruct (i - List.length (bookings (anchored st s)))%nat as [|k];
          simpl in Hn; [|destruct k; discriminate].
        inversion Hn; subst b. unfold newBooking in Hid. simpl in Hid. lia.
  - rewrite (createBooking_rejected _ _ _ _ _ _ _ _ Hok).
    destruct (requestValid st uID vID s d); assumption.
Qed.

Lemma settled_step w op id : settled (station w) id -> settled (station (fst (step w op))) id.
Proof.
  intros Hs. rewrite station_step. destruct op.
  - eapply settled_same_bookings; [apply bookings_registerUser|assumption].
  - eapply settled_same_bookings; [apply bookings_registerVehicle|assumption].
  - apply settled_createBooking. assumption.
  - eapply settled_fades;
      [apply fades_cancelBooking|apply length_bookings_cancelBooking|assumption].
  - eapply settled_fades;
      [apply fades_completeBooking|apply length_bookings_completeBooking|assumption].
  - eapply settled_same_bookings; [apply bookings_dischargeToGrid|assumption].
  - assumption.
Qed.

Lemma settled_run w ops id : settled (station w) id -> settled (station (run w ops)) id.
Proof.
  intros Hs. induction ops as [|op ops IH] using rev_ind; [assumption|].
  rewrite run_snoc. apply settled_step. assumption.
Qed.

Lemma completeBooking_not_found cw st id :
  findFirst (isActiveBooking id) (bookings st) = None -> completeBooking cw st id = (st, []).
Proof.
  intros H. unfold completeBooking.
  change (fun b0 => (Booking.bookingID b0 =? id) && Booking.isActive b0)
    with (isActiveBooking id).
  rewrite H. reflexivity.
Qed.

(** On a settled ID [completeBooking] does nothing. *)
Lemma completeBooking_settled cw st id :
  Inv st -> settled st id -> completeBooking cw st id = (st, []).
Proof.
  intros HI [_ Hs]. apply completeBooking_not_found.
  apply findFirst_inactive; assumption.
Qed.

(** ** Completion and billing *)

Lemma completeBooking_found cw st id i b j dk src :
  findFirst (isActiveBooking id) (bookings st) = Some (i, b) ->
  findFirst (isDock (Booking.dockID b)) (docks st) = Some (j, dk) ->
  ChargingDock.energySource dk = Some src ->
  fst (completeBooking cw st id) =
  mkStation
    (releaseDock (docks st) (Booking.dockID b))
    (users st)
    (updateFirst (fun v => EV.vehicleID v =? Booking.vehicleID b)
                 (chargeVehicle (billedEnergy cw dk src b)) (vehicles st))
    (setAt i (billed b (billedEnergy cw dk src b) (billedCost cw st dk src b)) (bookings st))
    (setAt j (nth j (totalOccupiedTime st) f0 + Booking.duration b)%f32 (totalOccupiedTime st))
    (systemStartTime st) (stationID st).
Proof.
  intros Hb Hd Hs. unfold completeBooking.
  change (fun b0 => (Booking.bookingID b0 =? id) && Booking.isActive b0)
    with (isActiveBooking id).
  rewrite Hb.
  cbn [docks set_bookings Booking.dockID Booking.cancelBooking].
  change (fun d => ChargingDock.dockID d =? Booking.dockID b) with (isDock (Booking.dockID b)).
  rewrite Hd, Hs. simpl. rewrite setAt_setAt. reflexivity.
Qed.

Lemma layout_source d :
  In (dockStatic d) stationLayout -> exists src, ChargingDock.energySource d = Some src.
Proof.
  unfold stationLayout, dockStatic. simpl.
  intros H; repeat (destruct H as [H|H]; [inversion H; eauto|]); destruct H.
Qed.

(** A booking of charging type 4 sits on a Solar dock. *)
Lemma solar_booking_dock st i b j dk :
  Inv st -> nth_error (bookings st) i = Some b -> Booking.chargingType b = 4 ->
  findFirst (isDock (Booking.dockID b)) (docks st) = Some (j, dk) ->
  ChargingDock.energySource dk = Some SolarPower.
Proof.
  intros HI Hn Ht Hd.
  destruct (Inv_booking_dock _ _ _ HI Hn) as (j' & dk' & Hd' & Hin & Hid & _).
  rewrite Hd in Hd'. inversion Hd'; subst j' dk'.
  assert (Hon : bookingOnDock b = true).
  { pose proof (inv_docks _ HI) as H. rewrite Forall_forall in H. apply H.
    eapply nth_error_In; eassumption. }
  unfold bookingOnDock in Hon. rewrite Ht in Hon. simpl in Hon.
  apply andb_prop in Hon. destruct Hon as [_ Hon]. apply orb_prop in Hon.
  unfold stationLayout, dockStatic in Hin. simpl in Hin.
  repeat (destruct Hin as [Hin|Hin];
          [inversion Hin as [[H1 H2 H3]]; try reflexivity;
           rewrite <- Hid, <- H1 in Hon; destruct Hon; discriminate|]).
  destruct Hin.
Qed.

Lemma rate_constants :
  getRateAdjustment GridPower = f1 /\
  getRateAdjustment SolarPower = F32.lit 9 10 /\
  (F32.lit 4 10 * f1)%f32 = F32.lit 4 10.
Proof. repeat split; vm_compute; reflexivity. Qed.

(** The scenario of the specification: the Premium user's Medium request at
    13:00 keeps its time and, being at peak and not for Solar charging,
    takes the Solar dock 4; completion bills [44 * (0.3 * 1.2 * 0.9) * 0.85]
    and charges the vehicle up to the cap. *)
Lemma scenario_outcome :
  exists b v,
    bookings (station (run (initWorld 1) scenario)) = [b] /\
    vehicles (station (run (initWorld 1) scenario)) = [v] /\
    Booking.startTime b = F32.of_int 13 /\
    Booking.dockID b = 4 /\
    Booking.isActive b = false /\
    Booking.energyConsumed b = F32.of_int 44 /\
    Booking.cost b =
      (F32.of_int 44 * (F32.lit 3 10 * F32.lit 12 10 * F32.lit 9 10) * F32.lit 85 100)%f32 /\
    EV.batterySOC v = f100.
Proof. eexists. eexists. repeat split; vm_compute; reflexivity. Qed.

(** *** Fast charging asked through the menu *)

(** Only dock 5 delivers the 50 kW of Fast charging. *)
Lemma candidate_fast cw st s d sol dockID :
  map dockStatic (docks st) = stationLayout ->
  In dockID (suitableDocks cw st FAST s d sol) -> dockID = 5.
Proof.
  intros Hl Hin. apply suitableDocks_In in Hin. destruct Hin as (dk & Hdk & <- & Hs).
  apply (layout_dock _ _ Hl) in Hdk. unfold suitable in Hs.
  destruct (ChargingDock.energySource dk) as [src|] eqn:Hsrc; [|discriminate].
  apply andb_prop in Hs. destruct Hs as [Hs _].
  apply andb_prop in Hs. destruct Hs as [Hs _].
  apply andb_prop in Hs. destruct Hs as [_ Hpow].
  unfold stationLayout, dockStatic in Hdk. simpl in Hdk.
  repeat (destruct Hdk as [Hdk|Hdk];
          [inversion Hdk as [[H1 H2 H3]]; try reflexivity;
           rewrite <- H2 in Hpow; rewrite Hsrc in H3; inversion H3; subst src;
           destruct cw; vm_compute in Hpow; discriminate Hpow|]).
  destruct Hdk.
Qed.

Lemma FastOnDock5_createBooking cw st uID vID s d p t :
  Inv st -> powerOfChargingType t = Some p ->
  FastOnDock5 st -> FastOnDock5 (fst (fst (createBooking cw st uID vID s d p t))).
Proof.
  intros HI Hp HF. destruct (snd (fst (createBooking cw st uID vID s d p t))) eqn:Hok.
  - destruct (createBooking_accepted _ _ _ _ _ _ _ _ Hok) as (_ & Hin & ->).
    unfold FastOnDock5, booked. simpl. rewrite bookings_anchored.
    apply Forall_app. split; [assumption|]. constructor; [|constructor].
    intros Ht. unfold newBooking in Ht. simpl in Ht. subst t.
    inversion Hp; subst p. unfold newBooking in *. simpl in *.
    eapply candidate_fast; [|exact Hin]. apply (inv_layout _ (Inv_anchored _ s HI)).
  - rewrite (createBooking_rejected _ _ _ _ _ _ _ _ Hok). unfold FastOnDock5.
    destruct (requestValid st uID vID s d); [rewrite bookings_anchored|]; assumption.
Qed.

Lemma FastOnDock5_fades st st' :
  fades (bookings st) (bookings st') -> FastOnDock5 st -> FastOnDock5 st'.
Proof.
  unfold FastOnDock5. intros H HF. rewrite Forall_forall in *. intros b' Hin Ht.
  apply In_nth_error in Hin. destruct Hin as [j Hj].
  destruct (H j b' Hj) as (b & Hb & _ & Ed & Et & _). rewrite Ed. apply HF.
  - eapply nth_error_In; eassumption.
  - congruence.
Qed.

Lemma FastOnDock5_step w op :
  Inv (station w) -> fromMenu op ->
  FastOnDock5 (station w) -> FastOnDock5 (station (fst (step w op))).
Proof.
  intros HI Hm HF. rewrite station_step. destruct op.
  - unfold FastOnDock5. rewrite bookings_registerUser. assumption.
  - unfold FastOnDock5. rewrite bookings_registerVehicle. assumption.
  - apply FastOnDock5_createBooking; assumption.
  - eapply FastOnDock5_fades; [apply fades_cancelBooking|assumption].
  - eapply FastOnDock5_fades; [apply fades_completeBooking|assumption].
  - unfold FastOnDock5. rewrite bookings_dischargeToGrid. assumption.
  - assumption.
Qed.

Lemma FastOnDock5_run sID ops :
  Forall fromMenu ops -> FastOnDock5 (station (run (initWorld sID) ops)).
Proof.
  induction ops as [|op ops IH] using rev_ind; intros Hm.
  - constructor.
  - apply Forall_app in Hm. destruct Hm as [Hm Hop]. inversion Hop; subst.
    rewrite run_snoc. apply FastOnDock5_step; [apply Inv_run|assumption|auto].
Qed.

(** Through the menu, where Fast charging asks for 50 kW, every booking of
    charging type 3 is on dock 5, whose source is the grid: there the cost
    of the Fast case of C1 is [P * D * 0.4]. *)
Lemma menu_fast_on_grid sID ops i b :
  Forall fromMenu ops ->
  let st := station (run (initWorld sID) ops) in
  nth_error (bookings st) i = Some b -> Booking.chargingType b = 3 ->
  exists dk, dockOf st (Booking.dockID b) = Some dk /\
             ChargingDock.dockID dk = 5 /\
             ChargingDock.energySource dk = Some GridPower.
Proof.
  intros Hm st Hn Ht.
  pose proof (FastOnDock5_run sID ops Hm) as HF. fold st in HF.
  unfold FastOnDock5 in HF. rewrite Forall_forall in HF.
  assert (Hd : Booking.dockID b = 5).
  { apply HF; [eapply nth_error_In; eassumption|assumption]. }
  pose proof (Inv_run sID ops) as HI. fold st in HI.
  destruct (Inv_booking_dock _ _ _ HI Hn) as (j & dk & Hf & Hin & Hid & _).
  exists dk. unfold dockOf. rewrite Hf. split; [reflexivity|]. split; [congruence|].
  rewrite Hd in Hid. unfold stationLayout, dockStatic in Hin. simpl in Hin.
  repeat (destruct Hin as [Hin|Hin]; [inversion Hin as [[H1 H2 H3]]; try reflexivity;
                                      rewrite Hid in H1; discriminate H1|]).
  destruct Hin.
Qed.

(** ** Comparisons of binary32 numbers *)

Lemma compare_cont_antisym (p q : positive) :
  PosDef.Pos.compare_cont Eq q p = CompOpp (PosDef.Pos.compare_cont Eq p q).
Proof.
  pose proof (Pos.compare_cont_antisym p q Eq) as H. simpl in H. symmetry. exact H.
Qed.

Lemma SFcompare_antisym (x y : spec_float) :
  SFcompare y x = option_map CompOpp (SFcompare x y).
Proof.
  destruct x as [sx|sx| |sx mx ex], y as [sy|sy| |sy my ey]; simpl;
    try reflexivity; try (destruct sx; reflexivity); try (destruct sy; reflexivity);
    try (destruct sx, sy; reflexivity).
  destruct sx, sy; simpl; try reflexivity;
    rewrite (Z.compare_antisym ex ey); destruct (ex ?= ey); simpl; try reflexivity;
    rewrite (compare_cont_antisym mx my);
    destruct (PosDef.Pos.compare_cont Eq mx my); reflexivity.
Qed.

(** On numbers, [x >= y] is the negation of [x < y]; with a NaN both are
    false. *)
Lemma F32_geb_ltb (x y : F32.t) :
  F32.is_nan x = false -> F32.is_nan y = false ->
  (x >=? y)%f32 = negb (x <? y)%f32.
Proof.
  intros Hx Hy. unfold F32.geb, F32.ltb, SFleb, SFltb.
  rewrite (SFcompare_antisym x y).
  destruct x as [sx|sx| |sx mx ex], y as [sy|sy| |sy my ey];
    try discriminate Hx; try discriminate Hy;
    destruct (SFcompare _ _) as [[| |]|] eqn:Hc; try reflexivity;
    simpl in Hc; try discriminate Hc.
Qed.

(** ** Peak deferral *)

Lemma NoDup_map_inj {A : Type} (key : A -> Z) (l : list A) (x y : A) :
  NoDup (map key l) -> In x l -> In y l -> key x = key y -> x = y.
Proof.
  induction l as [|a l IH]; simpl; intros Hnd Hx Hy Hk; [contradiction|].
  inversion Hnd as [|? ? Hnotin Hnd']; subst.
  destruct Hx as [->|Hx], Hy as [->|Hy]; auto.
  - exfalso. apply Hnotin. rewrite Hk. apply in_map. assumption.
  - exfalso. apply Hnotin. rewrite <- Hk. apply in_map. assumption.
Qed.

Lemma existsb_unique {A : Type} (key : A -> Z) (q : A -> bool) (l : list A) (x0 : A) :
  NoDup (map key l) -> In x0 l ->
  existsb (fun x => (key x =? key x0) && q x) l = q x0.
Proof.
  intros Hnd Hin. destruct (q x0) eqn:Hq.
  - apply existsb_exists. exists x0. rewrite Z.eqb_refl, Hq. auto.
  - destruct (existsb _ l) eqn:He; [|reflexivity].
    apply existsb_exists in He. destruct He as (x & Hx & Hp).
    apply andb_prop in Hp. destruct Hp as [Hk Hqx]. apply Z.eqb_eq in Hk.
    rewrite (NoDup_map_inj key l x x0 Hnd Hx Hin Hk) in Hqx. congruence.
Qed.

(** With the IDs of a reachable station, [isCriticalBooking] reads the
    membership level of the user and the charge of the vehicle. *)
Lemma isCriticalBooking_spec st u v :
  Inv st -> In u (users st) -> In v (vehicles st) ->
  isCriticalBooking st (User.userID u) (EV.vehicleID v) =
  (User.membershipLevel u =? 1) || (EV.batterySOC v <? f20)%f32.
Proof.
  intros HI Hu Hv. unfold isCriticalBooking, isPremium.
  rewrite (existsb_unique User.userID (fun u => User.membershipLevel u =? 1)
             (users st) u (inv_users _ HI) Hu).
  destruct (findFirst (fun v0 => EV.vehicleID v0 =? EV.vehicleID v) (vehicles st))
    as [[k v']|] eqn:Hf.
  - apply findFirst_Some in Hf. destruct Hf as (Hn & Hk & _).
    apply Z.eqb_eq in Hk. apply nth_error_In in Hn.
    rewrite (NoDup_map_inj EV.vehicleID (vehicles st) v' v (inv_vehicles _ HI) Hn Hv Hk).
    reflexivity.
  - rewrite findFirst_None in Hf. specialize (Hf v Hv).
    rewrite Z.eqb_refl in Hf. discriminate.
Qed.

(** ** The anchor [systemStartTime] *)

Lemma systemStartTime_registerUser st id name level :
  systemStartTime (fst (fst (registerUser st id name level))) = systemStartTime st.
Proof.
  unfold registerUser. destruct (MAX_USERS <=? userCount st); [reflexivity|].
  destruct (existsb _ (users st)); reflexivity.
Qed.

Lemma systemStartTime_registerVehicle st vID uID soc capacity v2g :
  systemStartTime (fst (fst (registerVehicle st vID uID soc capacity v2g))) = systemStartTime st.
Proof.
  unfold registerVehicle. destruct (MAX_USERS <=? vehicleCount st); [reflexivity|].
  destruct (existsb _ (users st)); [|reflexivity].
  destruct (existsb _ (vehicles st)); reflexivity.
Qed.

Lemma systemStartTime_cancelBooking st id :
  systemStartTime (fst (cancelBooking st id)) = systemStartTime st.
Proof.
  unfold cancelBooking. destruct (findFirst _ (bookings st)) as [[i b]|]; reflexivity.
Qed.

Lemma systemStartTime_completeBooking cw st id :
  systemStartTime (fst (completeBooking cw st id)) = systemStartTime st.
Proof.
  unfold completeBooking. destruct (findFirst _ (bookings st)) as [[i b]|]; [|reflexivity].
  cbn [docks set_bookings Booking.dockID Booking.cancelBooking].
  destruct (findFirst _ (docks st)) as [[j dk]|]; [|reflexivity].
  destruct (ChargingDock.energySource dk); reflexivity.
Qed.

Lemma systemStartTime_dischargeToGrid st vID energy :
  systemStartTime (fst (fst (dischargeToGrid st vID energy))) = systemStartTime st.
Proof.
  unfold dischargeToGrid. destruct (findFirst _ (vehicles st)) as [[i v]|]; [|reflexivity].
  destruct (EV.dischargeToGrid v energy); reflexivity.
Qed.

Lemma anchored_nonempty st s : bookings st <> [] -> anchored st s = st.
Proof.
  intros H. unfold anchored, bookingCount.
  destruct (bookings st); [contradiction|]. reflexivity.
Qed.

Lemma systemStartTime_anchored_empty st s :
  bookings st = [] -> systemStartTime (anchored st s) = s.
Proof. intros H. unfold anchored, bookingCount. rewrite H. reflexivity. Qed.

Lemma createBooking_nonempty cw st uID vID s d p t :
  bookings st <> [] ->
  bookings (fst (fst (createBooking cw st uID vID s d p t))) <> [] /\
  systemStartTime (fst (fst (createBooking cw st uID vID s d p t))) = systemStartTime st.
Proof.
  intros Hne. destruct (snd (fst (createBooking cw st uID vID s d p t))) eqn:Hok.
  - destruct (createBooking_accepted _ _ _ _ _ _ _ _ Hok) as (_ & _ & ->).
    unfold booked. rewrite (anchored_nonempty st s Hne). simpl. split; [|reflexivity].
    destruct (bookings st); [contradiction|discriminate].
  - rewrite (createBooking_rejected _ _ _ _ _ _ _ _ Hok).
    rewrite (anchored_nonempty st s Hne).
    destruct (requestValid st uID vID s d); auto.
Qed.

(** Once the ledger holds a booking no operation moves the anchor. *)
Lemma anchor_fixed_step w op :
  bookings (station w) <> [] ->
  bookings (station (fst (step w op))) <> [] /\
  systemStartTime (station (fst (step w op))) = systemStartTime (station w).
Proof.
  intros Hne. rewrite station_step. destruct op.
  - rewrite bookings_registerUser, systemStartTime_registerUser. auto.
  - rewrite bookings_registerVehicle, systemStartTime_registerVehicle. auto.
  - apply createBooking_nonempty. assumption.
  - rewrite systemStartTime_cancelBooking. split; [|reflexivity].
    intros H. apply (f_equal (@List.length _)) in H.
    rewrite length_bookings_cancelBooking in H.
    destruct (bookings (station w)); [contradiction|discriminate].
  - rewrite systemStartTime_completeBooking. split; [|reflexivity].
    intros H. apply (f_equal (@List.length _)) in H.
    rewrite length_bookings_completeBooking in H.
    destruct (bookings (station w)); [contradiction|discriminate].
  - rewrite bookings_dischargeToGrid, systemStartTime_dischargeToGrid. auto.
  - auto.
Qed.

Lemma anchor_fixed_run w ops :
  bookings (station w) <> [] ->
  bookings (station (run w ops)) <> [] /\
  systemStartTime (station (run w ops)) = systemStartTime (station w).
Proof.
  intros Hne. induction ops as [|op ops [IH1 IH2]] using rev_ind; [auto|].
  rewrite run_snoc. destruct (anchor_fixed_step (run w ops) op IH1) as [H1 H2].
  split; [assumption|congruence].
Qed.

(** ** State of charge *)

(** The two caps the program applies: the charge never ends below 0 after
    a discharge, nor above 100 after a completion. *)
Lemma dischargeToGrid_floor v energy :
  (EV.batterySOC (fst (EV.dischargeToGrid v energy)) <? f0)%f32 = true ->
  EV.supportsV2G v = false.
Proof.
  unfold EV.dischargeToGrid. destruct (EV.supportsV2G v); [|reflexivity]. simpl.
  match goal with |- context [if ?c then _ else _] => destruct c eqn:Hc end.
  - vm_compute. discriminate.
  - rewrite Hc. discriminate.
Qed.

Lemma chargeVehicle_cap energy v :
  (EV.batterySOC (chargeVehicle energy v) >? f100)%f32 = false.
Proof.
  unfold chargeVehicle. simpl.
  match goal with |- context [if ?c then _ else _] => destruct c eqn:Hc end.
  - vm_compute. reflexivity.
  - exact Hc.
Qed.

(** ** Occupancy *)

Lemma Occupancy_same st st' :
  bookings st' = bookings st -> docks st' = docks st -> Occupancy st -> Occupancy st'.
Proof. unfold Occupancy, dockOf. intros -> ->. auto. Qed.

Lemma findFirst_updateFirst_other {A : Type} (p q : A -> bool) (f : A -> A) (l : list A) :
  (forall x, p x = true -> q x = false) -> (forall x, q (f x) = q x) ->
  findFirst q (updateFirst p f l) = findFirst q l.
Proof.
  intros Hpq Hqf. induction l as [|a l IH]; simpl; [reflexivity|].
  destruct (p a) eqn:Hp; simpl.
  - rewrite Hqf, (Hpq a Hp). reflexivity.
  - rewrite IH. reflexivity.
Qed.

Lemma dockOf_update_other st f dockID dockID' :
  (forall d, ChargingDock.dockID (f d) = ChargingDock.dockID d) ->
  dockID' <> dockID ->
  dockOf (set_docks st (updateFirst (isDock dockID) f (docks st))) dockID' = dockOf st dockID'.
Proof.
  intros Hf Hne. unfold dockOf. simpl.
  rewrite findFirst_updateFirst_other; [reflexivity| |].
  - unfold isDock. intros d Hd. apply Z.eqb_eq in Hd. apply Z.eqb_neq. congruence.
  - unfold isDock. intros d. rewrite Hf. reflexivity.
Qed.

Lemma dockOf_update_same st f dockID dk :
  (forall d, ChargingDock.dockID (f d) = ChargingDock.dockID d) ->
  dockOf st dockID = Some dk ->
  dockOf (set_docks st (updateFirst (isDock dockID) f (docks st))) dockID = Some (f dk).
Proof.
  intros Hf. unfold dockOf. simpl.
  rewrite findFirst_updateFirst.
  - destruct (findFirst (isDock dockID) (docks st)) as [[j d]|]; congruence.
  - unfold isDock. intros d. rewrite Hf. reflexivity.
Qed.

Lemma layout_NoDup ds : map dockStatic ds = stationLayout -> NoDup (map ChargingDock.dockID ds).
Proof.
  intros H.
  replace (map ChargingDock.dockID ds) with (map (fun x => fst (fst x)) (map dockStatic ds))
    by (rewrite map_map; reflexivity).
  rewrite H. simpl. repeat constructor; simpl; intuition lia.
Qed.

(** With the layout of the constructor, the dock of an ID is the only dock
    of the array with this ID. *)
Lemma dockOf_In st dk :
  map dockStatic (docks st) = stationLayout -> In dk (docks st) ->
  dockOf st (ChargingDock.dockID dk) = Some dk.
Proof.
  intros Hl Hin. unfold dockOf.
  destruct (findFirst_In (isDock (ChargingDock.dockID dk)) (docks st) dk Hin)
    as (j & dk' & Hf); [apply Z.eqb_refl|].
  rewrite Hf. apply findFirst_Some in Hf. destruct Hf as (Hn & Hp & _).
  apply Z.eqb_eq in Hp. apply nth_error_In in Hn.
  rewrite (NoDup_map_inj ChargingDock.dockID (docks st) dk' dk (layout_NoDup _ Hl) Hn Hin Hp).
  reflexivity.
Qed.

Lemma suitable_free cw st p s d sol dk :
  suitable cw st p s d sol dk = true -> ChargingDock.isOccupied dk = false.
Proof.
  unfold suitable. destruct (ChargingDock.energySource dk); [|discriminate].
  intros H. repeat (apply andb_prop in H; destruct H as [H _]).
  apply negb_true_iff. assumption.
Qed.

(** A candidate of [findAvailableDock] is the dock of its ID, and it is
    free. *)
Lemma candidate_free cw st p s d sol dockID :
  map dockStatic (docks st) = stationLayout ->
  In dockID (suitableDocks cw st p s d sol) ->
  exists dk, dockOf st dockID = Some dk /\ ChargingDock.isOccupied dk = false.
Proof.
  intros Hl Hin. apply suitableDocks_In in Hin. destruct Hin as (dk & Hdk & <- & Hs).
  exists dk. split; [apply dockOf_In; assumption|].
  eapply suitable_free; eassumption.
Qed.

Lemma dockOf_occupyDock st dockID vID id dk :
  dockOf st dockID = Some dk ->
  dockOf (set_docks st (occupyDock (docks st) dockID vID)) id =
  if id =? dockID then Some (ChargingDock.occupy dk vID) else dockOf st id.
Proof.
  intros Hdk. destruct (Z.eqb_spec id dockID) as [->|Hne].
  - exact (dockOf_update_same st (fun d => ChargingDock.occupy d vID) dockID dk
                              (fun _ => eq_refl) Hdk).
  - exact (dockOf_update_other st (fun d => ChargingDock.occupy d vID) dockID id
                               (fun _ => eq_refl) Hne).
Qed.

Lemma dockOf_releaseDock_other st dockID id :
  id <> dockID ->
  dockOf (set_docks st (releaseDock (docks st) dockID)) id = dockOf st id.
Proof.
  intros Hne.
  exact (dockOf_update_other st ChargingDock.release dockID id (fun _ => eq_refl) Hne).
Qed.

Lemma nth_error_snoc {A : Type} (l : list A) (x y : A) (i : nat) :
  nth_error (l ++ [x]) i = Some y ->
  nth_error l i = Some y \/ (i = List.length l /\ y = x).
Proof.
  intros Hn. rewrite nth_error_app in Hn.
  destruct (Nat.ltb_spec i (List.length l)) as [Hi|Hi]; [auto|].
  destruct (i - List.length l)%nat as [|k] eqn:Hk; simpl in Hn; [|destruct k; discriminate].
  right. split; [lia|congruence].
Qed.

(** Appending an active booking on a free dock and flagging the dock. *)
Lemma Occupancy_append st b vID dk :
  Occupancy st ->
  dockOf st (Booking.dockID b) = Some dk -> ChargingDock.isOccupied dk = false ->
  Occupancy (set_docks (set_bookings st (bookings st ++ [b]))
                       (occupyDock (docks st) (Booking.dockID b) vID)).
Proof.
  intros [O1 O2] Hdk Hocc.
  assert (Hother : forall i b0, nth_error (bookings st) i = Some b0 ->
                                Booking.isActive b0 = true ->
                                Booking.dockID b0 <> Booking.dockID b).
  { intros i b0 Hn Hact Heq. destruct (O1 i b0 Hn Hact) as (dk0 & Hdk0 & Hocc0).
    rewrite Heq, Hdk in Hdk0. inversion Hdk0; subst. congruence. }
  assert (Hdocks : forall id,
            dockOf (set_docks (set_bookings st (bookings st ++ [b]))
                              (occupyDock (docks st) (Booking.dockID b) vID)) id =
            if id =? Booking.dockID b then Some (ChargingDock.occupy dk vID)
            else dockOf st id).
  { intros id.
    apply (dockOf_occupyDock (set_bookings st (bookings st ++ [b]))). exact Hdk. }
  split.
  - intros i b' Hn Hact. rewrite Hdocks. cbn [bookings set_docks set_bookings] in Hn.
    destruct (nth_error_snoc _ _ _ _ Hn) as [Hold|[_ ->]].
    + replace (Booking.dockID b' =? Booking.dockID b) with false.
      * apply (O1 i b'); assumption.
      * symmetry. apply Z.eqb_neq. apply (Hother i); assumption.
    + rewrite Z.eqb_refl. eexists. split; reflexivity.
  - intros i j b1 b2 Hne H1 H2 A1 A2. cbn [bookings set_docks set_bookings] in H1, H2.
    destruct (nth_error_snoc _ _ _ _ H1) as [G1|[E1 ->]],
             (nth_error_snoc _ _ _ _ H2) as [G2|[E2 ->]].
    + apply (O2 i j); assumption.
    + apply (Hother i); assumption.
    + intros Heq. apply (Hother j b2 G2 A2). congruence.
    + lia.
Qed.

Lemma Occupancy_anchored st s : Occupancy st -> Occupancy (anchored st s).
Proof.
  destruct (anchored_fields st s) as (Ad & _ & _ & Ab & _ & _).
  apply Occupancy_same; assumption.
Qed.

Lemma Occupancy_createBooking cw st uID vID s d p t :
  Inv st -> Occupancy st -> Occupancy (fst (fst (createBooking cw st uID vID s d p t))).
Proof.
  intros HI HO. destruct (snd (fst (createBooking cw st uID vID s d p t))) eqn:Hok.
  - destruct (createBooking_accepted _ _ _ _ _ _ _ _ Hok) as (_ & Hin & ->).
    destruct (candidate_free _ _ _ _ _ _ _ (inv_layout _ (Inv_anchored _ s HI)) Hin)
      as (dk & Hdk & Hocc).
    unfold booked. cbv zeta.
    apply Occupancy_append with (dk := dk); [apply Occupancy_anchored|..]; assumption.
  - rewrite (createBooking_rejected _ _ _ _ _ _ _ _ Hok).
    destruct (requestValid st uID vID s d); [apply Occupancy_anchored|]; assumption.
Qed.

(** Deactivating the booking of slot [i] and releasing its dock. *)
Lemma Occupancy_close st i b x :
  Occupancy st ->
  nth_error (bookings st) i = Some b -> Booking.isActive b = true ->
  Booking.isActive x = false ->
  Occupancy (set_docks (set_bookings st (setAt i x (bookings st)))
                       (releaseDock (docks st) (Booking.dockID b))).
Proof.
  intros [O1 O2] Hn Hact Hx.
  assert (Hold : forall j b', nth_error (setAt i x (bookings st)) j = Some b' ->
                              Booking.isActive b' = true ->
                              j <> i /\ nth_error (bookings st) j = Some b').
  { intros j b' Hj Hb'. apply nth_error_setAt in Hj.
    destruct Hj as [[_ ->]|[Hne Hj]]; [congruence|auto]. }
  split.
  - intros j b' Hj Hb'. cbn [bookings set_docks set_bookings] in Hj.
    destruct (Hold j b' Hj Hb') as [Hne Hj'].
    rewrite (dockOf_releaseDock_other
               (set_bookings st (setAt i x (bookings st)))).
    + apply (O1 j b'); assumption.
    + apply (O2 j i b' b); assumption.
  - intros j k b1 b2 Hne H1 H2 A1 A2. cbn [bookings set_docks set_bookings] in H1, H2.
    destruct (Hold j b1 H1 A1) as [_ G1]. destruct (Hold k b2 H2 A2) as [_ G2].
    apply (O2 j k); assumption.
Qed.

Lemma Occupancy_cancelBooking st id : Occupancy st -> Occupancy (fst (cancelBooking st id)).
Proof.
  intros HO. destruct (findFirst (isActiveBooking id) (bookings st)) as [[i b]|] eqn:Hf.
  - rewrite (cancelBooking_found _ _ _ _ Hf). simpl fst.
    apply findFirst_Some in Hf. destruct Hf as (Hn & Hp & _).
    apply andb_prop in Hp. destruct Hp as [_ Hact].
    apply Occupancy_close; [assumption..|reflexivity].
  - rewrite (cancelBooking_not_found _ _ Hf). assumption.
Qed.

Lemma Occupancy_completeBooking cw st id :
  Occupancy st -> Occupancy (fst (completeBooking cw st id)).
Proof.
  intros HO. destruct (findFirst (isActiveBooking id) (bookings st)) as [[i b]|] eqn:Hf.
  2: { rewrite (completeBooking_not_found _ _ _ Hf). assumption. }
  pose proof Hf as Hf'. apply findFirst_Some in Hf'. destruct Hf' as (Hn & Hp & _).
  apply andb_prop in Hp. destruct Hp as [_ Hact].
  assert (Hclosed : forall x, Booking.isActive x = false ->
            Occupancy (set_docks (set_bookings st (setAt i x (bookings st)))
                                 (releaseDock (docks st) (Booking.dockID b)))).
  { intros x Hx. apply Occupancy_close; assumption. }
  destruct (findFirst (isDock (Booking.dockID b)) (docks st)) as [[j dk]|] eqn:Hd.
  - destruct (ChargingDock.energySource dk) as [src|] eqn:Hs.
    + rewrite (completeBooking_found cw _ _ _ _ _ _ _ Hf Hd Hs).
      eapply Occupancy_same; [| |apply (Hclosed (billed b (billedEnergy cw dk src b)
                                                        (billedCost cw st dk src b)))];
        reflexivity.
    + unfold completeBooking.
      change (fun b0 => (Booking.bookingID b0 =? id) && Booking.isActive b0)
        with (isActiveBooking id).
      rewrite Hf. cbn [docks set_bookings Booking.dockID Booking.cancelBooking].
      change (fun d => ChargingDock.dockID d =? Booking.dockID b)
        with (isDock (Booking.dockID b)).
      rewrite Hd, Hs. apply Hclosed. reflexivity.
  - unfold completeBooking.
    change (fun b0 => (Booking.bookingID b0 =? id) && Booking.isActive b0)
      with (isActiveBooking id).
    rewrite Hf. cbn [docks set_bookings Booking.dockID Booking.cancelBooking].
    change (fun d => ChargingDock.dockID d =? Booking.dockID b)
      with (isDock (Booking.dockID b)).
    rewrite Hd. apply Hclosed. reflexivity.
Qed.

Lemma docks_registerUser st id name level :
  docks (fst (fst (registerUser st id name level))) = docks st.
Proof.
  unfold registerUser. destruct (MAX_USERS <=? userCount st); [reflexivity|].
  destruct (existsb _ (users st)); reflexivity.
Qed.

Lemma docks_registerVehicle st vID uID soc capacity v2g :
  docks (fst (fst (registerVehicle st vID uID soc capacity v2g))) = docks st.
Proof.
  unfold registerVehicle. destruct (MAX_USERS <=? vehicleCount st); [reflexivity|].
  destruct (existsb _ (users st)); [|reflexivity].
  destruct (existsb _ (vehicles st)); reflexivity.
Qed.

Lemma docks_dischargeToGrid st vID energy :
  docks (fst (fst (dischargeToGrid st vID energy))) = docks st.
Proof.
  unfold dischargeToGrid. destruct (findFirst _ (vehicles st)) as [[i v]|]; [|reflexivity].
  destruct (EV.dischargeToGrid v energy); reflexivity.
Qed.

Lemma Occupancy_step w op :
  Inv (station w) -> Occupancy (station w) -> Occupancy (station (fst (step w op))).
Proof.
  intros HI HO. rewrite station_step. destruct op.
  - eapply Occupancy_same; [apply bookings_registerUser|apply docks_registerUser|assumption].
  - eapply Occupancy_same;
      [apply bookings_registerVehicle|apply docks_registerVehicle|assumption].
  - apply Occupancy_createBooking; assumption.
  - apply Occupancy_cancelBooking; assumption.
  - apply Occupancy_completeBooking; assumption.
  - eapply Occupancy_same;
      [apply bookings_dischargeToGrid|apply docks_dischargeToGrid|assumption].
  - assumption.
Qed.

(** In every reachable state the dock of an active booking is flagged
    occupied, and it carries no other active booking. *)
Lemma Occupancy_run sID ops : Occupancy (station (run (initWorld sID) ops)).
Proof.
  induction ops as [|op ops IH] using rev_ind.
  - split; intros i; intros; destruct i; discriminate.
  - rewrite run_snoc. apply Occupancy_step; [apply Inv_run|assumption].
Qed.

(** ** Candidate docks *)

Lemma isDockAvailable_spec st dockID s d :
  (List.length (bookings st) <= 20)%nat ->
  (isDockAvailable st dockID s d = true <->
   forall b, In b (bookings st) -> Booking.isActive b = true -> Booking.dockID b = dockID ->
             (s <? Booking.startTime b + Booking.duration b)%f32 &&
             (Booking.startTime b <? s + d)%f32 = false).
Proof.
  intros Hlen. unfold isDockAvailable, bookingCount, MAX_BOOKINGS.
  replace ((Z.of_nat (List.length (bookings st)) <? 0) ||
           (20 <? Z.of_nat (List.length (bookings st)))) with false.
  2: { symmetry. apply orb_false_iff. split; [apply Z.ltb_ge|apply Z.ltb_ge]; lia. }
  rewrite negb_true_iff. split.
  - intros H b Hin Hact Hd.
    destruct ((s <? Booking.startTime b + Booking.duration b)%f32 &&
              (Booking.startTime b <? s + d)%f32) eqn:Hc; [|reflexivity].
    assert (He : existsb (conflicts dockID s d) (bookings st) = true).
    { apply existsb_exists. exists b. split; [assumption|].
      unfold conflicts. rewrite Hact, Hd, Z.eqb_refl. exact Hc. }
    congruence.
  - intros H. destruct (existsb (conflicts dockID s d) (bookings st)) eqn:He; [|reflexivity].
    apply existsb_exists in He. destruct He as (b & Hin & Hc).
    unfold conflicts in Hc.
    apply andb_prop in Hc. destruct Hc as [Hc Ho].
    apply andb_prop in Hc. destruct Hc as [Hact Hd]. apply Z.eqb_eq in Hd.
    change (s + d >? Booking.startTime b)%f32
      with (Booking.startTime b <? s + d)%f32 in Ho.
    rewrite (H b Hin Hact Hd) in Ho. discriminate.
Qed.

(** The candidates of [findAvailableDock], condition by condition. *)
Lemma suitableDocks_spec (cw : WeatherCondition) (st : ChargingStation)
    (p : Z) (s d : F32.t) (isSolarCharging : bool) (dockID : Z) :
  (List.length (bookings st) <= 20)%nat ->
  (In dockID (suitableDocks cw st p s d isSolarCharging) <->
   exists dk src,
     In dk (docks st) /\ ChargingDock.dockID dk = dockID /\
     ChargingDock.energySource dk = Some src /\
     ChargingDock.isOccupied dk = false /\
     (forall b, In b (bookings st) -> Booking.isActive b = true ->
                Booking.dockID b = dockID ->
                (s <? Booking.startTime b + Booking.duration b)%f32 &&
                (Booking.startTime b <? s + d)%f32 = false) /\
     (getAvailablePower cw src (F32.of_int (ChargingDock.powerRating dk))
        >=? F32.of_int p)%f32 = true /\
     (isSolarCharging = true -> src = SolarPower)).
Proof.
  intros Hlen. rewrite suitableDocks_In. split.
  - intros (dk & Hin & Hid & Hs). unfold suitable in Hs.
    destruct (ChargingDock.energySource dk) as [src|] eqn:Hsrc; [|discriminate].
    apply andb_prop in Hs. destruct Hs as [Hs Hfree].
    apply andb_prop in Hs. destruct Hs as [Hs Hsol].
    apply andb_prop in Hs. destruct Hs as [Hocc Hpow].
    exists dk, src. split; [assumption|]. split; [assumption|]. split; [exact Hsrc|].
    split; [apply negb_true_iff; assumption|]. split.
    { apply isDockAvailable_spec; [assumption|]. rewrite <- Hid. assumption. }
    split; [assumption|].
    intros ->. simpl in Hsol. destruct src; [discriminate|reflexivity].
  - intros (dk & src & Hin & Hid & Hsrc & Hocc & Hfree & Hpow & Hsol).
    exists dk. split; [assumption|]. split; [assumption|].
    unfold suitable. rewrite Hsrc, Hocc, Hpow. simpl.
    apply andb_true_intro. split.
    + destruct isSolarCharging; [|reflexivity]. rewrite (Hsol eq_refl). reflexivity.
    + rewrite Hid. apply isDockAvailable_spec; assumption.
Qed.

(** * The claims *)

(** ** C1: Billing at completion *)

(** C1 (amended). In every reachable state [completeBooking] on an active
    booking records the energy [P * D], where [P] is the power available at
    its dock under the current weather and [D] the duration, and the cost
    [energy * rate], times 0.85 when the user is Premium.  The rate is the
    base rate of the charging type (0.2, 0.3, 0.4, 0.15), times 0.85 for
    type Solar, times 1.2 for a stored start in [[12, 18)], times the
    adjustment of the source of the dock (Grid 1.0, Solar 0.9), in this
    order.  For type Fast, a start off peak and a user who is not Premium
    the cost is [P * D * 0.4] on a Grid dock; for type Solar, a peak start
    and a Premium user it is [(P * D) * (0.15 * 0.85 * 1.2 * 0.9) * 0.85]. *)
Theorem completeBooking_billing (sID : Z) (ops : list Op) (i : nat) (b : Booking.t) :
  let w := run (initWorld sID) ops in
  let st := station w in
  let cw := currentWeather w in
  nth_error (bookings st) i = Some b ->
  Booking.isActive b = true ->
  exists dk src b',
    dockOf st (Booking.dockID b) = Some dk /\
    ChargingDock.energySource dk = Some src /\
    nth_error (bookings (fst (completeBooking cw st (Booking.bookingID b)))) i = Some b' /\
    let P := getAvailablePower cw src (F32.of_int (ChargingDock.powerRating dk)) in
    let D := Booking.duration b in
    let type := Booking.chargingType b in
    let peak := isPeak (Booking.startTime b) in
    let premium := isPremium st (Booking.userID b) in
    let base :=
      if type =? 1 then F32.lit 2 10
      else if type =? 2 then F32.lit 3 10
      else if type =? 3 then F32.lit 4 10
      else if type =? 4 then F32.lit 15 100
      else f0 in
    let solar := if type =? 4 then (base * F32.lit 85 100)%f32 else base in
    let surcharged := if peak then (solar * F32.lit 12 10)%f32 else solar in
    let rate :=
      (surcharged * match src with GridPower => f1 | SolarPower => F32.lit 9 10 end)%f32 in
    Booking.isActive b' = false /\
    Booking.energyConsumed b' = (P * D)%f32 /\
    Booking.cost b' =
      (if premium then ((P * D) * rate * F32.lit 85 100)%f32 else ((P * D) * rate)%f32) /\
    (type = 3 -> peak = false -> premium = false -> src = GridPower ->
     Booking.cost b' = (P * D * F32.lit 4 10)%f32) /\
    (type = 4 -> peak = true -> premium = true ->
     Booking.cost b' =
       ((P * D) * (F32.lit 15 100 * F32.lit 85 100 * F32.lit 12 10 * F32.lit 9 10)
        * F32.lit 85 100)%f32).
Proof.
  intros w st cw Hn Hact.
  pose proof (Inv_run sID ops) as HI. fold w st in HI.
  pose proof (findFirst_active _ _ _ HI Hn Hact) as Hf.
  destruct (Inv_booking_dock _ _ _ HI Hn) as (j & dk & Hd & Hin & _).
  destruct (layout_source _ Hin) as [src Hsrc].
  exists dk, src, (billed b (billedEnergy cw dk src b) (billedCost cw st dk src b)).
  split. { unfold dockOf. rewrite Hd. reflexivity. }
  split; [assumption|]. split.
  { rewrite (completeBooking_found cw _ _ _ _ _ _ _ Hf Hd Hsrc). simpl.
    apply nth_error_setAt_eq. apply nth_error_Some. congruence. }
  destruct rate_constants as (Rg & Rs & R4).
  assert (Hrate : ratePerKWh b src =
    ((if isPeak (Booking.startTime b)
      then (if Booking.chargingType b =? 4
            then baseRate (Booking.chargingType b) * F32.lit 85 100
            else baseRate (Booking.chargingType b)) * F32.lit 12 10
      else (if Booking.chargingType b =? 4
            then baseRate (Booking.chargingType b) * F32.lit 85 100
            else baseRate (Booking.chargingType b)))
     * match src with GridPower => f1 | SolarPower => F32.lit 9 10 end)%f32).
  { unfold ratePerKWh. destruct src; [rewrite Rg|rewrite Rs]; reflexivity. }
  cbv zeta. split; [reflexivity|]. split; [reflexivity|].
  unfold billed, billedCost, billedEnergy. cbn [Booking.cost Booking.set_cost].
  rewrite Hrate. unfold baseRate.
  split; [reflexivity|]. split.
  - intros Ht Hp Hprem ->. rewrite Ht, Hp, Hprem. cbn [Z.eqb Pos.eqb].
    rewrite R4. reflexivity.
  - intros Ht Hp Hprem.
    pose proof (solar_booking_dock _ _ _ _ _ HI Hn Ht Hd) as Hsolar.
    rewrite Hsrc in Hsolar. inversion Hsolar; subst src.
    rewrite Ht, Hp, Hprem. cbn [Z.eqb Pos.eqb]. reflexivity.
Qed.

Lemma completeBooking_billing_witness :
  nth_error (bookings (station (run (initWorld 1) solarAtPeak))) 0 = Some solarPeakBooking /\
  Booking.isActive solarPeakBooking = true /\
  exists b',
    nth_error (bookings (fst (completeBooking SUNNY (station (run (initWorld 1) solarAtPeak)) 1))) 0
    = Some b' /\
    Booking.energyConsumed b' = (F32.of_int 7 * F32.of_int 2)%f32 /\
    Booking.cost b' =
      ((F32.of_int 7 * F32.of_int 2)
       * (F32.lit 15 100 * F32.lit 85 100 * F32.lit 12 10 * F32.lit 9 10)
       * F32.lit 85 100)%f32.
Proof.
  assert (H1 : nth_error (bookings (station (run (initWorld 1) solarAtPeak))) 0
               = Some solarPeakBooking) by (vm_compute; reflexivity).
  assert (H2 : Booking.isActive solarPeakBooking = true) by reflexivity.
  split; [exact H1|]. split; [exact H2|].
  destruct (completeBooking_billing 1 solarAtPeak 0 solarPeakBooking H1 H2)
    as (dk & src & b' & Hdk & Hsrc & Hb' & _ & He & _ & _ & Hc).
  exists b'. split; [exact Hb'|].
  assert (Hdock : dk = ChargingDock.mk 2 7 true 1 (Some SolarPower)).
  { vm_compute in Hdk. congruence. }
  subst dk. assert (src = SolarPower) by (simpl in Hsrc; congruence). subst src.
  split; [exact He|].
  apply Hc; vm_compute; reflexivity.
Defined.

(** C1, as stated, fails: a Fast booking (type 3) asked with power 7 while
    dock 1 is taken lands on the Solar dock 2; it starts off peak, its user
    is not Premium, the dock delivers [P = 7] for [D = 1] hour, and the cost
    is [P * D * (0.4 * 0.9)], not [P * D * 0.4]. *)
Lemma fast_booking_on_solar_dock :
  let st := station (run (initWorld 1) fastOnSolar) in
  let P := getAvailablePower SUNNY SolarPower (F32.of_int 7) in
  let D := F32.of_int 1 in
  exists b dk b',
    nth_error (bookings st) 1 = Some b /\
    Booking.isActive b = true /\
    Booking.chargingType b = 3 /\
    isPeak (Booking.startTime b) = false /\
    isPremium st (Booking.userID b) = false /\
    Booking.duration b = D /\
    dockOf st (Booking.dockID b) = Some dk /\
    ChargingDock.powerRating dk = 7 /\
    ChargingDock.energySource dk = Some SolarPower /\
    nth_error (bookings (fst (completeBooking SUNNY st (Booking.bookingID b)))) 1 = Some b' /\
    Booking.energyConsumed b' = (P * D)%f32 /\
    Booking.cost b' = (P * D * (F32.lit 4 10 * F32.lit 9 10))%f32 /\
    Booking.cost b' <> (P * D * F32.lit 4 10)%f32.
Proof.
  eexists. eexists. eexists.
  split; [vm_compute; reflexivity|].
  split; [reflexivity|]. split; [reflexivity|]. split; [vm_compute; reflexivity|].
  split; [vm_compute; reflexivity|]. split; [reflexivity|].
  split; [vm_compute; reflexivity|]. split; [reflexivity|]. split; [reflexivity|].
  split; [vm_compute; reflexivity|]. split; [vm_compute; reflexivity|].
  split; [vm_compute; reflexivity|].
  vm_compute. discriminate.
Qed.

(** ** C2: Peak deferral *)

(** C2. In every reachable state, a request that passes the checks of
    [createBooking], made by user [u] for vehicle [v], is deferred (the user
    is told the new start 18.0) exactly when [startTime] lies in
    [[12.0, 18.0)] and the request is not critical, that is the user is not
    Premium and the charge of the vehicle is not below 20.  A booking that
    is created starts at 18.0 when the request was deferred and at the
    requested time otherwise, so a critical request at a peak time keeps
    its time.  For a charge that is a number, not below 20 is the same as
    at least 20.  12.0 is peak, 11.999 and 18.0 are not. *)
Theorem peak_deferral (sID : Z) (ops : list Op) (u : User.t) (v : EV.t)
    (s d : F32.t) (p t : Z) :
  let w := run (initWorld sID) ops in
  let st := station w in
  In u (users st) ->
  In v (vehicles st) ->
  requestValid st (User.userID u) (EV.vehicleID v) s d = true ->
  let peak := (s >=? PEAK_START)%f32 && (s <? PEAK_END)%f32 in
  let critical := (User.membershipLevel u =? 1) || (EV.batterySOC v <? f20)%f32 in
  let deferred := peak && negb critical in
  let result :=
    createBooking (currentWeather w) st (User.userID u) (EV.vehicleID v) s d p t in
  (In (Notify (User.userID u) deferralMsg PEAK_END) (snd result) <-> deferred = true) /\
  (snd (fst result) = true ->
   exists b, nth_error (bookings (fst (fst result))) (List.length (bookings st)) = Some b /\
             Booking.startTime b = if deferred then PEAK_END else s) /\
  (F32.is_nan (EV.batterySOC v) = false ->
   (deferred = true <->
    peak = true /\ User.membershipLevel u <> 1 /\ (EV.batterySOC v >=? f20)%f32 = true)) /\
  isPeak (F32.of_int 12) = true /\
  isPeak (F32.lit 11999 1000) = false /\
  isPeak (F32.of_int 18) = false.
Proof.
  intros w st Hu Hv Hvalid peak critical deferred result.
  pose proof (Inv_run sID ops) as HI. fold w st in HI.
  assert (Hdef : isDeferred st (User.userID u) (EV.vehicleID v) s = deferred).
  { unfold isDeferred. rewrite isCriticalBooking_spec by assumption. reflexivity. }
  split; [|split; [|split; [|repeat split; vm_compute; reflexivity]]].
  - subst result. rewrite createBooking_valid by assumption. cbv zeta.
    unfold effectiveStart. rewrite Hdef.
    destruct deferred.
    + split; [reflexivity|]. intros _.
      destruct (findAvailableDock _ _ _ _ _ _ =? -1); simpl; auto.
    + split; [|discriminate]. intros Hin.
      destruct (findAvailableDock _ _ _ _ _ _ =? -1); simpl in Hin;
        repeat (destruct Hin as [Hin|Hin]; [discriminate Hin|]); destruct Hin.
  - intros Hok.
    destruct (createBooking_accepted _ _ _ _ _ _ _ _ Hok) as (_ & _ & Hst).
    fold result in Hst. rewrite Hst.
    exists (newBooking (currentWeather w) st (User.userID u) (EV.vehicleID v) s d p t).
    split.
    + unfold booked. simpl. rewrite bookings_anchored.
      rewrite nth_error_app2 by lia. rewrite Nat.sub_diag. reflexivity.
    + unfold newBooking. simpl. unfold effectiveStart. rewrite Hdef. reflexivity.
  - intros Hnan. subst deferred critical.
    rewrite (F32_geb_ltb (EV.batterySOC v) f20 Hnan eq_refl).
    destruct peak, (User.membershipLevel u =? 1) eqn:Hm, (EV.batterySOC v <? f20)%f32;
      simpl; (apply Z.eqb_eq in Hm || apply Z.eqb_neq in Hm);
      split; try discriminate; try tauto; intros (? & ? & ?); try discriminate; tauto.
Qed.

Lemma peak_deferral_witness :
  In regularUser (users (station (run (initWorld 1) oneVehicle))) /\
  In halfCharged (vehicles (station (run (initWorld 1) oneVehicle))) /\
  requestValid (station (run (initWorld 1) oneVehicle)) 1 1 (F32.of_int 14) (F32.of_int 1) = true /\
  exists b,
    nth_error (bookings (fst (fst (createBooking SUNNY (station (run (initWorld 1) oneVehicle))
                                                 1 1 (F32.of_int 14) (F32.of_int 1) 7 1)))) 0
    = Some b /\
    Booking.startTime b = PEAK_END.
Proof.
  assert (H1 : In regularUser (users (station (run (initWorld 1) oneVehicle))))
    by (vm_compute; auto).
  assert (H2 : In halfCharged (vehicles (station (run (initWorld 1) oneVehicle))))
    by (vm_compute; auto).
  assert (H3 : requestValid (station (run (initWorld 1) oneVehicle)) 1 1
                            (F32.of_int 14) (F32.of_int 1) = true)
    by (vm_compute; reflexivity).
  split; [exact H1|]. split; [exact H2|]. split; [exact H3|].
  destruct (peak_deferral 1 oneVehicle regularUser halfCharged
                          (F32.of_int 14) (F32.of_int 1) 7 1 H1 H2 H3) as (_ & Hb & _).
  apply Hb. vm_compute. reflexivity.
Defined.

(** ** C3: Candidate docks *)

(** C3 (amended). With at most [MAX_BOOKINGS] bookings in the ledger, the
    candidates of [findAvailableDock] are exactly the IDs of the docks that
    are not flagged occupied and for which (a) no active booking of the
    dock meets the window [[s, s + d)] under the test
    [s < s2 + d2 && s2 < s + d], (b) the power available under the current
    weather is at least the power asked for, and (c) the source is Solar
    when Solar charging is asked for.  In every reachable state the dock of
    an active booking is flagged occupied, so it is no candidate, whatever
    the window. *)
Theorem candidate_docks :
  (forall (cw : WeatherCondition) (st : ChargingStation)
          (p : Z) (s d : F32.t) (isSolarCharging : bool) (dockID : Z),
     (List.length (bookings st) <= 20)%nat ->
     (In dockID (suitableDocks cw st p s d isSolarCharging) <->
      exists dk src,
        In dk (docks st) /\ ChargingDock.dockID dk = dockID /\
        ChargingDock.energySource dk = Some src /\
        ChargingDock.isOccupied dk = false /\
        (forall b, In b (bookings st) -> Booking.isActive b = true ->
                   Booking.dockID b = dockID ->
                   (s <? Booking.startTime b + Booking.duration b)%f32 &&
                   (Booking.startTime b <? s + d)%f32 = false) /\
        (getAvailablePower cw src (F32.of_int (ChargingDock.powerRating dk))
           >=? F32.of_int p)%f32 = true /\
        (isSolarCharging = true -> src = SolarPower))) /\
  (forall (sID : Z) (ops : list Op) (i : nat) (b : Booking.t)
          (cw : WeatherCondition) (p : Z) (s d : F32.t) (isSolarCharging : bool),
     let st := station (run (initWorld sID) ops) in
     nth_error (bookings st) i = Some b -> Booking.isActive b = true ->
     ~ In (Booking.dockID b) (suitableDocks cw st p s d isSolarCharging)).
Proof.
  split; [exact suitableDocks_spec|].
  intros sID ops i b cw p s d sol st Hn Hact Hin.
  pose proof (Inv_run sID ops) as HI. fold st in HI.
  destruct (Occupancy_run sID ops) as [O1 _]. fold st in O1.
  destruct (O1 i b Hn Hact) as (dk & Hdk & Hocc).
  destruct (candidate_free _ _ _ _ _ _ _ (inv_layout _ HI) Hin) as (dk' & Hdk' & Hfree).
  congruence.
Qed.

Lemma candidate_docks_witness :
  (List.length (bookings (station (run (initWorld 1) twoBookings))) <= 20)%nat /\
  In 3 (suitableDocks SUNNY (station (run (initWorld 1) twoBookings))
                      7 (F32.of_int 9) (F32.of_int 1) false) /\
  nth_error (bookings (station (run (initWorld 1) twoBookings))) 0
    = Some (Booking.createBooking 1 1 1 1 1 (F32.of_int 9) (F32.of_int 2) 1) /\
  ~ In 1 (suitableDocks SUNNY (station (run (initWorld 1) twoBookings))
                        7 (F32.of_int 12) (F32.of_int 1) false).
Proof.
  assert (H : (List.length (bookings (station (run (initWorld 1) twoBookings))) <= 20)%nat)
    by (simpl; lia).
  assert (Hb : nth_error (bookings (station (run (initWorld 1) twoBookings))) 0
               = Some (Booking.createBooking 1 1 1 1 1 (F32.of_int 9) (F32.of_int 2) 1))
    by (vm_compute; reflexivity).
  split; [exact H|]. split.
  - apply (proj1 candidate_docks SUNNY (station (run (initWorld 1) twoBookings))
             7 (F32.of_int 9) (F32.of_int 1) false 3 H).
    exists (ChargingDock.initialize 3 MEDIUM GridPower), GridPower.
    split; [vm_compute; auto|]. split; [reflexivity|]. split; [reflexivity|].
    split; [reflexivity|]. split.
    + intros b Hin. vm_compute in Hin. destruct Hin as [<-|[<-|[]]]; discriminate.
    + split; [vm_compute; reflexivity|discriminate].
  - split; [exact Hb|].
    exact (proj2 candidate_docks 1 twoBookings 0%nat _ SUNNY 7 (F32.of_int 12) (F32.of_int 1)
                 false Hb eq_refl).
Defined.

(** C3, as stated, fails: dock 1 carries one active booking, on [[8, 9)];
    for the window [[10, 11)], power 7 and no Solar charging it meets (a),
    (b) and (c), yet it is not a candidate, because it is flagged
    occupied. *)
Lemma occupied_dock_not_candidate :
  let st := station (run (initWorld 1) morningBooking) in
  let s := F32.of_int 10 in
  let d := F32.of_int 1 in
  exists dk,
    In dk (docks st) /\ ChargingDock.dockID dk = 1 /\
    ChargingDock.energySource dk = Some GridPower /\
    (forall b, In b (bookings st) -> Booking.isActive b = true -> Booking.dockID b = 1 ->
               (s <? Booking.startTime b + Booking.duration b)%f32 &&
               (Booking.startTime b <? s + d)%f32 = false) /\
    isDockAvailable st 1 s d = true /\
    (getAvailablePower SUNNY GridPower (F32.of_int (ChargingDock.powerRating dk))
       >=? F32.of_int 7)%f32 = true /\
    ChargingDock.isOccupied dk = true /\
    ~ In 1 (suitableDocks SUNNY st 7 s d false).
Proof.
  exists (ChargingDock.mk 1 7 true 1 (Some GridPower)).
  split; [vm_compute; auto|]. split; [reflexivity|]. split; [reflexivity|].
  split. { intros b Hb. vm_compute in Hb. destruct Hb as [<-|[]]. vm_compute. reflexivity. }
  split; [vm_compute; reflexivity|]. split; [vm_compute; reflexivity|].
  split; [reflexivity|].
  vm_compute. intros [H|[H|[H|[H|[]]]]]; discriminate.
Qed.

(** ** C4: No overlap on a dock *)

(** C4. Every operation of the station (registration, [createBooking],
    [cancelBooking], [completeBooking], discharge to the grid, change of
    weather) preserves the invariant that, on every dock, two distinct
    active bookings never have overlapping half-open intervals
    [[startTime, startTime + duration)]. *)
Theorem no_overlap_preserved (w : World) (op : Op) :
  NoOverlap (station w) -> NoOverlap (station (fst (step w op))).
Proof. exact (NoOverlap_step w op). Qed.

Lemma no_overlap_preserved_witness :
  NoOverlap (station (run (initWorld 1) twoBookings)) /\
  NoOverlap (station (fst (step (run (initWorld 1) twoBookings)
                                (CreateBooking 1 1 (F32.of_int 10) (F32.of_int 1) 7 1)))).
Proof.
  assert (H : NoOverlap (station (run (initWorld 1) twoBookings))).
  { apply noOverlapb_sound. vm_compute. reflexivity. }
  split; [exact H|].
  apply (no_overlap_preserved (run (initWorld 1) twoBookings)
           (CreateBooking 1 1 (F32.of_int 10) (F32.of_int 1) 7 1) H).
Defined.

(** ** C5: The anchor of the first booking *)

(** C5 (amended). When [createBooking] succeeds on a reachable station with
    an empty ledger, [systemStartTime] becomes the start time the request
    asked for; the booking stores that time too unless the request was
    deferred, in which case it stores 18.0.  No later operation moves the
    anchor: every later cancellation charges the penalty for
    [startTime - s], and the report measures the elapsed time from [s]. *)
Theorem anchor_of_first_booking (sID : Z) (ops : list Op)
    (uID vID : Z) (s d : F32.t) (p t : Z) :
  let w := run (initWorld sID) ops in
  let st := station w in
  let result := createBooking (currentWeather w) st uID vID s d p t in
  bookings st = [] ->
  snd (fst result) = true ->
  let st1 := fst (fst result) in
  let deferred := isPeak s && negb (isCriticalBooking st uID vID) in
  systemStartTime st1 = s /\
  (exists b, bookings st1 = [b] /\
             Booking.startTime b = if deferred then PEAK_END else s) /\
  forall (later : list Op),
    let st2 := station (run (mkWorld (currentWeather w) st1) later) in
    systemStartTime st2 = s /\
    (forall i b, nth_error (bookings st2) i = Some b -> Booking.isActive b = true ->
                 snd (cancelBooking st2 (Booking.bookingID b)) =
                 [Notify (Booking.userID b) cancellationMsg
                         (penaltyFor (Booking.startTime b - s)%f32)]) /\
    utilization st2 =
      (let latestEndTime :=
         fold_left
           (fun latest b =>
              let endTime := (Booking.startTime b + Booking.duration b)%f32 in
              if (endTime >? latest)%f32 then endTime else latest)
           (bookings st2) s in
       let totalSystemTime := (latestEndTime - s)%f32 in
       let totalOccupied := fold_left F32.add (totalOccupiedTime st2) f0 in
       if (totalSystemTime >? f0)%f32 then
         ((totalOccupied / (totalSystemTime * F32.of_int MAX_DOCKS)) * f100)%f32
       else f0).
Proof.
  intros w st result Hempty Hok st1 deferred.
  pose proof (Inv_run sID ops) as HI. fold w st in HI.
  pose proof (Inv_createBooking (currentWeather w) st uID vID s d p t HI) as HI1.
  fold result st1 in HI1.
  destruct (createBooking_accepted _ _ _ _ _ _ _ _ Hok) as (_ & _ & Hst1).
  fold result st1 in Hst1.
  assert (Hanchor : systemStartTime st1 = s).
  { rewrite Hst1. unfold booked. simpl. apply systemStartTime_anchored_empty. assumption. }
  assert (Hbs : bookings st1 = [newBooking (currentWeather w) st uID vID s d p t]).
  { rewrite Hst1. unfold booked. simpl. rewrite bookings_anchored, Hempty. reflexivity. }
  split; [assumption|]. split.
  { eexists. split; [exact Hbs|]. reflexivity. }
  intros later st2.
  assert (Hne : bookings (station (mkWorld (currentWeather w) st1)) <> []).
  { simpl. rewrite Hbs. discriminate. }
  destruct (anchor_fixed_run (mkWorld (currentWeather w) st1) later Hne) as [Hne2 Hs2].
  fold st2 in Hne2, Hs2. simpl in Hs2. rewrite Hanchor in Hs2.
  assert (HI2 : Inv st2).
  { apply (Inv_run_from (mkWorld (currentWeather w) st1)). assumption. }
  split; [assumption|]. split.
  - intros i b Hn Hact.
    rewrite (cancelBooking_found _ _ _ _ (findFirst_active _ _ _ HI2 Hn Hact)).
    simpl. rewrite Hs2. reflexivity.
  - unfold utilization. rewrite Hs2.
    replace (bookingCount st2 >? 0) with true; [reflexivity|].
    symmetry. unfold bookingCount. destruct (bookings st2); [contradiction|reflexivity].
Qed.

Lemma anchor_of_first_booking_witness :
  bookings (station (run (initWorld 1) oneVehicle)) = [] /\
  snd (fst (createBooking SUNNY (station (run (initWorld 1) oneVehicle))
                          1 1 (F32.of_int 14) (F32.of_int 1) 7 1)) = true /\
  systemStartTime (fst (fst (createBooking SUNNY (station (run (initWorld 1) oneVehicle))
                                           1 1 (F32.of_int 14) (F32.of_int 1) 7 1)))
  = F32.of_int 14.
Proof.
  assert (H1 : bookings (station (run (initWorld 1) oneVehicle)) = []) by reflexivity.
  assert (H2 : snd (fst (createBooking SUNNY (station (run (initWorld 1) oneVehicle))
                                      1 1 (F32.of_int 14) (F32.of_int 1) 7 1)) = true)
    by (vm_compute; reflexivity).
  split; [exact H1|]. split; [exact H2|].
  exact (proj1 (anchor_of_first_booking 1 oneVehicle 1 1 (F32.of_int 14) (F32.of_int 1) 7 1
                                        H1 H2)).
Defined.

(** C5, as stated, fails: the first request of a station, by a user who is
    not Premium with a vehicle at 50, asks for 14:00; it is deferred, the
    booking stores 18.0, and [systemStartTime] is 14.0. *)
Lemma anchor_differs_from_stored_start :
  let st := station (run (initWorld 1)
                         (oneVehicle ++ [CreateBooking 1 1 (F32.of_int 14) (F32.of_int 1) 7 1])) in
  exists b,
    bookings st = [b] /\
    Booking.startTime b = F32.of_int 18 /\
    systemStartTime st = F32.of_int 14 /\
    systemStartTime st <> Booking.startTime b.
Proof.
  eexists. split; [vm_compute; reflexivity|].
  split; [vm_compute; reflexivity|]. split; [vm_compute; reflexivity|].
  vm_compute. discriminate.
Qed.

(** ** C6: Cancellation penalty *)

(** C6. In every reachable state, cancelling an active booking notifies its
    user of the flat penalty fixed by
    [timeToStart = startTime - systemStartTime] (5.0 below 1.0, else 2.0
    below 4.0, else 0.0), marks the booking inactive with its other fields
    untouched, and leaves its dock unoccupied with no vehicle.  The penalty
    is 5.0 at 0.5, 2.0 at 2.0 and 0.0 at 5.0. *)
Theorem cancelBooking_penalty (sID : Z) (ops : list Op) (i : nat) (b : Booking.t) :
  let st := station (run (initWorld sID) ops) in
  nth_error (bookings st) i = Some b ->
  Booking.isActive b = true ->
  let timeToStart := (Booking.startTime b - systemStartTime st)%f32 in
  let penalty :=
    if (timeToStart <? f1)%f32 then f5 else if (timeToStart <? f4)%f32 then f2 else f0 in
  let st' := fst (cancelBooking st (Booking.bookingID b)) in
  snd (cancelBooking st (Booking.bookingID b))
    = [Notify (Booking.userID b) cancellationMsg penalty] /\
  penalty = penaltyFor timeToStart /\
  nth_error (bookings st') i = Some (Booking.cancelBooking b) /\
  Booking.isActive (Booking.cancelBooking b) = false /\
  (exists d, dockOf st' (Booking.dockID b) = Some d /\
             ChargingDock.isOccupied d = false /\ ChargingDock.currentVehicleID d = -1) /\
  penaltyFor (F32.lit 5 10) = f5 /\ penaltyFor f2 = f2 /\ penaltyFor f5 = f0.
Proof.
  intros st Hn Hact timeToStart penalty st'.
  pose proof (Inv_run sID ops) as HI. fold st in HI.
  pose proof (findFirst_active _ _ _ HI Hn Hact) as Hf.
  subst st'. rewrite (cancelBooking_found _ _ _ _ Hf). simpl.
  split; [reflexivity|]. split; [reflexivity|]. split.
  { apply nth_error_setAt_eq. apply nth_error_Some. congruence. }
  split; [reflexivity|]. split.
  { destruct (Inv_booking_dock _ _ _ HI Hn) as (j & d & Hd & _).
    exists (ChargingDock.release d). split; [|split; reflexivity].
    apply (dockOf_releaseDock
             (set_bookings st (setAt i (Booking.cancelBooking b) (bookings st))) _ _ _ Hd). }
  repeat split; vm_compute; reflexivity.
Qed.

Lemma cancelBooking_penalty_witness :
  nth_error (bookings (station (run (initWorld 1) lateSession))) 1 = Some lateBooking /\
  Booking.isActive lateBooking = true /\
  snd (cancelBooking (station (run (initWorld 1) lateSession)) 2)
    = [Notify 1 cancellationMsg f5].
Proof.
  assert (H1 : nth_error (bookings (station (run (initWorld 1) lateSession))) 1
               = Some lateBooking) by (vm_compute; reflexivity).
  assert (H2 : Booking.isActive lateBooking = true) by reflexivity.
  split; [exact H1|]. split; [exact H2|].
  exact (proj1 (cancelBooking_penalty 1 lateSession 1 lateBooking H1 H2)).
Defined.

(** ** C7: Create, then cancel *)

(** C7 (amended). In every reachable state, a booking that [createBooking]
    has just created and [cancelBooking] then cancels ends inactive, with
    cost 0 and energy 0, and the dock hours and the vehicles are as before
    the request; its dock is unoccupied.  The program keeps the single flag
    [isActive] and has no status Cancelled: [viewUserBookings] prints
    "Completed" for the cancelled booking.  After any further operations
    [completeBooking] on its ID changes nothing and prints nothing. *)
Theorem create_cancel_roundtrip (sID : Z) (ops : list Op)
    (uID vID : Z) (s d : F32.t) (p t : Z) :
  let w := run (initWorld sID) ops in
  let st := station w in
  let created := createBooking (currentWeather w) st uID vID s d p t in
  snd (fst created) = true ->
  let st1 := fst (fst created) in
  let n := List.length (bookings st) in
  let id := Z.of_nat n + 1 in
  let st2 := fst (cancelBooking st1 id) in
  exists b,
    nth_error (bookings st1) n = Some b /\
    Booking.bookingID b = id /\ Booking.isActive b = true /\
    nth_error (bookings st2) n = Some (Booking.cancelBooking b) /\
    Booking.isActive (Booking.cancelBooking b) = false /\
    Booking.cost (Booking.cancelBooking b) = f0 /\
    Booking.energyConsumed (Booking.cancelBooking b) = f0 /\
    statusLabel (Booking.cancelBooking b) = "Completed" /\
    (exists dk, dockOf st2 (Booking.dockID b) = Some dk /\
                ChargingDock.isOccupied dk = false) /\
    totalOccupiedTime st2 = totalOccupiedTime st /\
    vehicles st2 = vehicles st /\
    forall (later : list Op) (cw : WeatherCondition),
      let st3 := station (run (mkWorld (currentWeather w) st2) later) in
      completeBooking cw st3 id = (st3, []).
Proof.
  intros w st created Hok st1 n id st2.
  pose proof (Inv_run sID ops) as HI. fold w st in HI.
  pose proof (Inv_createBooking (currentWeather w) st uID vID s d p t HI) as HI1.
  fold created st1 in HI1.
  destruct (createBooking_accepted _ _ _ _ _ _ _ _ Hok) as (_ & _ & Hst1).
  fold created st1 in Hst1.
  set (b := newBooking (currentWeather w) st uID vID s d p t) in *.
  destruct (anchored_fields st s) as (Ad & _ & Av & Ab & At & _).
  assert (Hbs : bookings st1 = bookings st ++ [b]).
  { rewrite Hst1. unfold booked. simpl. rewrite Ab. reflexivity. }
  assert (Hn : nth_error (bookings st1) n = Some b).
  { rewrite Hbs, nth_error_app2 by (unfold n; lia).
    unfold n. rewrite Nat.sub_diag. reflexivity. }
  assert (Hid : Booking.bookingID b = id).
  { unfold b, newBooking. simpl. rewrite bookingCount_anchored. reflexivity. }
  assert (Hact : Booking.isActive b = true) by reflexivity.
  pose proof (findFirst_active _ _ _ HI1 Hn Hact) as Hf. rewrite Hid in Hf.
  assert (Hst2 : st2 = fst (cancelBooking st1 id)) by reflexivity.
  rewrite (cancelBooking_found _ _ _ _ Hf) in Hst2. simpl in Hst2.
  assert (HI2 : Inv st2) by (apply Inv_cancelBooking; assumption).
  exists b. split; [assumption|]. split; [assumption|]. split; [assumption|].
  assert (Hn2 : nth_error (bookings st2) n = Some (Booking.cancelBooking b)).
  { rewrite Hst2. simpl. apply nth_error_setAt_eq. apply nth_error_Some. congruence. }
  split; [assumption|]. split; [reflexivity|]. split; [reflexivity|].
  split; [reflexivity|]. split; [reflexivity|]. split.
  { destruct (Inv_booking_dock _ _ _ HI1 Hn) as (j & dk & Hd & _).
    exists (ChargingDock.release dk). split; [|reflexivity].
    rewrite Hst2.
    apply (dockOf_releaseDock
             (set_bookings st1 (setAt n (Booking.cancelBooking b) (bookings st1))) _ _ _ Hd). }
  split. { rewrite Hst2, Hst1. unfold booked. simpl. assumption. }
  split. { rewrite Hst2, Hst1. unfold booked. simpl. assumption. }
  intros later cw st3.
  assert (Hlen2 : List.length (bookings st2) = S n).
  { rewrite Hst2. simpl. rewrite length_setAt, Hbs, length_app. simpl. unfold n. lia. }
  assert (Hset : settled st2 id).
  { split.
    - unfold bookingCount. rewrite Hlen2. unfold id. lia.
    - intros i b' Hi Hb'. pose proof (Inv_bookingID _ _ _ HI2 Hi) as Hi'.
      assert (i = n) by (unfold id in Hb'; lia). subst i.
      rewrite Hn2 in Hi. inversion Hi. reflexivity. }
  apply completeBooking_settled.
  - apply (Inv_run_from (mkWorld (currentWeather w) st2)). assumption.
  - apply (settled_run (mkWorld (currentWeather w) st2)). assumption.
Qed.

Lemma create_cancel_roundtrip_witness :
  snd (fst (createBooking SUNNY (station (run (initWorld 1) oneVehicle))
                          1 1 (F32.of_int 9) (F32.of_int 2) 7 1)) = true /\
  exists b,
    nth_error
      (bookings (fst (cancelBooking
         (fst (fst (createBooking SUNNY (station (run (initWorld 1) oneVehicle))
                                  1 1 (F32.of_int 9) (F32.of_int 2) 7 1))) 1))) 0
    = Some b /\ Booking.isActive b = false.
Proof.
  assert (H : snd (fst (createBooking SUNNY (station (run (initWorld 1) oneVehicle))
                                     1 1 (F32.of_int 9) (F32.of_int 2) 7 1)) = true)
    by (vm_compute; reflexivity).
  split; [exact H|].
  destruct (create_cancel_roundtrip 1 oneVehicle 1 1 (F32.of_int 9) (F32.of_int 2) 7 1 H)
    as (b & _ & _ & _ & Hc & Hoff & _).
  exists (Booking.cancelBooking b). split; [exact Hc|exact Hoff].
Defined.

(** C7, as stated, fails: the booking created for 9:00 and then cancelled
    has no cost and no energy on record, and the list of the user's
    bookings shows it with the status "Completed". *)
Lemma cancelled_booking_listed_completed :
  let st := station (run (initWorld 1) oneVehicle) in
  let st1 := fst (fst (createBooking SUNNY st 1 1 (F32.of_int 9) (F32.of_int 2) 7 1)) in
  let st2 := fst (cancelBooking st1 1) in
  bookings st2 =
    [Booking.cancelBooking
       (Booking.createBooking 1 1 1 1 1 (F32.of_int 9) (F32.of_int 2) 1)] /\
  viewUserBookings st1 1 = [BookingLine 1 1 1 (F32.of_int 9) (F32.of_int 2) "Active"] /\
  viewUserBookings st2 1 = [BookingLine 1 1 1 (F32.of_int 9) (F32.of_int 2) "Completed"].
Proof. repeat split; vm_compute; reflexivity. Qed.

(** ** C8: Rejected requests *)

(** C8 (amended). [createBooking] answers [false] and leaves the station as
    it was whenever the start time is below 0 or at least 24, or the
    duration is at most 0, or no user has the ID, or no vehicle with the ID
    belongs to the user, or the ledger holds [MAX_BOOKINGS] bookings.  An
    unknown charging-type code is turned away by the menu entry of [main]
    before [createBooking] is called; [createBooking] itself does not look
    at the code. *)
Theorem createBooking_rejects (cw : WeatherCondition) (st : ChargingStation)
    (uID vID : Z) (s d : F32.t) (p t : Z) :
  ((s <? f0)%f32 = true \/
   (s >=? f24)%f32 = true \/
   (d <=? f0)%f32 = true \/
   (forall u, In u (users st) -> User.userID u <> uID) \/
   (forall v, In v (vehicles st) -> EV.vehicleID v = vID -> EV.userID v <> uID) \/
   (List.length (bookings st) >= 20)%nat ->
   exists msg, createBooking cw st uID vID s d p t = (st, false, [Say msg])) /\
  (t <> 1 /\ t <> 2 /\ t <> 3 /\ t <> 4 ->
   menuCreateBooking cw st uID vID s d t = (st, false, [Say "Invalid charging speed!"])).
Proof.
  split.
  - intros H. apply createBooking_invalid. unfold requestValid.
    destruct H as [H|[H|[H|[H|[H|H]]]]].
    + rewrite H. simpl. rewrite andb_false_r. reflexivity.
    + rewrite H. rewrite orb_true_r. simpl. rewrite andb_false_r. reflexivity.
    + rewrite H. rewrite orb_true_r. simpl. rewrite andb_false_r. reflexivity.
    + replace (existsb (fun u => (User.userID u =? uID) && User.isRegistered u) (users st))
        with false; [rewrite andb_false_r; reflexivity|].
      symmetry. destruct (existsb _ (users st)) eqn:He; [|reflexivity].
      apply existsb_exists in He. destruct He as (u & Hu & Hp).
      apply andb_prop in Hp. destruct Hp as [Hp _]. apply Z.eqb_eq in Hp.
      destruct (H u Hu Hp).
    + replace (existsb (fun v => (EV.vehicleID v =? vID) && (EV.userID v =? uID)) (vehicles st))
        with false; [apply andb_false_r|].
      symmetry. destruct (existsb _ (vehicles st)) eqn:He; [|reflexivity].
      apply existsb_exists in He. destruct He as (v & Hv & Hp).
      apply andb_prop in Hp. destruct Hp as [Hp1 Hp2].
      apply Z.eqb_eq in Hp1. apply Z.eqb_eq in Hp2.
      destruct (H v Hv Hp1 Hp2).
    + replace (MAX_BOOKINGS <=? bookingCount st) with true;
        [rewrite orb_true_r; reflexivity|].
      symmetry. apply Z.leb_le. unfold MAX_BOOKINGS, bookingCount. lia.
  - intros (H1 & H2 & H3 & H4). unfold menuCreateBooking, powerOfChargingType.
    apply Z.eqb_neq in H1, H2, H3, H4. rewrite H1, H2, H3, H4. reflexivity.
Qed.

Lemma createBooking_rejects_witness :
  ((F32.of_int 25 >=? f24)%f32 = true /\
   exists msg, createBooking SUNNY (station (run (initWorld 1) oneVehicle))
                             1 1 (F32.of_int 25) (F32.of_int 1) 7 1
               = (station (run (initWorld 1) oneVehicle), false, [Say msg])) /\
  ((9 <> 1 /\ 9 <> 2 /\ 9 <> 3 /\ 9 <> 4) /\
   menuCreateBooking SUNNY (station (run (initWorld 1) oneVehicle))
                     1 1 (F32.of_int 9) (F32.of_int 1) 9
   = (station (run (initWorld 1) oneVehicle), false, [Say "Invalid charging speed!"])).
Proof.
  assert (H1 : (F32.of_int 25 >=? f24)%f32 = true) by (vm_compute; reflexivity).
  assert (H2 : 9 <> 1 /\ 9 <> 2 /\ 9 <> 3 /\ 9 <> 4) by lia.
  split.
  - split; [exact H1|].
    apply (proj1 (createBooking_rejects SUNNY (station (run (initWorld 1) oneVehicle))
                                        1 1 (F32.of_int 25) (F32.of_int 1) 7 1)).
    right. left. exact H1.
  - split; [exact H2|].
    apply (proj2 (createBooking_rejects SUNNY (station (run (initWorld 1) oneVehicle))
                                        1 1 (F32.of_int 9) (F32.of_int 1) 7 9)).
    exact H2.
Defined.

(** C8, as stated, fails: [createBooking] with the charging-type code 9
    succeeds, appends a booking and occupies dock 1. *)
Lemma unknown_charging_type_accepted :
  let st := station (run (initWorld 1) oneVehicle) in
  let result := createBooking SUNNY st 1 1 (F32.of_int 9) (F32.of_int 1) 7 9 in
  powerOfChargingType 9 = None /\
  snd (fst result) = true /\
  bookings st = [] /\
  bookings (fst (fst result)) =
    [Booking.createBooking 1 1 1 1 1 (F32.of_int 9) (F32.of_int 1) 9] /\
  dockOf (fst (fst result)) 1 = Some (ChargingDock.mk 1 7 true 1 (Some GridPower)).
Proof. repeat split; vm_compute; reflexivity. Qed.

(** ** C9: State of charge *)

(** C9, the failing input: a vehicle with V2G at 50 % of 40 kWh is asked to
    discharge -40 kWh.  [min] keeps the negative request, the charge goes up
    by 100 points, and nothing caps it: the vehicle ends at 150. *)
Lemma dischargeToGrid_negative_request :
  let v := EV.registerVehicle 1 1 (F32.of_int 50) (F32.of_int 40) true in
  let result := EV.dischargeToGrid v (F32.of_int (-40)) in
  EV.batterySOC v = F32.of_int 50 /\
  (EV.batteryCapacity v >? f0)%f32 = true /\
  snd result = F32.of_int (-40) /\
  EV.batterySOC (fst result) = F32.of_int 150 /\
  (EV.batterySOC (fst result) >? f100)%f32 = true /\
  vehicles (station (run (initWorld 1)
                         (oneVehicle ++ [DischargeToGrid 1 (F32.of_int (-40))])))
  = [fst result].
Proof. repeat split; vm_compute; reflexivity. Qed.

(** ** C10: A first request that is turned down *)

(** C10 (amended). A request that [createBooking] turns down leaves the
    docks, users, vehicles, bookings, dock hours and station ID as they
    were.  It moves [systemStartTime], to the start time it asked for,
    exactly when it passed the checks and the ledger was empty, which is
    the case of a first request for which no dock is free.  That anchor does
    not last: while the ledger is empty, the next request that passes the
    checks overwrites it with its own start time. *)
Theorem rejected_request_frame (cw : WeatherCondition) (st : ChargingStation)
    (uID vID : Z) (s d : F32.t) (p t : Z) :
  snd (fst (createBooking cw st uID vID s d p t)) = false ->
  let st' := fst (fst (createBooking cw st uID vID s d p t)) in
  docks st' = docks st /\ users st' = users st /\ vehicles st' = vehicles st /\
  bookings st' = bookings st /\ totalOccupiedTime st' = totalOccupiedTime st /\
  stationID st' = stationID st /\
  systemStartTime st' =
    (if requestValid st uID vID s d && (bookingCount st =? 0) then s
     else systemStartTime st) /\
  forall cw2 uID2 vID2 s2 d2 p2 t2,
    bookings st = [] ->
    requestValid st' uID2 vID2 s2 d2 = true ->
    systemStartTime (fst (fst (createBooking cw2 st' uID2 vID2 s2 d2 p2 t2))) = s2.
Proof.
  intros Hok st'. subst st'. rewrite (createBooking_rejected _ _ _ _ _ _ _ _ Hok).
  assert (Hframe :
    let st' := if requestValid st uID vID s d then anchored st s else st in
    docks st' = docks st /\ users st' = users st /\ vehicles st' = vehicles st /\
    bookings st' = bookings st /\ totalOccupiedTime st' = totalOccupiedTime st /\
    stationID st' = stationID st).
  { destruct (requestValid st uID vID s d); simpl; [|auto 10].
    destruct (anchored_fields st s) as (H1 & H2 & H3 & H4 & H5 & H6). auto 10. }
  cbv zeta in Hframe. destruct Hframe as (H1 & H2 & H3 & H4 & H5 & H6).
  repeat (split; [assumption|]). split.
  - destruct (requestValid st uID vID s d); simpl; [|reflexivity].
    unfold anchored. destruct (bookingCount st =? 0); reflexivity.
  - intros cw2 uID2 vID2 s2 d2 p2 t2 Hempty Hv2.
    set (st' := if requestValid st uID vID s d then anchored st s else st) in *.
    assert (He : bookings st' = []) by congruence.
    destruct (snd (fst (createBooking cw2 st' uID2 vID2 s2 d2 p2 t2))) eqn:Hok2.
    + destruct (createBooking_accepted _ _ _ _ _ _ _ _ Hok2) as (_ & _ & ->).
      unfold booked. simpl. apply systemStartTime_anchored_empty. assumption.
    + rewrite (createBooking_rejected _ _ _ _ _ _ _ _ Hok2), Hv2.
      apply systemStartTime_anchored_empty. assumption.
Qed.

Lemma rejected_request_frame_witness :
  snd (fst (createBooking NIGHT (station (run (initWorld 1) nightRequest))
                          1 1 (F32.of_int 9) (F32.of_int 1) 7 4)) = false /\
  bookings (fst (fst (createBooking NIGHT (station (run (initWorld 1) nightRequest))
                                    1 1 (F32.of_int 9) (F32.of_int 1) 7 4))) = [] /\
  systemStartTime (fst (fst (createBooking NIGHT (station (run (initWorld 1) nightRequest))
                                           1 1 (F32.of_int 9) (F32.of_int 1) 7 4)))
  = F32.of_int 9.
Proof.
  assert (H : snd (fst (createBooking NIGHT (station (run (initWorld 1) nightRequest))
                                     1 1 (F32.of_int 9) (F32.of_int 1) 7 4)) = false)
    by (vm_compute; reflexivity).
  split; [exact H|].
  destruct (rejected_request_frame NIGHT (station (run (initWorld 1) nightRequest))
                                   1 1 (F32.of_int 9) (F32.of_int 1) 7 4 H)
    as (_ & _ & _ & Hb & _ & _ & Ha & _).
  split; [exact Hb|exact Ha].
Defined.

(** C10, as stated, fails in its last sentence: the request for 9:00 is
    turned down and sets the anchor to 9.0; the next request, for 10:00, is
    accepted and sets the anchor to 10.0.  The penalty for cancelling this
    booking is 5.0, for [10.0 - 10.0]; from the anchor of the request that
    was turned down it would be 2.0. *)
Lemma rejected_anchor_overwritten :
  let rejected := run (initWorld 1)
                      (nightRequest ++ [CreateBooking 1 1 (F32.of_int 9) (F32.of_int 1) 7 4]) in
  let accepted := fst (step rejected (CreateBooking 1 1 (F32.of_int 10) (F32.of_int 1) 7 1)) in
  bookings (station rejected) = [] /\
  systemStartTime (station rejected) = F32.of_int 9 /\
  bookings (station accepted) =
    [Booking.createBooking 1 1 1 1 1 (F32.of_int 10) (F32.of_int 1) 1] /\
  systemStartTime (station accepted) = F32.of_int 10 /\
  systemStartTime (station accepted) <> F32.of_int 9 /\
  snd (cancelBooking (station accepted) 1) = [Notify 1 cancellationMsg f5] /\
  penaltyFor (F32.of_int 10 - F32.of_int 9)%f32 = f2.
Proof.
  repeat split; try (vm_compute; reflexivity).
  vm_compute. discriminate.
Qed.

(** * Further properties of the model *)

(** ** More on comparisons *)

Lemma F32_ltb_leb (x y : F32.t) : (x <? y)%f32 = true -> (x <=? y)%f32 = true.
Proof.
  unfold F32.ltb, F32.leb, SFltb, SFleb.
  destruct (SFcompare x y) as [[| |]|]; intros H; try discriminate H; reflexivity.
Qed.

Lemma F32_ltb_asym (x y : F32.t) : (x <? y)%f32 = true -> (y <? x)%f32 = false.
Proof.
  unfold F32.ltb, SFltb. rewrite (SFcompare_antisym x y).
  destruct (SFcompare x y) as [[| |]|]; intros H; try discriminate H; reflexivity.
Qed.

Lemma F32_ltb_irrefl (x : F32.t) : (x <? x)%f32 = false.
Proof.
  destruct (x <? x)%f32 eqn:H; [|reflexivity].
  pose proof (F32_ltb_asym x x H) as H'. congruence.
Qed.

(** ** The registry: users, vehicles and the bookings that name them *)

Lemma substring_length (n : nat) (s : string) :
  (String.length (String.substring 0 n s) <= n)%nat.
Proof.
  revert s. induction n as [|n IH]; intros [|c s]; simpl; try lia.
  specialize (IH s). lia.
Qed.

Lemma userOk_registerUser id name level : userOk (User.registerUser id name level).
Proof.
  unfold userOk, User.registerUser. simpl. split; [reflexivity|]. split.
  - destruct (level =? 0) eqn:H0; simpl.
    + apply Z.eqb_eq in H0. auto.
    + destruct (level =? 1) eqn:H1; simpl; [apply Z.eqb_eq in H1|]; auto.
  - apply substring_length.
Qed.

(** [registerVehicle] keeps the charge between 0 and 100, whatever it is
    given, and the capacity at or above 0. *)
Lemma F32_max_lower (c : F32.t) : (f0 <=? F32.max f0 c)%f32 = true.
Proof.
  unfold F32.max. destruct (f0 <? c)%f32 eqn:H.
  - apply F32_ltb_leb. assumption.
  - vm_compute. reflexivity.
Qed.

Lemma clamp_range (soc : F32.t) :
  (f0 <=? F32.max f0 (F32.min f100 soc))%f32 = true /\
  (F32.max f0 (F32.min f100 soc) <=? f100)%f32 = true.
Proof.
  split; [apply F32_max_lower|].
  unfold F32.max, F32.min.
  destruct (soc <? f100)%f32 eqn:H1.
  - destruct (f0 <? soc)%f32 eqn:H2.
    + apply F32_ltb_leb. assumption.
    + vm_compute. reflexivity.
  - vm_compute. reflexivity.
Qed.

Lemma existsb_user st uID :
  existsb (fun u => (User.userID u =? uID) && User.isRegistered u) (users st) = true ->
  exists u, In u (users st) /\ User.userID u = uID.
Proof.
  intros H. apply existsb_exists in H. destruct H as (u & Hin & Hu).
  apply andb_prop in Hu. destruct Hu as [Hu _]. apply Z.eqb_eq in Hu. eauto.
Qed.

Lemma existsb_vehicle st vID uID :
  existsb (fun v => (EV.vehicleID v =? vID) && (EV.userID v =? uID)) (vehicles st) = true ->
  exists v, In v (vehicles st) /\ EV.vehicleID v = vID /\ EV.userID v = uID.
Proof.
  intros H. apply existsb_exists in H. destruct H as (v & Hin & Hv).
  apply andb_prop in Hv. destruct Hv as [H1 H2].
  apply Z.eqb_eq in H1. apply Z.eqb_eq in H2. eauto.
Qed.

Lemma vehicleOk_more us u v : vehicleOk us v -> vehicleOk (us ++ [u]) v.
Proof.
  intros [(u0 & Hin & Hu) Hc]. split; [|assumption].
  exists u0. split; [apply in_or_app; auto|assumption].
Qed.

Lemma vehicleOk_static us v v' :
  vehicleStatic v' = vehicleStatic v -> vehicleOk us v -> vehicleOk us v'.
Proof.
  unfold vehicleStatic, vehicleOk. intros H. inversion H as [[H1 H2 H3 H4]].
  rewrite H2, H3. auto.
Qed.

Lemma In_map_eq {A B : Type} (f : A -> B) (l l' : list A) (x : A) :
  map f l' = map f l -> In x l -> exists x', In x' l' /\ f x' = f x.
Proof.
  intros H Hin. apply (in_map f) in Hin. rewrite <- H in Hin.
  apply in_map_iff in Hin. destruct Hin as (x' & Hx' & Hin'). eauto.
Qed.

(** The invariant read through what the operations keep. *)
Lemma bookingOk_static st st' b b' :
  users st' = users st ->
  map vehicleStatic (vehicles st') = map vehicleStatic (vehicles st) ->
  stationID st' = stationID st ->
  bookingStatic b' = bookingStatic b ->
  bookingOk st b -> bookingOk st' b'.
Proof.
  intros Hu Hv Hs Hb (H1 & (v & Hin & Hv1 & Hv2) & H3 & H4).
  unfold bookingStatic in Hb. inversion Hb as [[E1 E2 E3 E4 E5 E6 E7 E8]].
  unfold bookingOk. rewrite Hu, Hs, E2, E3, E5, E6, E7.
  split; [assumption|]. split; [|split; assumption].
  destruct (In_map_eq vehicleStatic _ _ v Hv Hin) as (v' & Hin' & Hst).
  exists v'. unfold vehicleStatic in Hst. inversion Hst as [[F1 F2 F3 F4]].
  rewrite F1, F2. auto.
Qed.

Lemma Forall2_map_eq {A B : Type} (f : A -> B) (l l' : list A) :
  map f l' = map f l -> Forall2 (fun x' x => f x' = f x) l' l.
Proof.
  revert l'. induction l as [|x l IH]; intros [|x' l'] H; simpl in H;
    try discriminate; constructor.
  - congruence.
  - apply IH. congruence.
Qed.

Lemma Forall_Forall2 {A : Type} (R : A -> A -> Prop) (P P' : A -> Prop) (l l' : list A) :
  Forall2 R l' l -> (forall x' x, R x' x -> P x -> P' x') -> Forall P l -> Forall P' l'.
Proof.
  intros H HR. induction H as [|x' x l' l Hx H IH]; intros HF; constructor;
    inversion HF; subst; eauto.
Qed.

Lemma Registry_static st st' :
  users st' = users st ->
  map vehicleStatic (vehicles st') = map vehicleStatic (vehicles st) ->
  map bookingStatic (bookings st') = map bookingStatic (bookings st) ->
  stationID st' = stationID st ->
  Registry st -> Registry st'.
Proof.
  intros Hu Hv Hb Hs [R1 R2 R3 R4 R5]. constructor.
  - rewrite Hu. assumption.
  - rewrite Hu. assumption.
  - rewrite <- (length_map vehicleStatic), Hv, length_map. assumption.
  - rewrite Hu.
    eapply Forall_Forall2; [apply (Forall2_map_eq vehicleStatic); eassumption| |eassumption].
    intros v' v Hst Hok. cbv beta in Hst. exact (vehicleOk_static _ _ _ Hst Hok).
  - eapply Forall_Forall2; [apply (Forall2_map_eq bookingStatic); eassumption| |eassumption].
    intros b' b Hst Hok. cbv beta in Hst. exact (bookingOk_static _ _ _ _ Hu Hv Hs Hst Hok).
Qed.

Lemma Registry_newStation sID : Registry (newStation sID).
Proof. constructor; simpl; try lia; constructor. Qed.

Lemma Registry_registerUser st id name level :
  Registry st -> Registry (fst (fst (registerUser st id name level))).
Proof.
  intros HR. unfold registerUser.
  destruct (MAX_USERS <=? userCount st) eqn:Hc; [assumption|].
  destruct (existsb _ (users st)); [assumption|].
  apply Z.leb_gt in Hc. unfold MAX_USERS, userCount in Hc.
  destruct HR as [R1 R2 R3 R4 R5]. constructor; simpl.
  - rewrite length_app. simpl. lia.
  - apply Forall_app. split; [assumption|]. constructor; [|constructor].
    apply userOk_registerUser.
  - assumption.
  - eapply Forall_impl; [|eassumption]. intros v. apply vehicleOk_more.
  - eapply Forall_impl; [|eassumption].
    intros b ((u & Hin & Hu) & H2 & H3 & H4). repeat split; try assumption.
    exists u. split; [apply in_or_app; auto|assumption].
Qed.

Lemma Registry_registerVehicle st vID uID soc capacity v2g :
  Registry st -> Registry (fst (fst (registerVehicle st vID uID soc capacity v2g))).
Proof.
  intros HR. unfold registerVehicle.
  destruct (MAX_USERS <=? vehicleCount st) eqn:Hc; [assumption|].
  destruct (existsb _ (users st)) eqn:Hu; [|assumption].
  destruct (existsb _ (vehicles st)); [assumption|].
  apply Z.leb_gt in Hc. unfold MAX_USERS, vehicleCount in Hc.
  apply existsb_user in Hu.
  destruct HR as [R1 R2 R3 R4 R5]. constructor; simpl; try assumption.
  - rewrite length_app. simpl. lia.
  - apply Forall_app. split; [assumption|]. constructor; [|constructor].
    split; [exact Hu|]. simpl. apply F32_max_lower.
  - eapply Forall_impl; [|eassumption].
    intros b (H1 & (v & Hin & Hv) & H3 & H4). repeat split; try assumption.
    exists v. split; [apply in_or_app; auto|assumption].
Qed.

Lemma requestValid_fields st uID vID s d :
  requestValid st uID vID s d = true ->
  validTimes s d = true /\
  (exists u, In u (users st) /\ User.userID u = uID) /\
  (exists v, In v (vehicles st) /\ EV.vehicleID v = vID /\ EV.userID v = uID).
Proof.
  unfold requestValid, validTimes. intros H.
  apply andb_prop in H. destruct H as [H Hv].
  apply andb_prop in H. destruct H as [H Hu].
  apply andb_prop in H. destruct H as [_ Ht].
  apply existsb_user in Hu. apply existsb_vehicle in Hv.
  split; [|auto].
  apply negb_true_iff in Ht. apply orb_false_iff in Ht. destruct Ht as [Ht Hd].
  apply orb_false_iff in Ht. destruct Ht as [H1 H2].
  rewrite H1, H2, Hd. reflexivity.
Qed.

Lemma validTimes_effectiveStart st uID vID s d :
  validTimes s d = true -> validTimes (effectiveStart st uID vID s) d = true.
Proof.
  unfold effectiveStart. destruct (isDeferred st uID vID s); [|auto].
  unfold validTimes. intros H. apply andb_prop in H. destruct H as [_ H]. rewrite H.
  vm_compute. reflexivity.
Qed.

Lemma Registry_anchored st s : Registry st -> Registry (anchored st s).
Proof.
  intros HR. unfold anchored. destruct (bookingCount st =? 0); [|assumption].
  apply (Registry_static st); auto.
Qed.

Lemma Registry_createBooking cw st uID vID s d p t :
  Registry st -> Registry (fst (fst (createBooking cw st uID vID s d p t))).
Proof.
  intros HR. destruct (snd (fst (createBooking cw st uID vID s d p t))) eqn:Hok.
  - destruct (createBooking_accepted _ _ _ _ _ _ _ _ Hok) as (Hv & _ & ->).
    destruct (requestValid_fields _ _ _ _ _ Hv) as (Ht & Hu & Hveh).
    pose proof (Registry_anchored st s HR) as HA.
    destruct (anchored_fields st s) as (Fd & Fu & Fv & Fb & Ft & Fs).
    destruct HA as [R1 R2 R3 R4 R5]. unfold booked. constructor; simpl; try assumption.
    apply Forall_app. split.
    + eapply Forall_impl; [|eassumption]. intros b Hb. exact Hb.
    + constructor; [|constructor]. unfold bookingOk, newBooking. simpl.
      rewrite Fu, Fv. repeat split; try assumption.
      apply validTimes_effectiveStart. assumption.
  - rewrite createBooking_rejected by assumption.
    destruct (requestValid st uID vID s d); [apply Registry_anchored|]; assumption.
Qed.

(** *** What [cancelBooking], [completeBooking] and the discharge keep *)

Lemma vehicleStatic_dischargeToGrid v energy :
  vehicleStatic (fst (EV.dischargeToGrid v energy)) = vehicleStatic v.
Proof. unfold EV.dischargeToGrid. destruct (negb (EV.supportsV2G v)); reflexivity. Qed.

(** The station after [cancelBooking] and [completeBooking]: as before, when
    no active booking carries the ID; otherwise the first such slot is
    replaced by an inactive booking with the same fixed fields and its
    dock is released. *)
Lemma closing_cancelBooking st id :
  (cancelBooking st id = (st, []) /\
   findFirst (isActiveBooking id) (bookings st) = None) \/
  exists i b x, findFirst (isActiveBooking id) (bookings st) = Some (i, b) /\
                nth_error (bookings st) i = Some b /\ Booking.isActive b = true /\
                Booking.bookingID b = id /\ Booking.isActive x = false /\
                bookingStatic x = bookingStatic b /\
                bookings (fst (cancelBooking st id)) = setAt i x (bookings st) /\
                docks (fst (cancelBooking st id)) = releaseDock (docks st) (Booking.dockID b).
Proof.
  destruct (findFirst (isActiveBooking id) (bookings st)) as [[i b]|] eqn:Hf.
  - right. rewrite (cancelBooking_found _ _ _ _ Hf).
    pose proof Hf as Hf'. apply findFirst_Some in Hf'. destruct Hf' as (Hn & Hp & _).
    apply andb_prop in Hp. destruct Hp as [Hid Ha]. apply Z.eqb_eq in Hid.
    exists i, b, (Booking.cancelBooking b). simpl. auto 10.
  - left. split; [apply cancelBooking_not_found; assumption|reflexivity].
Qed.

Lemma closing_completeBooking cw st id :
  (completeBooking cw st id = (st, []) /\
   findFirst (isActiveBooking id) (bookings st) = None) \/
  exists i b x, findFirst (isActiveBooking id) (bookings st) = Some (i, b) /\
                nth_error (bookings st) i = Some b /\ Booking.isActive b = true /\
                Booking.bookingID b = id /\ Booking.isActive x = false /\
                bookingStatic x = bookingStatic b /\
                bookings (fst (completeBooking cw st id)) = setAt i x (bookings st) /\
                docks (fst (completeBooking cw st id))
                  = releaseDock (docks st) (Booking.dockID b).
Proof.
  destruct (findFirst (isActiveBooking id) (bookings st)) as [[i b]|] eqn:Hf.
  2: { left. split; [apply completeBooking_not_found; assumption|reflexivity]. }
  right. exists i, b.
  pose proof Hf as Hf'. apply findFirst_Some in Hf'. destruct Hf' as (Hn & Hp & _).
  apply andb_prop in Hp. destruct Hp as [Hid Ha]. apply Z.eqb_eq in Hid.
  unfold completeBooking.
  change (fun b0 => (Booking.bookingID b0 =? id) && Booking.isActive b0)
    with (isActiveBooking id).
  rewrite Hf.
  cbn [docks set_bookings Booking.dockID Booking.cancelBooking].
  destruct (findFirst _ (docks st)) as [[j dk]|].
  - destruct (ChargingDock.energySource dk) as [src|].
    + simpl. rewrite setAt_setAt.
      match goal with |- context [setAt i ?x (bookings st)] => exists x end.
      auto 10.
    + exists (Booking.cancelBooking b). simpl. auto 10.
  - exists (Booking.cancelBooking b). simpl. auto 10.
Qed.

Lemma static_cancelBooking st id :
  users (fst (cancelBooking st id)) = users st /\
  vehicles (fst (cancelBooking st id)) = vehicles st /\
  map bookingStatic (bookings (fst (cancelBooking st id))) = map bookingStatic (bookings st) /\
  totalOccupiedTime (fst (cancelBooking st id)) = totalOccupiedTime st /\
  systemStartTime (fst (cancelBooking st id)) = systemStartTime st /\
  stationID (fst (cancelBooking st id)) = stationID st.
Proof.
  unfold cancelBooking.
  destruct (findFirst _ (bookings st)) as [[i b]|] eqn:Hf; [|auto 10].
  apply findFirst_Some in Hf. destruct Hf as (Hn & _ & _). simpl.
  repeat split. eapply map_setAt; [eassumption|reflexivity].
Qed.

Lemma static_completeBooking cw st id :
  users (fst (completeBooking cw st id)) = users st /\
  map vehicleStatic (vehicles (fst (completeBooking cw st id)))
    = map vehicleStatic (vehicles st) /\
  map bookingStatic (bookings (fst (completeBooking cw st id)))
    = map bookingStatic (bookings st) /\
  systemStartTime (fst (completeBooking cw st id)) = systemStartTime st /\
  stationID (fst (completeBooking cw st id)) = stationID st.
Proof.
  destruct (closing_completeBooking cw st id)
    as [[-> _]|(i & b & x & _ & Hn & _ & _ & _ & Hs & Hb & _)]; [auto 10|].
  rewrite Hb. rewrite (map_setAt bookingStatic _ _ _ _ Hn Hs).
  unfold completeBooking.
  destruct (findFirst _ (bookings st)) as [[i0 b0]|]; [|auto 10].
  cbn [docks set_bookings Booking.dockID Booking.cancelBooking].
  destruct (findFirst _ (docks st)) as [[j dk]|]; [|auto 10].
  destruct (ChargingDock.energySource dk) as [src|]; [|auto 10].
  simpl. repeat split. apply map_updateFirst. reflexivity.
Qed.

Lemma static_dischargeToGrid st vID energy :
  docks (fst (fst (dischargeToGrid st vID energy))) = docks st /\
  users (fst (fst (dischargeToGrid st vID energy))) = users st /\
  map vehicleStatic (vehicles (fst (fst (dischargeToGrid st vID energy))))
    = map vehicleStatic (vehicles st) /\
  bookings (fst (fst (dischargeToGrid st vID energy))) = bookings st /\
  totalOccupiedTime (fst (fst (dischargeToGrid st vID energy))) = totalOccupiedTime st /\
  systemStartTime (fst (fst (dischargeToGrid st vID energy))) = systemStartTime st /\
  stationID (fst (fst (dischargeToGrid st vID energy))) = stationID st.
Proof.
  unfold dischargeToGrid.
  destruct (findFirst _ (vehicles st)) as [[i v]|] eqn:Hf; [|auto 10].
  apply findFirst_Some in Hf. destruct Hf as (Hn & _ & _).
  pose proof (vehicleStatic_dischargeToGrid v energy) as Hs.
  destruct (EV.dischargeToGrid v energy) as [v' e]. simpl in *.
  repeat split. eapply map_setAt; eassumption.
Qed.

Lemma Registry_step w op : Registry (station w) -> Registry (station (fst (step w op))).
Proof.
  intros HR. rewrite station_step. destruct op.
  - apply Registry_registerUser. assumption.
  - apply Registry_registerVehicle. assumption.
  - apply Registry_createBooking. assumption.
  - destruct (static_cancelBooking (station w) bookingID) as (H1 & H2 & H3 & _ & _ & H4).
    apply (Registry_static (station w)); try assumption. rewrite H2. reflexivity.
  - destruct (static_completeBooking (currentWeather w) (station w) bookingID)
      as (H1 & H2 & H3 & _ & H4).
    apply (Registry_static (station w)); assumption.
  - destruct (static_dischargeToGrid (station w) vehicleID energy)
      as (_ & H1 & H2 & H3 & _ & _ & H4).
    apply (Registry_static (station w)); try assumption. rewrite H3. reflexivity.
  - assumption.
Qed.

Lemma Registry_run sID ops : Registry (station (run (initWorld sID) ops)).
Proof.
  induction ops as [|op ops IH] using rev_ind.
  - apply Registry_newStation.
  - rewrite run_snoc. apply Registry_step. assumption.
Qed.

(** *** The ledger only grows *)

Lemma bookings_createBooking cw st uID vID s d p t :
  bookings (fst (fst (createBooking cw st uID vID s d p t))) =
  if snd (fst (createBooking cw st uID vID s d p t))
  then bookings st ++ [newBooking cw st uID vID s d p t]
  else bookings st.
Proof.
  destruct (snd (fst (createBooking cw st uID vID s d p t))) eqn:Hok.
  - destruct (createBooking_accepted _ _ _ _ _ _ _ _ Hok) as (_ & _ & ->).
    unfold booked. simpl. rewrite bookings_anchored. reflexivity.
  - rewrite createBooking_rejected by assumption.
    destruct (requestValid st uID vID s d); [apply bookings_anchored|reflexivity].
Qed.

(** One operation leaves the ledger as it is, appends one booking, or
    replaces an active slot by an inactive booking with the same fixed
    fields. *)
Lemma bookings_step w op :
  let bs := bookings (station w) in
  let bs' := bookings (station (fst (step w op))) in
  bs' = bs \/
  (exists b, bs' = bs ++ [b] /\ Booking.isActive b = true /\
             Booking.cost b = f0 /\ Booking.energyConsumed b = f0) \/
  (exists i b b', nth_error bs i = Some b /\ Booking.isActive b = true /\
                  bookingStatic b' = bookingStatic b /\ Booking.isActive b' = false /\
                  bs' = setAt i b' bs).
Proof.
  cbv zeta. rewrite station_step. destruct op.
  - left. apply bookings_registerUser.
  - left. apply bookings_registerVehicle.
  - rewrite bookings_createBooking.
    destruct (snd (fst (createBooking _ _ _ _ _ _ _ _))); [|left; reflexivity].
    right. left. eexists. repeat split; reflexivity.
  - destruct (closing_cancelBooking (station w) bookingID)
      as [[-> _]|(i & b & x & _ & Hn & Ha & _ & Hi & Hs & H & _)]; [left; reflexivity|].
    right. right. exists i, b, x. auto 10.
  - destruct (closing_completeBooking (currentWeather w) (station w) bookingID)
      as [[-> _]|(i & b & x & _ & Hn & Ha & _ & Hi & Hs & H & _)]; [left; reflexivity|].
    right. right. exists i, b, x. auto 10.
  - left. apply bookings_dischargeToGrid.
  - left. reflexivity.
Qed.

Lemma nth_error_app_Some {A : Type} (l l' : list A) (i : nat) (x : A) :
  nth_error l i = Some x -> nth_error (l ++ l') i = Some x.
Proof.
  intros H. rewrite nth_error_app1; [assumption|].
  apply nth_error_Some. congruence.
Qed.

Lemma ledger_step w op :
  let bs := bookings (station w) in
  let bs' := bookings (station (fst (step w op))) in
  (exists new, map bookingStatic bs' = map bookingStatic bs ++ new) /\
  (forall i b, nth_error bs i = Some b -> Booking.isActive b = false ->
               nth_error bs' i = Some b).
Proof.
  cbv zeta.
  destruct (bookings_step w op)
    as [H|[(b & H & _)|(i & b & b' & Hn & Ha & Hs & Hi & H)]]; cbv zeta in H; rewrite H.
  - split; [exists []; rewrite app_nil_r; reflexivity|auto].
  - split; [exists [bookingStatic b]; rewrite map_app; reflexivity|].
    intros i b0 Hn _. apply nth_error_app_Some. assumption.
  - split.
    + exists []. rewrite app_nil_r. eapply map_setAt; eassumption.
    + intros k b0 Hk Hb0.
      rewrite nth_error_setAt_ne; [assumption|].
      intros ->. congruence.
Qed.

(** ** The flags of the docks and the ledger *)

Lemma In_updateFirst {A : Type} (p : A -> bool) (f : A -> A) (l : list A) (y : A) :
  In y (updateFirst p f l) -> (exists x, In x l /\ p x = true /\ y = f x) \/ In y l.
Proof.
  induction l as [|a l IH]; simpl; [auto|].
  destruct (p a) eqn:Hp; simpl.
  - intros [<-|H]; [left; exists a; auto|auto].
  - intros [<-|H]; [auto|].
    destruct (IH H) as [(x & Hx & Hpx & ->)|Hy]; [left; exists x; auto|auto].
Qed.

(** Where the keys are not repeated, the slots that [updateFirst] leaves
    alone have another key. *)
Lemma In_updateFirst_key {A : Type} (key : A -> Z) (k : Z) (f : A -> A) (l : list A) (y : A) :
  NoDup (map key l) ->
  In y (updateFirst (fun x => key x =? k) f l) ->
  (exists x, In x l /\ key x = k /\ y = f x) \/ (In y l /\ key y <> k).
Proof.
  induction l as [|a l IH]; simpl; intros Hnd; [intros []|].
  inversion Hnd as [|? ? Hnotin Hnd']; subst.
  destruct (Z.eqb_spec (key a) k) as [He|Hne]; simpl.
  - intros [<-|H]; [left; exists a; auto|].
    right. split; [auto|]. intros Hk. apply Hnotin. rewrite He, <- Hk. apply in_map. assumption.
  - intros [<-|H]; [auto|].
    destruct (IH Hnd' H) as [(x & Hx & Hkx & ->)|[Hy Hk]]; [left; exists x; auto|auto].
Qed.

Lemma DockLedger_same st st' :
  bookings st' = bookings st -> docks st' = docks st -> DockLedger st -> DockLedger st'.
Proof. unfold DockLedger. intros -> ->. auto. Qed.

Lemma DockLedger_append st b :
  DockLedger st -> Booking.isActive b = true ->
  DockLedger (set_docks (set_bookings st (bookings st ++ [b]))
                        (occupyDock (docks st) (Booking.dockID b) (Booking.vehicleID b))).
Proof.
  intros HD Hact dk Hin. cbn [docks bookings set_docks set_bookings] in *.
  unfold occupyDock in Hin. apply In_updateFirst in Hin.
  destruct Hin as [(x & Hx & Hp & ->)|Hin].
  - simpl. apply Z.eqb_eq in Hp. exists (List.length (bookings st)), b.
    rewrite nth_error_app2 by lia. rewrite Nat.sub_diag. simpl. auto.
  - specialize (HD dk Hin). destruct (ChargingDock.isOccupied dk); [|assumption].
    destruct HD as (i & b0 & Hn & H). exists i, b0. split; [|assumption].
    apply nth_error_app_Some. assumption.
Qed.

Lemma DockLedger_close st i b x :
  DockLedger st -> NoDup (map ChargingDock.dockID (docks st)) ->
  nth_error (bookings st) i = Some b ->
  DockLedger (set_docks (set_bookings st (setAt i x (bookings st)))
                        (releaseDock (docks st) (Booking.dockID b))).
Proof.
  intros HD Hnd Hn dk Hin. cbn [docks bookings set_docks set_bookings] in *.
  unfold releaseDock in Hin.
  apply (In_updateFirst_key ChargingDock.dockID) in Hin; [|assumption].
  destruct Hin as [(x0 & Hx0 & Hk & ->)|[Hin Hk]]; [reflexivity|].
  specialize (HD dk Hin). destruct (ChargingDock.isOccupied dk); [|assumption].
  destruct HD as (j & b0 & Hj & Ha & Hd & Hv). exists j, b0. split; [|auto].
  rewrite nth_error_setAt_ne; [assumption|].
  intros ->. rewrite Hn in Hj. inversion Hj; subst. congruence.
Qed.

Lemma DockLedger_anchored st s : DockLedger st -> DockLedger (anchored st s).
Proof.
  destruct (anchored_fields st s) as (Ad & _ & _ & Ab & _ & _).
  apply DockLedger_same; assumption.
Qed.

Lemma DockLedger_createBooking cw st uID vID s d p t :
  DockLedger st -> DockLedger (fst (fst (createBooking cw st uID vID s d p t))).
Proof.
  intros HD. destruct (snd (fst (createBooking cw st uID vID s d p t))) eqn:Hok.
  - destruct (createBooking_accepted _ _ _ _ _ _ _ _ Hok) as (_ & _ & ->).
    unfold booked. cbv zeta.
    apply (DockLedger_append (anchored st s) (newBooking cw st uID vID s d p t));
      [apply DockLedger_anchored; assumption|reflexivity].
  - rewrite (createBooking_rejected _ _ _ _ _ _ _ _ Hok).
    destruct (requestValid st uID vID s d); [apply DockLedger_anchored|]; assumption.
Qed.

Lemma DockLedger_step w op :
  Inv (station w) -> DockLedger (station w) -> DockLedger (station (fst (step w op))).
Proof.
  intros HI HD. pose proof (layout_NoDup _ (inv_layout _ HI)) as Hnd.
  rewrite station_step. destruct op.
  - eapply DockLedger_same; [apply bookings_registerUser|apply docks_registerUser|assumption].
  - eapply DockLedger_same;
      [apply bookings_registerVehicle|apply docks_registerVehicle|assumption].
  - apply DockLedger_createBooking; assumption.
  - destruct (closing_cancelBooking (station w) bookingID)
      as [[-> _]|(i & b & x & _ & Hn & _ & _ & _ & _ & Hb & Hd)]; [assumption|].
    eapply DockLedger_same; [| |apply (DockLedger_close _ i b x HD Hnd Hn)]; assumption.
  - destruct (closing_completeBooking (currentWeather w) (station w) bookingID)
      as [[-> _]|(i & b & x & _ & Hn & _ & _ & _ & _ & Hb & Hd)]; [assumption|].
    eapply DockLedger_same; [| |apply (DockLedger_close _ i b x HD Hnd Hn)]; assumption.
  - eapply DockLedger_same;
      [apply bookings_dischargeToGrid|apply docks_dischargeToGrid|assumption].
  - assumption.
Qed.

Lemma DockLedger_run sID ops : DockLedger (station (run (initWorld sID) ops)).
Proof.
  induction ops as [|op ops IH] using rev_ind.
  - intros dk Hin. simpl in Hin.
    repeat (destruct Hin as [<-|Hin]; [reflexivity|]). destruct Hin.
  - rewrite run_snoc. apply DockLedger_step; [apply Inv_run|assumption].
Qed.

(** *** As many active bookings as occupied docks *)

Lemma NoDup_map_filter {A : Type} (key : A -> Z) (p : A -> bool) (l : list A) :
  NoDup (map key l) -> NoDup (map key (filter p l)).
Proof.
  induction l as [|a l IH]; simpl; intros Hnd; [constructor|].
  inversion Hnd as [|? ? Hnotin Hnd']; subst.
  destruct (p a); simpl; [constructor|]; auto.
  intros Hin. apply Hnotin. apply in_map_iff in Hin. destruct Hin as (x & Hk & Hx).
  apply filter_In in Hx. rewrite <- Hk. apply in_map. tauto.
Qed.

Lemma NoDup_map_filter_nth {A : Type} (key : A -> Z) (p : A -> bool) (l : list A) :
  (forall i j x y, i <> j -> nth_error l i = Some x -> nth_error l j = Some y ->
                   p x = true -> p y = true -> key x <> key y) ->
  NoDup (map key (filter p l)).
Proof.
  induction l as [|a l IH]; simpl; intros H; [constructor|].
  assert (Htl : NoDup (map key (filter p l))).
  { apply IH. intros i j x y Hne Hi Hj. apply (H (S i) (S j)); [lia|assumption..]. }
  destruct (p a) eqn:Hp; simpl; [|assumption].
  constructor; [|assumption].
  intros Hin. apply in_map_iff in Hin. destruct Hin as (y & Hk & Hy).
  apply filter_In in Hy. destruct Hy as [Hy Hpy].
  apply In_nth_error in Hy. destruct Hy as [j Hj].
  apply (H O (S j) a y); auto.
Qed.

Lemma dockOf_Some st dockID dk :
  dockOf st dockID = Some dk -> In dk (docks st) /\ ChargingDock.dockID dk = dockID.
Proof.
  unfold dockOf. destruct (findFirst (isDock dockID) (docks st)) as [[j d]|] eqn:Hf;
    [|discriminate].
  intros H. inversion H; subst. apply findFirst_Some in Hf. destruct Hf as (Hn & Hp & _).
  split; [eapply nth_error_In; eassumption|apply Z.eqb_eq; assumption].
Qed.

Lemma active_occupied st :
  Inv st -> Occupancy st -> DockLedger st ->
  List.length (activeBookings st) = List.length (occupiedDocks st) /\
  (List.length (occupiedDocks st) <= 5)%nat.
Proof.
  intros HI [O1 O2] HD. unfold activeBookings, occupiedDocks. split.
  - rewrite <- (length_map Booking.dockID), <- (length_map ChargingDock.dockID).
    apply Nat.le_antisymm; apply NoDup_incl_length.
    + apply NoDup_map_filter_nth. intros i j x y Hne Hi Hj Hx Hy. apply (O2 i j); assumption.
    + intros k Hk. apply in_map_iff in Hk. destruct Hk as (b & <- & Hb).
      apply filter_In in Hb. destruct Hb as [Hb Hact].
      apply In_nth_error in Hb. destruct Hb as [i Hi].
      destruct (O1 i b Hi Hact) as (dk & Hdk & Hocc).
      apply dockOf_Some in Hdk. destruct Hdk as [Hin <-].
      apply in_map. apply filter_In. auto.
    + apply NoDup_map_filter. apply layout_NoDup. apply (inv_layout _ HI).
    + intros k Hk. apply in_map_iff in Hk. destruct Hk as (dk & <- & Hdk).
      apply filter_In in Hdk. destruct Hdk as [Hin Hocc].
      specialize (HD dk Hin). rewrite Hocc in HD.
      destruct HD as (i & b & Hn & Ha & Hd & _). rewrite <- Hd.
      apply in_map. apply filter_In. split; [eapply nth_error_In; eassumption|assumption].
  - pose proof (inv_layout _ HI) as Hl.
    apply (f_equal (@List.length _)) in Hl. rewrite length_map in Hl. simpl in Hl.
    pose proof (filter_length_le ChargingDock.isOccupied (docks st)). lia.
Qed.

(** ** The menu on the network *)

Lemma run_app w ops ops' : run w (ops ++ ops') = run (run w ops) ops'.
Proof. unfold run. apply fold_left_app. Qed.

(** The slot [getStation] answers. *)
Lemma getStation_addressed stationID :
  fst (ChargingNetwork.getStation stationID) = Z.to_nat (addressed stationID - 1).
Proof.
  unfold ChargingNetwork.getStation, addressed.
  destruct ((stationID <? 1) || (MAX_STATIONS <? stationID)); reflexivity.
Qed.

Lemma addressed_range stationID : 1 <= addressed stationID <= 3.
Proof.
  unfold addressed, MAX_STATIONS.
  destruct (Z.ltb_spec stationID 1); simpl; [lia|].
  destruct (Z.ltb_spec 3 stationID); lia.
Qed.

Lemma nth_error_setAt_same {A : Type} (l : list A) (i j : nat) (x y : A) :
  nth_error l i = Some x ->
  nth_error (setAt i y l) j = if Nat.eqb i j then Some y else nth_error l j.
Proof.
  intros Hn. destruct (Nat.eqb_spec i j) as [<-|Hne].
  - apply nth_error_setAt_eq. apply nth_error_Some. congruence.
  - apply nth_error_setAt_ne. assumption.
Qed.

(** An entry that calls a member function of the addressed station. *)
Lemma onStation_station m stationID f k :
  List.length (ChargingNetwork.stations (network m)) = 3%nat -> 1 <= k <= 3 ->
  let m' := fst (onStation m stationID f) in
  List.length (ChargingNetwork.stations (network m')) = 3%nat /\
  weatherNow m' = weatherNow m /\
  stationOf m' k =
    if addressed stationID =? k then option_map (fun st => fst (f st)) (stationOf m k)
    else stationOf m k.
Proof.
  intros Hlen Hk. unfold onStation, stationOf.
  pose proof (getStation_addressed stationID) as Hi.
  pose proof (addressed_range stationID) as Ha.
  destruct (ChargingNetwork.getStation stationID) as [i warning]. simpl in Hi. subst i.
  destruct (nth_error (ChargingNetwork.stations (network m))
                      (Z.to_nat (addressed stationID - 1))) as [st|] eqn:Hn.
  - destruct (f st) as [st' out] eqn:Hf. cbn [fst network weatherNow ChargingNetwork.stations].
    rewrite length_setAt. split; [assumption|]. split; [reflexivity|].
    rewrite (nth_error_setAt_same _ _ _ _ _ Hn).
    destruct (Z.eqb_spec (addressed stationID) k) as [He|Hne].
    + rewrite <- He, Nat.eqb_refl, Hn. simpl. rewrite Hf. reflexivity.
    + destruct (Nat.eqb_spec (Z.to_nat (addressed stationID - 1)) (Z.to_nat (k - 1)));
        [lia|reflexivity].
  - apply nth_error_None in Hn. lia.
Qed.

Lemma world_eta w : mkWorld (currentWeather w) (station w) = w.
Proof. destruct w; reflexivity. Qed.

(** What an entry of the menu does to station [k]: the operations
    [opsOf k]. *)
Lemma menu_station m c k :
  List.length (ChargingNetwork.stations (network m)) = 3%nat -> 1 <= k <= 3 ->
  let m' := fst (menu m c) in
  List.length (ChargingNetwork.stations (network m')) = 3%nat /\
  forall st, stationOf m k = Some st ->
    let w := run (mkWorld (weatherNow m) st) (opsOf k c) in
    stationOf m' k = Some (station w) /\ weatherNow m' = currentWeather w.
Proof.
  intros Hlen Hk.
  assert (Hon : forall stationID f op,
            (forall st, fst (f st) = station (fst (step (mkWorld (weatherNow m) st) op))) ->
            (forall st, currentWeather (fst (step (mkWorld (weatherNow m) st) op))
                        = weatherNow m) ->
            let m' := fst (onStation m stationID f) in
            List.length (ChargingNetwork.stations (network m')) = 3%nat /\
            forall st, stationOf m k = Some st ->
              let w := run (mkWorld (weatherNow m) st)
                           (if addressed stationID =? k then [op] else []) in
              stationOf m' k = Some (station w) /\ weatherNow m' = currentWeather w).
  { intros stationID f op Hf Hw.
    destruct (onStation_station m stationID f k Hlen Hk) as (H1 & H2 & H3).
    split; [exact H1|]. intros st Hst. cbv zeta. rewrite H2, H3, Hst.
    destruct (addressed stationID =? k); simpl.
    - rewrite Hf, Hw. auto.
    - auto. }
  assert (Hshow : forall stationID (g : ChargingStation -> list Output),
            let m' := fst (onStation m stationID (fun st => (st, g st))) in
            List.length (ChargingNetwork.stations (network m')) = 3%nat /\
            forall st, stationOf m k = Some st ->
              stationOf m' k = Some st /\ weatherNow m' = weatherNow m).
  { intros stationID g.
    destruct (onStation_station m stationID (fun st => (st, g st)) k Hlen Hk) as (H1 & H2 & H3).
    split; [exact H1|]. intros st Hst. cbv zeta. rewrite H2, H3, Hst.
    destruct (addressed stationID =? k); auto. }
  destruct c as [sid u n l|sid v u soc cap v2g|sid u v s d chargingType|sid id|sid|sid|sid
                 |sid id|sid v e|sid u|weather| |choice];
    cbn [menu opsOf].
  - apply Hon; intros st; simpl;
      destruct (registerUser _ _ _ _) as [[? ?] ?]; reflexivity.
  - apply Hon; intros st; simpl;
      destruct (registerVehicle _ _ _ _ _ _) as [[? ?] ?]; reflexivity.
  - destruct (powerOfChargingType chargingType) as [powerRating|].
    + apply Hon; intros st; simpl;
        destruct (createBooking _ _ _ _ _ _ _ _) as [[? ?] ?]; reflexivity.
    + split; [assumption|]. simpl. auto.
  - apply Hon; intros st; simpl;
      destruct (completeBooking _ _ _) as [? ?]; reflexivity.
  - apply Hshow.
  - apply Hshow.
  - apply Hshow.
  - apply Hon; intros st; simpl;
      destruct (cancelBooking _ _) as [? ?]; reflexivity.
  - apply Hon; intros st; simpl;
      destruct (dischargeToGrid _ _ _) as [[? ?] ?]; reflexivity.
  - apply Hshow.
  - unfold run, fold_left, step, setWeather. cbn [currentWeather station].
    destruct (weather =? 0); [simpl; auto|].
    destruct (weather =? 1); [simpl; auto|].
    destruct (weather =? 2); simpl; auto.
  - simpl. auto.
  - simpl. auto.
Qed.

Lemma mainLoop_cons m c input :
  c <> Choice12 ->
  mainLoop m (c :: input) =
  (fst (mainLoop (fst (menu m c)) input),
   snd (menu m c) ++ snd (mainLoop (fst (menu m c)) input)).
Proof.
  intros Hne. destruct c; try congruence; cbn [mainLoop];
    match goal with |- context [menu m ?c] => destruct (menu m c) as [m1 out1] end;
    cbn [fst snd]; destruct (mainLoop m1 input); reflexivity.
Qed.

Lemma sessionOps_cons k c input :
  c <> Choice12 -> sessionOps k (c :: input) = opsOf k c ++ sessionOps k input.
Proof. intros Hne. destruct c; try congruence; reflexivity. Qed.

Lemma mainLoop_station input : forall m k,
  List.length (ChargingNetwork.stations (network m)) = 3%nat -> 1 <= k <= 3 ->
  forall st, stationOf m k = Some st ->
    let m' := fst (mainLoop m input) in
    let w := run (mkWorld (weatherNow m) st) (sessionOps k input) in
    stationOf m' k = Some (station w) /\ weatherNow m' = currentWeather w.
Proof.
  induction input as [|c input IH]; intros m k Hlen Hk st Hst; [simpl; auto|].
  assert (Hc : c = Choice12 \/ c <> Choice12) by (destruct c; auto; right; discriminate).
  destruct Hc as [->|Hne]; [simpl; auto|].
  destruct (menu_station m c k Hlen Hk) as [Hlen' Hstep].
  destruct (Hstep st Hst) as [Hst' Hw'].
  cbv zeta. rewrite (mainLoop_cons m c input Hne), (sessionOps_cons k c input Hne).
  cbn [fst]. rewrite run_app.
  set (w1 := run (mkWorld (weatherNow m) st) (opsOf k c)) in *.
  pose proof (IH _ k Hlen' Hk (station w1) Hst') as H. cbv zeta in H.
  rewrite Hw', world_eta in H. exact H.
Qed.

(** ** The queue *)

Lemma requestValid_anchored st s0 uID vID s d :
  requestValid (anchored st s0) uID vID s d = requestValid st uID vID s d.
Proof.
  destruct (anchored_fields st s0) as (_ & Hu & Hv & _ & _ & _).
  unfold requestValid. rewrite bookingCount_anchored, Hu, Hv. reflexivity.
Qed.

Lemma anchored_anchored st s : anchored (anchored st s) s = anchored st s.
Proof.
  unfold anchored at 1. rewrite bookingCount_anchored.
  unfold anchored. destruct (bookingCount st =? 0); reflexivity.
Qed.

Lemma effectiveStart_anchored st s0 uID vID s :
  effectiveStart (anchored st s0) uID vID s = effectiveStart st uID vID s.
Proof. unfold effectiveStart, isDeferred. rewrite isCriticalBooking_anchored. reflexivity. Qed.

Lemma isDeferred_anchored st s0 uID vID s :
  isDeferred (anchored st s0) uID vID s = isDeferred st uID vID s.
Proof. unfold isDeferred. rewrite isCriticalBooking_anchored. reflexivity. Qed.

(** A request that was turned down is turned down again, with the same
    words, and the station stays as the first attempt left it. *)
Lemma createBooking_rejected_again cw st uID vID s d p t :
  snd (fst (createBooking cw st uID vID s d p t)) = false ->
  createBooking cw (fst (fst (createBooking cw st uID vID s d p t))) uID vID s d p t
  = createBooking cw st uID vID s d p t.
Proof.
  intros Hok. rewrite (createBooking_rejected _ _ _ _ _ _ _ _ Hok).
  destruct (requestValid st uID vID s d) eqn:Hv; [|reflexivity].
  rewrite createBooking_valid in Hok by assumption. cbv zeta in Hok.
  rewrite (createBooking_valid cw st) by assumption.
  rewrite (createBooking_valid cw (anchored st s))
    by (rewrite requestValid_anchored; assumption).
  cbv zeta.
  rewrite anchored_anchored, effectiveStart_anchored, isDeferred_anchored.
  destruct (findAvailableDock cw (anchored st s) p (effectiveStart st uID vID s) d (t =? 4) =? -1);
    [reflexivity|discriminate].
Qed.

Lemma bookingCount_createBooking cw st uID vID s d p t :
  bookingCount (fst (fst (createBooking cw st uID vID s d p t))) =
  if snd (fst (createBooking cw st uID vID s d p t)) then bookingCount st + 1
  else bookingCount st.
Proof.
  unfold bookingCount. rewrite bookings_createBooking.
  destruct (snd (fst (createBooking cw st uID vID s d p t))); [|reflexivity].
  rewrite length_app. simpl. lia.
Qed.

(** The request of a queue entry. *)
Lemma processQueue_cons cw st qb rest :
  let r := createBooking cw st (QueuedBooking.userID qb) (QueuedBooking.vehicleID qb)
             (QueuedBooking.startTime qb) (QueuedBooking.duration qb)
             (QueuedBooking.powerRating qb) (QueuedBooking.chargingType qb) in
  fst (processQueue cw st (qb :: rest)) =
  if snd (fst r) then fst (processQueue cw (fst (fst r)) rest)
  else (fst (fst r), qb :: rest).
Proof.
  cbv zeta. cbn [processQueue].
  destruct (createBooking _ _ _ _ _ _ _ _) as [[st1 ok] out]. cbn [fst snd].
  destruct ok; [|reflexivity].
  destruct (processQueue cw st1 rest) as [[st2 q2] out2]. reflexivity.
Qed.

(** ** The ID of the station *)

Lemma stationID_step w op : stationID (station (fst (step w op))) = stationID (station w).
Proof.
  rewrite station_step. destruct op.
  - unfold registerUser. destruct (MAX_USERS <=? _); [reflexivity|].
    destruct (existsb _ _); reflexivity.
  - unfold registerVehicle. destruct (MAX_USERS <=? _); [reflexivity|].
    destruct (existsb _ (users _)); [|reflexivity]. destruct (existsb _ _); reflexivity.
  - destruct (snd (fst (createBooking (currentWeather w) (station w) uID vID startTime duration
                                      powerRating chargingType))) eqn:Hok.
    + destruct (createBooking_accepted _ _ _ _ _ _ _ _ Hok) as (_ & _ & ->).
      unfold booked. simpl. apply anchored_fields.
    + rewrite (createBooking_rejected _ _ _ _ _ _ _ _ Hok).
      destruct (requestValid _ _ _ _ _); [apply anchored_fields|reflexivity].
  - apply static_cancelBooking.
  - apply static_completeBooking.
  - apply static_dischargeToGrid.
  - reflexivity.
Qed.

Lemma stationID_run sID ops : stationID (station (run (initWorld sID) ops)) = sID.
Proof.
  induction ops as [|op ops IH] using rev_ind; [reflexivity|].
  rewrite run_snoc, stationID_step. assumption.
Qed.

(** ** The dock that [findAvailableDock] picks *)

Lemma layout_fields ds :
  map dockStatic ds = stationLayout ->
  exists d1 d2 d3 d4 d5,
    ds = [d1; d2; d3; d4; d5] /\
    (ChargingDock.dockID d1 = 1 /\ ChargingDock.powerRating d1 = 7 /\
     ChargingDock.energySource d1 = Some GridPower) /\
    (ChargingDock.dockID d2 = 2 /\ ChargingDock.powerRating d2 = 7 /\
     ChargingDock.energySource d2 = Some SolarPower) /\
    (ChargingDock.dockID d3 = 3 /\ ChargingDock.powerRating d3 = 22 /\
     ChargingDock.energySource d3 = Some GridPower) /\
    (ChargingDock.dockID d4 = 4 /\ ChargingDock.powerRating d4 = 22 /\
     ChargingDock.energySource d4 = Some SolarPower) /\
    (ChargingDock.dockID d5 = 5 /\ ChargingDock.powerRating d5 = 50 /\
     ChargingDock.energySource d5 = Some GridPower).
Proof.
  intros H. destruct (layout_docks _ H) as (d1 & d2 & d3 & d4 & d5 & -> & E1 & E2 & E3 & E4 & E5).
  exists d1, d2, d3, d4, d5. unfold dockStatic in *.
  unfold SLOW, MEDIUM, FAST in *.
  injection E1 as A1 B1 C1. injection E2 as A2 B2 C2. injection E3 as A3 B3 C3.
  injection E4 as A4 B4 C4. injection E5 as A5 B5 C5.
  split; [reflexivity|]. repeat split; assumption.
Qed.

Lemma findAvailableDock_layout cw st p s d sol :
  map dockStatic (docks st) = stationLayout ->
  let candidates := suitableDocks cw st p s d sol in
  let chosen := findAvailableDock cw st p s d sol in
  (candidates = [] /\ chosen = -1) \/
  (In chosen candidates /\
   forall id, In id candidates ->
     if isPeak s && negb sol && existsb isSolarDock candidates
     then isSolarDock chosen = true /\ (isSolarDock id = true -> chosen <= id)
     else chosen <= id).
Proof.
  intros Hl. cbv zeta. unfold findAvailableDock, suitableDocks.
  change ((s >=? PEAK_START)%f32 && (s <? PEAK_END)%f32) with (isPeak s).
  destruct (layout_fields _ Hl)
    as (d1 & d2 & d3 & d4 & d5 & -> & (I1 & _ & S1) & (I2 & _ & S2) & (I3 & _ & S3)
        & (I4 & _ & S4) & (I5 & _ & S5)).
  cbn [filter existsb].
  destruct (suitable cw st p s d sol d1), (suitable cw st p s d sol d2),
           (suitable cw st p s d sol d3), (suitable cw st p s d sol d4),
           (suitable cw st p s d sol d5);
    cbn [map]; rewrite ?I1, ?I2, ?I3, ?I4, ?I5, ?S1, ?S2, ?S3, ?S4, ?S5;
    try (left; split; reflexivity);
    right; destruct (isPeak s), sol; simpl;
    (split; [tauto|]); intros id Hin;
    first [ intuition lia
          | split; [reflexivity|]; intros Hs;
            repeat (destruct Hin as [<-|Hin]; [first [lia|discriminate Hs]|]); destruct Hin ].
Qed.

Lemma suitableDocks_anchored cw st s0 p s d sol :
  suitableDocks cw (anchored st s0) p s d sol = suitableDocks cw st p s d sol.
Proof. unfold anchored. destruct (bookingCount st =? 0); reflexivity. Qed.

Lemma findAvailableDock_anchored cw st s0 p s d sol :
  findAvailableDock cw (anchored st s0) p s d sol = findAvailableDock cw st p s d sol.
Proof. unfold anchored. destruct (bookingCount st =? 0); reflexivity. Qed.

Lemma layout_solar ds dk :
  map dockStatic ds = stationLayout -> In dk ds ->
  isSolarPower (ChargingDock.energySource dk) = isSolarDock (ChargingDock.dockID dk).
Proof.
  intros Hl Hin.
  destruct (layout_fields _ Hl)
    as (d1 & d2 & d3 & d4 & d5 & -> & (I1 & _ & S1) & (I2 & _ & S2) & (I3 & _ & S3)
        & (I4 & _ & S4) & (I5 & _ & S5)).
  simpl in Hin.
  destruct Hin as [<-|[<-|[<-|[<-|[<-|[]]]]]];
    rewrite ?I1, ?I2, ?I3, ?I4, ?I5, ?S1, ?S2, ?S3, ?S4, ?S5; reflexivity.
Qed.

(** ** Slots of an array after an update *)

Lemma nth_error_updateFirst_key {A : Type} (key : A -> Z) (k : Z) (f : A -> A)
    (l : list A) (j : nat) (x : A) :
  NoDup (map key l) -> nth_error l j = Some x ->
  nth_error (updateFirst (fun y => key y =? k) f l) j
  = Some (if key x =? k then f x else x).
Proof.
  revert j. induction l as [|a l IH]; intros [|j] Hnd Hn; simpl in *; try discriminate.
  - inversion Hn; subst. destruct (key x =? k); reflexivity.
  - inversion Hnd as [|? ? Hnotin Hnd']; subst.
    destruct (Z.eqb_spec (key a) k) as [He|Hne]; simpl.
    + rewrite Hn. f_equal.
      destruct (Z.eqb_spec (key x) k) as [Hx|_]; [|reflexivity].
      exfalso. apply Hnotin. rewrite He, <- Hx. apply in_map.
      eapply nth_error_In; eassumption.
    + apply IH; assumption.
Qed.

Lemma nth_setAt {A : Type} (l : list A) (j k : nat) (x d : A) :
  (j < List.length l)%nat ->
  nth k (setAt j x l) d = if Nat.eqb k j then x else nth k l d.
Proof.
  revert j k. induction l as [|a l IH]; intros [|j] [|k] H; simpl in *; try lia; try reflexivity.
  apply IH. lia.
Qed.

(** ** Completion *)

Lemma completeBooking_found_out cw st id i b j dk src :
  findFirst (isActiveBooking id) (bookings st) = Some (i, b) ->
  findFirst (isDock (Booking.dockID b)) (docks st) = Some (j, dk) ->
  ChargingDock.energySource dk = Some src ->
  snd (completeBooking cw st id) =
  [ SayInt "Invoice for Booking ID: " id;
    SayInt "User  ID: " (Booking.userID b);
    SayInt "Vehicle ID: " (Booking.vehicleID b);
    SayNum "Energy Consumed: " (billedEnergy cw dk src b);
    SayNum "Charging Rate: $" (ratePerKWh b src);
    SayNum "Total Cost: $" (billedCost cw st dk src b);
    Notify (Booking.userID b) "Charging session completed. Energy consumed:"
           (billedEnergy cw dk src b);
    Notify (Booking.userID b) "Total cost for the session: $" (billedCost cw st dk src b) ].
Proof.
  intros Hb Hd Hs. unfold completeBooking.
  change (fun b0 => (Booking.bookingID b0 =? id) && Booking.isActive b0)
    with (isActiveBooking id).
  rewrite Hb.
  cbn [docks set_bookings Booking.dockID Booking.cancelBooking].
  change (fun d => ChargingDock.dockID d =? Booking.dockID b) with (isDock (Booking.dockID b)).
  rewrite Hd, Hs. reflexivity.
Qed.

(** ** Bookings that are closed *)

Lemma closed_setAt st i b x id :
  Inv st -> nth_error (bookings st) i = Some b ->
  Booking.bookingID b = id -> bookingStatic x = bookingStatic b -> Booking.isActive x = false ->
  findFirst (isActiveBooking id) (setAt i x (bookings st)) = None.
Proof.
  intros HI Hn Hid Hs Hx. apply findFirst_None. intros b0 Hin.
  apply In_nth_error in Hin. destruct Hin as [k Hk].
  apply nth_error_setAt in Hk. unfold isActiveBooking.
  destruct Hk as [[_ ->]|[Hne Hk]].
  - rewrite Hx. apply andb_false_r.
  - rewrite (@Inv_bookingID st k b0 HI Hk).
    rewrite (@Inv_bookingID st i b HI Hn) in Hid.
    destruct (Z.eqb_spec (Z.of_nat k + 1) id); [lia|reflexivity].
Qed.

Lemma closed_after_cancel st id :
  Inv st -> findFirst (isActiveBooking id) (bookings (fst (cancelBooking st id))) = None.
Proof.
  intros HI.
  destruct (closing_cancelBooking st id)
    as [[-> H]|(i & b & x & _ & Hn & _ & Hid & Hx & Hs & -> & _)]; [exact H|].
  eapply closed_setAt; eassumption.
Qed.

Lemma closed_after_complete cw st id :
  Inv st -> findFirst (isActiveBooking id) (bookings (fst (completeBooking cw st id))) = None.
Proof.
  intros HI.
  destruct (closing_completeBooking cw st id)
    as [[-> H]|(i & b & x & _ & Hn & _ & Hid & Hx & Hs & -> & _)]; [exact H|].
  eapply closed_setAt; eassumption.
Qed.

Lemma settled_closed st st' id :
  1 <= id <= bookingCount st ->
  List.length (bookings st') = List.length (bookings st) ->
  findFirst (isActiveBooking id) (bookings st') = None ->
  settled st' id.
Proof.
  intros Hid Hlen Hnone. split; [unfold bookingCount in *; rewrite Hlen; assumption|].
  intros i b Hn Hb. rewrite findFirst_None in Hnone.
  specialize (Hnone b (nth_error_In _ _ Hn)). unfold isActiveBooking in Hnone.
  rewrite Hb, Z.eqb_refl in Hnone. exact Hnone.
Qed.

Lemma settled_noop st id cw :
  Inv st -> settled st id ->
  completeBooking cw st id = (st, []) /\ cancelBooking st id = (st, []).
Proof.
  intros HI Hs. split; [apply completeBooking_settled; assumption|].
  apply cancelBooking_not_found. destruct Hs as [_ Hs]. apply findFirst_inactive; assumption.
Qed.

(** ** The displays in a reachable station *)

Lemma F32_leb_false_ltb (x y : F32.t) : (x <=? y)%f32 = false -> (x <? y)%f32 = false.
Proof.
  intros H. destruct (x <? y)%f32 eqn:Hlt; [|reflexivity].
  apply F32_ltb_leb in Hlt. congruence.
Qed.

(** The time a session has run lies between 0 and the duration, for a
    duration that is not below 0. *)
Lemma elapsedTime_range currentTime b :
  (Booking.duration b <? f0)%f32 = false ->
  (elapsedTime currentTime b <? f0)%f32 = false /\
  (elapsedTime currentTime b >? Booking.duration b)%f32 = false.
Proof.
  intros Hd. unfold elapsedTime.
  set (e1 := (currentTime - Booking.startTime b)%f32).
  destruct (e1 <? f0)%f32 eqn:H1.
  - destruct (f0 >? Booking.duration b)%f32 eqn:H2.
    + split; [assumption|]. unfold F32.gtb. apply F32_ltb_irrefl.
    + split; [vm_compute; reflexivity|assumption].
  - destruct (e1 >? Booking.duration b)%f32 eqn:H2.
    + split; [assumption|]. unfold F32.gtb. apply F32_ltb_irrefl.
    + split; assumption.
Qed.

Lemma flat_map_filter {A B : Type} (p : A -> bool) (f : A -> list B) (l : list A) :
  (forall x, p x = false -> f x = []) ->
  flat_map f l = flat_map f (filter p l).
Proof.
  intros H. induction l as [|a l IH]; simpl; [reflexivity|].
  destruct (p a) eqn:Hp; simpl; rewrite IH; [reflexivity|].
  rewrite (H a Hp). reflexivity.
Qed.

Lemma existsb_filter_nil {A : Type} (p : A -> bool) (l : list A) :
  existsb p l = match filter p l with [] => false | _ => true end.
Proof.
  induction l as [|a l IH]; simpl; [reflexivity|].
  destruct (p a); simpl; [reflexivity|assumption].
Qed.

(** ** The active booking of a dock *)

Lemma activeOn_dock st dk :
  Inv st -> Occupancy st -> DockLedger st -> In dk (docks st) ->
  if ChargingDock.isOccupied dk
  then exists b, activeOn st (ChargingDock.dockID dk) = Some b /\
                 Booking.vehicleID b = ChargingDock.currentVehicleID dk
  else activeOn st (ChargingDock.dockID dk) = None.
Proof.
  intros HI [O1 O2] HD Hin. specialize (HD dk Hin). unfold activeOn.
  destruct (ChargingDock.isOccupied dk) eqn:Hocc.
  - destruct HD as (i & b & Hn & Ha & Hd & Hv).
    destruct (find _ (bookings st)) as [b'|] eqn:Hf.
    + exists b'. split; [reflexivity|].
      apply find_some in Hf. destruct Hf as [Hin' Hp].
      apply andb_prop in Hp. destruct Hp as [Ha' Hd']. apply Z.eqb_eq in Hd'.
      apply In_nth_error in Hin'. destruct Hin' as [i' Hn'].
      destruct (Nat.eq_dec i' i) as [->|Hne]; [congruence|].
      destruct (O2 i' i b' b Hne Hn' Hn Ha' Ha). congruence.
    + exfalso. pose proof (find_none _ _ Hf b (nth_error_In _ _ Hn)) as Hp.
      simpl in Hp. rewrite Ha, Hd, Z.eqb_refl in Hp. discriminate.
  - destruct (find _ (bookings st)) as [b'|] eqn:Hf; [|reflexivity].
    exfalso. apply find_some in Hf. destruct Hf as [Hin' Hp].
    apply andb_prop in Hp. destruct Hp as [Ha' Hd']. apply Z.eqb_eq in Hd'.
    apply In_nth_error in Hin'. destruct Hin' as [i' Hn'].
    destruct (O1 i' b' Hn' Ha') as (dk' & Hdk' & Hocc').
    rewrite Hd', (dockOf_In st dk (inv_layout _ HI) Hin) in Hdk'. congruence.
Qed.

(** ** The figures of the report *)

Lemma fold_left_skip {A B : Type} (F : A -> B -> A) (l : list B) (a : A) :
  (forall acc x, In x l -> F acc x = acc) -> fold_left F l a = a.
Proof.
  induction l as [|x l IH]; simpl; intros H; [reflexivity|].
  rewrite (H a x) by auto. apply IH. intros acc y Hy. apply H. auto.
Qed.

Lemma fold_left_filter {A B : Type} (p : B -> bool) (F : A -> B -> A) (l : list B) (a : A) :
  fold_left (fun acc x => if p x then F acc x else acc) l a = fold_left F (filter p l) a.
Proof.
  revert a. induction l as [|x l IH]; intros a; simpl; [reflexivity|].
  destruct (p x); simpl; apply IH.
Qed.

Lemma durations_fold (l : list Booking.t) (total : F32.t) (n : Z) :
  fold_left
    (fun '(totalDuration, completedBookings) b =>
       if negb (Booking.isActive b)
       then ((totalDuration + Booking.duration b)%f32, completedBookings + 1)
       else (totalDuration, completedBookings))
    l (total, n)
  = (fold_left (fun acc b => (acc + Booking.duration b)%f32)
               (filter (fun b => negb (Booking.isActive b)) l) total,
     n + Z.of_nat (List.length (filter (fun b => negb (Booking.isActive b)) l))).
Proof.
  revert total n. induction l as [|b l IH]; intros total n; simpl.
  - rewrite Z.add_0_r. reflexivity.
  - destruct (negb (Booking.isActive b)); simpl; rewrite IH; [|reflexivity].
    f_equal. lia.
Qed.

Lemma averageDuration_closed st :
  averageDuration st =
  match closedBookings st with
  | [] => f0
  | closed =>
      (fold_left (fun acc b => (acc + Booking.duration b)%f32) closed f0
       / F32.of_int (Z.of_nat (List.length closed)))%f32
  end.
Proof.
  unfold averageDuration, closedBookings. rewrite durations_fold.
  destruct (filter _ (bookings st)) as [|b l]; [reflexivity|].
  replace (0 + Z.of_nat (List.length (b :: l)) >? 0) with true; [reflexivity|].
  symmetry. apply Z.gtb_lt. simpl List.length. lia.
Qed.

Lemma demandTrends_fold st (l : list Booking.t) (regular premium : Z) :
  Inv st -> Registry st ->
  (forall b, In b l -> exists u, In u (users st) /\ User.userID u = Booking.userID b) ->
  fold_left
    (fun '(regularBookings, premiumBookings) b =>
       match findFirst (fun u => User.userID u =? Booking.userID b) (users st) with
       | Some (_, u) =>
           if User.membershipLevel u =? 0
           then (regularBookings + 1, premiumBookings)
           else (regularBookings, premiumBookings + 1)
       | None => (regularBookings, premiumBookings)
       end)
    l (regular, premium)
  = (regular + Z.of_nat (List.length (filter (fun b => negb (isPremium st (Booking.userID b))) l)),
     premium + Z.of_nat (List.length (filter (fun b => isPremium st (Booking.userID b)) l))).
Proof.
  intros HI HR. revert regular premium.
  induction l as [|b l IH]; intros regular premium Hl; simpl.
  - rewrite !Z.add_0_r. reflexivity.
  - destruct (Hl b (or_introl eq_refl)) as (u & Hu & Hid).
    destruct (findFirst_In (fun u0 => User.userID u0 =? Booking.userID b) (users st) u Hu)
      as (k & u' & Hf); [apply Z.eqb_eq; assumption|].
    rewrite Hf. apply findFirst_Some in Hf. destruct Hf as (Hk & Hp & _).
    apply Z.eqb_eq in Hp. apply nth_error_In in Hk.
    assert (Hprem : isPremium st (Booking.userID b) = (User.membershipLevel u' =? 1)).
    { unfold isPremium. rewrite <- Hp.
      apply (existsb_unique User.userID (fun x => User.membershipLevel x =? 1));
        [apply (inv_users _ HI)|assumption]. }
    pose proof (reg_users _ HR) as Hok. rewrite Forall_forall in Hok.
    destruct (Hok u' Hk) as (_ & Hlevel & _).
    rewrite Hprem.
    destruct Hlevel as [H0|H1]; [rewrite H0|rewrite H1]; simpl;
      rewrite IH by (intros b0 Hb0; apply Hl; right; assumption);
      f_equal; lia.
Qed.

(** ** The source of the dock of a booking *)

Lemma hasSource_layout ds dockID :
  map dockStatic ds = stationLayout -> 1 <= dockID <= 5 ->
  exists j dk, findFirst (hasSource dockID) ds = Some (j, dk) /\
               ChargingDock.energySource dk
               = Some (if isSolarDock dockID then SolarPower else GridPower).
Proof.
  intros Hl Hr.
  destruct (layout_fields _ Hl)
    as (d1 & d2 & d3 & d4 & d5 & -> & (I1 & _ & S1) & (I2 & _ & S2) & (I3 & _ & S3)
        & (I4 & _ & S4) & (I5 & _ & S5)).
  unfold findFirst, hasSource. rewrite I1, I2, I3, I4, I5, S1, S2, S3, S4, S5.
  assert (Hc : dockID = 1 \/ dockID = 2 \/ dockID = 3 \/ dockID = 4 \/ dockID = 5) by lia.
  destruct Hc as [->|[->|[->|[->| ->]]]]; simpl; eauto.
Qed.

Lemma energyBySource_fold st (l : list Booking.t) (grid solar : F32.t) :
  map dockStatic (docks st) = stationLayout ->
  (forall b, In b l -> 1 <= Booking.dockID b <= 5) ->
  fold_left
    (fun '(gridEnergy, solarEnergy) b =>
       if negb (Booking.isActive b) then
         match findFirst (hasSource (Booking.dockID b)) (docks st) with
         | Some (_, d) =>
             if isGridPower (ChargingDock.energySource d)
             then ((gridEnergy + Booking.energyConsumed b)%f32, solarEnergy)
             else (gridEnergy, (solarEnergy + Booking.energyConsumed b)%f32)
         | None => (gridEnergy, solarEnergy)
         end
       else (gridEnergy, solarEnergy))
    l (grid, solar)
  = (fold_left (fun acc b => (acc + Booking.energyConsumed b)%f32)
               (filter (fun b => negb (Booking.isActive b) && negb (isSolarDock (Booking.dockID b))) l)
               grid,
     fold_left (fun acc b => (acc + Booking.energyConsumed b)%f32)
               (filter (fun b => negb (Booking.isActive b) && isSolarDock (Booking.dockID b)) l)
               solar).
Proof.
  intros Hl. revert grid solar.
  induction l as [|b l IH]; intros grid solar Hr; simpl; [reflexivity|].
  assert (Hr' : forall b0, In b0 l -> 1 <= Booking.dockID b0 <= 5)
    by (intros b0 Hb0; apply Hr; right; assumption).
  destruct (negb (Booking.isActive b)); simpl; [|apply IH; assumption].
  destruct (hasSource_layout _ (Booking.dockID b) Hl (Hr b (or_introl eq_refl)))
    as (j & dk & -> & Hs).
  rewrite Hs. destruct (isSolarDock (Booking.dockID b)); simpl; apply IH; assumption.
Qed.

Lemma co2Savings_fold st (l : list Booking.t) (total : F32.t) :
  map dockStatic (docks st) = stationLayout ->
  (forall b, In b l -> 1 <= Booking.dockID b <= 5) ->
  fold_left
    (fun co2Savings b =>
       if negb (Booking.isActive b) then
         match findFirst (hasSource (Booking.dockID b)) (docks st) with
         | Some (_, d) =>
             match ChargingDock.energySource d with
             | Some src => (co2Savings + getCO2Emission src (Booking.energyConsumed b))%f32
             | None => co2Savings
             end
         | None => co2Savings
         end
       else co2Savings)
    l total
  = fold_left
      (fun acc b =>
         (acc + (if isSolarDock (Booking.dockID b) then F32.dlit 0 1
                 else Booking.energyConsumed b * CO2_GRID_FACTOR))%f32)
      (filter (fun b => negb (Booking.isActive b)) l) total.
Proof.
  intros Hl. revert total.
  induction l as [|b l IH]; intros total Hr; simpl; [reflexivity|].
  assert (Hr' : forall b0, In b0 l -> 1 <= Booking.dockID b0 <= 5)
    by (intros b0 Hb0; apply Hr; right; assumption).
  destruct (negb (Booking.isActive b)); simpl; [|apply IH; assumption].
  destruct (hasSource_layout _ (Booking.dockID b) Hl (Hr b (or_introl eq_refl)))
    as (j & dk & -> & Hs).
  rewrite Hs. destruct (isSolarDock (Booking.dockID b)); simpl; apply IH; assumption.
Qed.

(** ** The operations behind the menu *)

Lemma fromMenu_opsOf k c : Forall fromMenu (opsOf k c).
Proof.
  destruct c as [sid u n l|sid v u soc cap v2g|sid u v s d t|sid id|sid|sid|sid|sid id
                 |sid v e|sid u|code| |choice];
    cbn [opsOf];
    try (destruct (addressed sid =? k); repeat constructor; fail);
    try (repeat constructor; fail).
  destruct (powerOfChargingType t) as [p|] eqn:Hp; [|constructor].
  destruct (addressed sid =? k); repeat constructor. exact Hp.
Qed.

Lemma fromMenu_sessionOps k input : Forall fromMenu (sessionOps k input).
Proof.
  induction input as [|c input IH]; [constructor|].
  assert (Hc : c = Choice12 \/ c <> Choice12) by (destruct c; auto; right; discriminate).
  destruct Hc as [->|Hne]; [constructor|].
  rewrite sessionOps_cons by assumption. apply Forall_app. split; [apply fromMenu_opsOf|exact IH].
Qed.

(** ** Solar candidates under the weather *)

Lemma solar_candidates cw st s d dockID :
  map dockStatic (docks st) = stationLayout ->
  In dockID (suitableDocks cw st SOLAR s d true) ->
  match cw with
  | SUNNY => dockID = 2 \/ dockID = 4
  | CLOUDY => dockID = 4
  | NIGHT => False
  end.
Proof.
  intros Hl Hin. apply suitableDocks_In in Hin. destruct Hin as (dk & Hin & <- & Hs).
  destruct (layout_fields _ Hl)
    as (d1 & d2 & d3 & d4 & d5 & Hds & (I1 & P1 & S1) & (I2 & P2 & S2) & (I3 & P3 & S3)
        & (I4 & P4 & S4) & (I5 & P5 & S5)).
  rewrite Hds in Hin. simpl in Hin. unfold suitable in Hs.
  destruct Hin as [<-|[<-|[<-|[<-|[<-|[]]]]]];
    rewrite ?S1, ?S2, ?S3, ?S4, ?S5, ?P1, ?P2, ?P3, ?P4, ?P5 in Hs;
    rewrite ?I1, ?I2, ?I3, ?I4, ?I5.
  - simpl in Hs. rewrite !andb_false_r in Hs. discriminate.
  - destruct cw; auto; exfalso;
      apply andb_prop in Hs; destruct Hs as [Hs _];
      apply andb_prop in Hs; destruct Hs as [Hs _];
      apply andb_prop in Hs; destruct Hs as [_ Hs];
      vm_compute in Hs; discriminate.
  - simpl in Hs. rewrite !andb_false_r in Hs. discriminate.
  - destruct cw; auto; exfalso;
      apply andb_prop in Hs; destruct Hs as [Hs _];
      apply andb_prop in Hs; destruct Hs as [Hs _];
      apply andb_prop in Hs; destruct Hs as [_ Hs];
      vm_compute in Hs; discriminate.
  - simpl in Hs. rewrite !andb_false_r in Hs. discriminate.
Qed.

(** ** Docks rated for the power asked for *)

Lemma candidate_rated cw st p s d sol dockID :
  map dockStatic (docks st) = stationLayout ->
  In dockID (suitableDocks cw st p s d sol) ->
  p = 7 \/ p = 22 \/ p = 50 ->
  p <= ratingOf dockID.
Proof.
  intros Hl Hin Hp. apply suitableDocks_In in Hin. destruct Hin as (dk & Hin & <- & Hs).
  destruct (layout_fields _ Hl)
    as (d1 & d2 & d3 & d4 & d5 & Hds & (I1 & P1 & S1) & (I2 & P2 & S2) & (I3 & P3 & S3)
        & (I4 & P4 & S4) & (I5 & P5 & S5)).
  rewrite Hds in Hin. simpl in Hin. unfold suitable in Hs.
  destruct Hin as [<-|[<-|[<-|[<-|[<-|[]]]]]];
    rewrite ?S1, ?S2, ?S3, ?S4, ?S5, ?P1, ?P2, ?P3, ?P4, ?P5 in Hs;
    rewrite ?I1, ?I2, ?I3, ?I4, ?I5;
    apply andb_prop in Hs; destruct Hs as [Hs _];
    apply andb_prop in Hs; destruct Hs as [Hs _];
    apply andb_prop in Hs; destruct Hs as [_ Hs];
    destruct Hp as [->|[->| ->]]; destruct cw;
    vm_compute in Hs; try discriminate Hs; vm_compute; discriminate.
Qed.

Lemma powerOfChargingType_values t p :
  powerOfChargingType t = Some p -> p = 7 \/ p = 22 \/ p = 50.
Proof.
  unfold powerOfChargingType, SLOW, MEDIUM, FAST, SOLAR.
  destruct (t =? 1); [intros H; inversion H; auto|].
  destruct (t =? 2); [intros H; inversion H; auto|].
  destruct (t =? 3); [intros H; inversion H; auto|].
  destruct (t =? 4); [intros H; inversion H; auto|discriminate].
Qed.

Lemma rated_static b b' : bookingStatic b' = bookingStatic b -> ratedFor b = true -> ratedFor b' = true.
Proof.
  unfold bookingStatic, ratedFor. intros H. inversion H as [[E1 E2 E3 E4 E5 E6 E7 E8]].
  rewrite E4, E8. auto.
Qed.

Lemma rated_same st st' :
  map bookingStatic (bookings st') = map bookingStatic (bookings st) ->
  Forall (fun b => ratedFor b = true) (bookings st) ->
  Forall (fun b => ratedFor b = true) (bookings st').
Proof.
  intros Hb HF.
  eapply Forall_Forall2; [apply (Forall2_map_eq bookingStatic); eassumption| |eassumption].
  intros b' b Hs Hr. cbv beta in Hs. exact (rated_static b b' Hs Hr).
Qed.

Lemma rated_step w op :
  Inv (station w) -> fromMenu op ->
  Forall (fun b => ratedFor b = true) (bookings (station w)) ->
  Forall (fun b => ratedFor b = true) (bookings (station (fst (step w op)))).
Proof.
  intros HI Hm HF. rewrite station_step. destruct op.
  - rewrite bookings_registerUser. assumption.
  - rewrite bookings_registerVehicle. assumption.
  - rewrite bookings_createBooking.
    destruct (snd (fst (createBooking _ _ _ _ _ _ _ _))) eqn:Hok; [|assumption].
    apply Forall_app. split; [assumption|]. constructor; [|constructor].
    destruct (createBooking_accepted _ _ _ _ _ _ _ _ Hok) as (_ & Hin & _).
    simpl in Hm. unfold ratedFor. unfold newBooking at 1. simpl Booking.chargingType.
    rewrite Hm. apply Z.leb_le.
    eapply candidate_rated;
      [apply (inv_layout _ (Inv_anchored _ startTime HI))|exact Hin|].
    eapply powerOfChargingType_values. eassumption.
  - apply (rated_same (station w)); [apply static_cancelBooking|assumption].
  - apply (rated_same (station w)); [apply static_completeBooking|assumption].
  - rewrite bookings_dischargeToGrid. assumption.
  - assumption.
Qed.

Lemma rated_run sID ops :
  Forall fromMenu ops ->
  Forall (fun b => ratedFor b = true) (bookings (station (run (initWorld sID) ops))).
Proof.
  induction ops as [|op ops IH] using rev_ind; intros Hm; [constructor|].
  apply Forall_app in Hm. destruct Hm as [Hm Hop]. inversion Hop; subst.
  rewrite run_snoc. apply rated_step; [apply Inv_run|assumption|auto].
Qed.

(** ** Active bookings are not billed *)

(** An active booking has no cost and no energy on record. *)
Lemma unbilled_step w op :
  Forall (fun b => Booking.isActive b = true ->
                   Booking.cost b = f0 /\ Booking.energyConsumed b = f0)
         (bookings (station w)) ->
  Forall (fun b => Booking.isActive b = true ->
                   Booking.cost b = f0 /\ Booking.energyConsumed b = f0)
         (bookings (station (fst (step w op)))).
Proof.
  intros HF.
  destruct (bookings_step w op)
    as [H|[(b & H & _ & Hc & He)|(i & b & b' & Hn & Ha & Hs & Hi & H)]]; cbv zeta in H; rewrite H.
  - assumption.
  - apply Forall_app. split; [assumption|]. constructor; [auto|constructor].
  - apply Forall_setAt; [assumption|]. intros Hb'. congruence.
Qed.

Lemma unbilled_run sID ops :
  Forall (fun b => Booking.isActive b = true ->
                   Booking.cost b = f0 /\ Booking.energyConsumed b = f0)
         (bookings (station (run (initWorld sID) ops))).
Proof.
  induction ops as [|op ops IH] using rev_ind; [constructor|].
  rewrite run_snoc. apply unbilled_step. assumption.
Qed.

(** ** A station with every dock occupied *)

Lemma filter_all {A : Type} (p : A -> bool) (l : list A) :
  List.length (filter p l) = List.length l -> forall x, In x l -> p x = true.
Proof.
  induction l as [|a l IH]; simpl; intros H x Hin; [destruct Hin|].
  pose proof (filter_length_le p l) as Hle.
  destruct (p a) eqn:Hp; simpl in H; [|lia].
  destruct Hin as [<-|Hin]; [assumption|]. apply IH; [lia|assumption].
Qed.

Lemma no_candidate_when_occupied cw st p s d sol :
  (forall dk, In dk (docks st) -> ChargingDock.isOccupied dk = true) ->
  suitableDocks cw st p s d sol = [].
Proof.
  intros Hocc. destruct (suitableDocks cw st p s d sol) as [|id rest] eqn:Hs; [reflexivity|].
  assert (Hin : In id (suitableDocks cw st p s d sol)) by (rewrite Hs; left; reflexivity).
  apply suitableDocks_In in Hin. destruct Hin as (dk & Hdk & _ & Hsuit).
  apply suitable_free in Hsuit. rewrite (Hocc dk Hdk) in Hsuit. discriminate.
Qed.

(** * Further results *)

(** ** X1: The users of a station *)

(** X1. In every reachable state a station has at most [MAX_USERS] users,
    no two with the same ID; each is registered, has membership level 0 or
    1 and a name of at most 49 characters.  While there is room, an ID that
    is not taken is registered, at level 1 if level 1 was asked for and at
    level 0 for any other level. *)
Theorem users_registry (sID : Z) (ops : list Op) :
  let w := run (initWorld sID) ops in
  let st := station w in
  (List.length (users st) <= 10)%nat /\
  NoDup (map User.userID (users st)) /\
  (forall u, In u (users st) ->
     User.isRegistered u = true /\
     (User.membershipLevel u = 0 \/ User.membershipLevel u = 1) /\
     (String.length (User.name u) <= 49)%nat) /\
  (forall id name level,
     (List.length (users st) < 10)%nat ->
     (forall u, In u (users st) -> User.userID u <> id) ->
     users (station (fst (step w (RegisterUser id name level)))) =
     users st ++ [User.mk id (String.substring 0 49 name) true (if level =? 1 then 1 else 0)]).
Proof.
  intros w st.
  pose proof (Inv_run sID ops) as HI. pose proof (Registry_run sID ops) as HR.
  fold w st in HI, HR.
  split; [apply (reg_users_cap _ HR)|]. split; [apply (inv_users _ HI)|]. split.
  - pose proof (reg_users _ HR) as H. rewrite Forall_forall in H. exact H.
  - intros id name level Hroom Hfresh. rewrite station_step. fold st.
    unfold registerUser, userCount, MAX_USERS.
    destruct (Z.leb_spec 10 (Z.of_nat (List.length (users st)))) as [Hc|_]; [lia|].
    destruct (existsb (fun u => User.userID u =? id) (users st)) eqn:He.
    + apply existsb_exists in He. destruct He as (u & Hin & Hu).
      apply Z.eqb_eq in Hu. destruct (Hfresh u Hin Hu).
    + simpl. unfold User.registerUser.
      destruct (Z.eqb_spec level 0) as [->|H0]; [reflexivity|].
      destruct (Z.eqb_spec level 1) as [->|H1]; reflexivity.
Qed.

(** ** X2: The vehicles of a station *)

(** X2. In every reachable state a station has at most [MAX_USERS]
    vehicles, no two with the same ID; the owner of each is a registered
    user of the station, and the capacity of each is not below 0.  A
    vehicle for a user ID that the station does not know is turned down
    and the station stays as it is; while there is room, a vehicle ID that
    is not taken is registered for a user of the station. *)
Theorem vehicles_registry (sID : Z) (ops : list Op) :
  let w := run (initWorld sID) ops in
  let st := station w in
  (List.length (vehicles st) <= 10)%nat /\
  NoDup (map EV.vehicleID (vehicles st)) /\
  (forall v, In v (vehicles st) ->
     (exists u, In u (users st) /\ User.userID u = EV.userID v /\
                User.isRegistered u = true) /\
     (f0 <=? EV.batteryCapacity v)%f32 = true) /\
  (forall vID uID soc capacity v2g,
     (forall u, In u (users st) -> User.userID u <> uID) ->
     station (fst (step w (RegisterVehicle vID uID soc capacity v2g))) = st) /\
  (forall vID u soc capacity v2g,
     (List.length (vehicles st) < 10)%nat -> In u (users st) ->
     (forall v, In v (vehicles st) -> EV.vehicleID v <> vID) ->
     vehicles (station (fst (step w (RegisterVehicle vID (User.userID u) soc capacity v2g)))) =
     vehicles st ++ [EV.registerVehicle vID (User.userID u) soc capacity v2g]).
Proof.
  intros w st.
  pose proof (Inv_run sID ops) as HI. pose proof (Registry_run sID ops) as HR.
  fold w st in HI, HR.
  pose proof (reg_users _ HR) as Hus. rewrite Forall_forall in Hus.
  split; [apply (reg_vehicles_cap _ HR)|]. split; [apply (inv_vehicles _ HI)|].
  split; [|split].
  - intros v Hv.
    pose proof (reg_vehicles _ HR) as H. rewrite Forall_forall in H.
    destruct (H v Hv) as [(u & Hu & Hid) Hcap]. split; [|assumption].
    exists u. split; [assumption|]. split; [assumption|]. apply (Hus u Hu).
  - intros vID uID soc capacity v2g Hnone. rewrite station_step. fold st.
    unfold registerVehicle. destruct (MAX_USERS <=? vehicleCount st); [reflexivity|].
    destruct (existsb _ (users st)) eqn:He; [|reflexivity].
    apply existsb_user in He. destruct He as (u & Hu & Hid). destruct (Hnone u Hu Hid).
  - intros vID u soc capacity v2g Hroom Hu Hfresh. rewrite station_step. fold st.
    unfold registerVehicle, vehicleCount, MAX_USERS.
    destruct (Z.leb_spec 10 (Z.of_nat (List.length (vehicles st)))) as [Hc|_]; [lia|].
    replace (existsb (fun u0 => (User.userID u0 =? User.userID u) && User.isRegistered u0)
                     (users st)) with true.
    2: { symmetry. apply existsb_exists. exists u. split; [assumption|].
         rewrite Z.eqb_refl. destruct (Hus u Hu) as [-> _]. reflexivity. }
    destruct (existsb (fun v => EV.vehicleID v =? vID) (vehicles st)) eqn:He; [|reflexivity].
    apply existsb_exists in He. destruct He as (v & Hv & Hid). apply Z.eqb_eq in Hid.
    destruct (Hfresh v Hv Hid).
Qed.

(** ** X3: The charge and the capacity at registration *)

(** X3. Whatever charge and capacity are given, a number below 0, above
    100, infinite or not a number, [EV::registerVehicle] stores a charge
    between 0 and 100 and a capacity of at least 0; a charge strictly
    between 0 and 100 is stored as given, and so is a capacity above 0.  A
    charge that is not a number is stored as 100, a capacity that is not a
    number as 0. *)
Theorem registerVehicle_clamps (vID uID : Z) (soc capacity : F32.t) (v2g : bool) :
  let v := EV.registerVehicle vID uID soc capacity v2g in
  (f0 <=? EV.batterySOC v)%f32 = true /\
  (EV.batterySOC v <=? f100)%f32 = true /\
  (f0 <=? EV.batteryCapacity v)%f32 = true /\
  ((f0 <? soc)%f32 = true /\ (soc <? f100)%f32 = true -> EV.batterySOC v = soc) /\
  ((f0 <? capacity)%f32 = true -> EV.batteryCapacity v = capacity) /\
  (F32.is_nan soc = true -> EV.batterySOC v = f100) /\
  (F32.is_nan capacity = true -> EV.batteryCapacity v = f0).
Proof.
  cbv zeta. unfold EV.registerVehicle. simpl.
  destruct (clamp_range soc) as [H1 H2].
  split; [exact H1|]. split; [exact H2|]. split; [apply F32_max_lower|].
  split; [|split; [|split]].
  - intros [Hlo Hhi]. unfold F32.max, F32.min. rewrite Hhi, Hlo. reflexivity.
  - intros Hlo. unfold F32.max. rewrite Hlo. reflexivity.
  - destruct soc; try discriminate. intros _. vm_compute. reflexivity.
  - destruct capacity; try discriminate. intros _. vm_compute. reflexivity.
Qed.

(** ** X4: The bookings of the ledger *)


(** ** X5: The ledger only grows *)

(** X5. Whatever the operations, from any state: the ledger never loses a
    slot, and a slot keeps its booking ID, user, vehicle, dock, station,
    start, duration and charging type for ever; a booking that is no
    longer active is never touched again, so its cost and its energy stay
    as recorded and it never becomes active again. *)
Theorem ledger_append_only (w : World) (ops : list Op) :
  let bs := bookings (station w) in
  let bs' := bookings (station (run w ops)) in
  (exists new, map bookingStatic bs' = map bookingStatic bs ++ new) /\
  (List.length bs <= List.length bs')%nat /\
  (forall i b, nth_error bs i = Some b -> Booking.isActive b = false ->
               nth_error bs' i = Some b).
Proof.
  cbv zeta.
  assert (H : (exists new, map bookingStatic (bookings (station (run w ops)))
                           = map bookingStatic (bookings (station w)) ++ new) /\
              (forall i b, nth_error (bookings (station w)) i = Some b ->
                           Booking.isActive b = false ->
                           nth_error (bookings (station (run w ops))) i = Some b)).
  { induction ops as [|op ops [[new IH1] IH2]] using rev_ind.
    - split; [exists []; rewrite app_nil_r; reflexivity|auto].
    - rewrite run_snoc. destruct (ledger_step (run w ops) op) as [[new' H1] H2].
      split.
      + exists (new ++ new'). rewrite H1, IH1, app_assoc. reflexivity.
      + intros i b Hn Hb. apply H2; [apply IH2; assumption|assumption]. }
  destruct H as [[new H1] H2]. split; [exists new; exact H1|]. split; [|exact H2].
  apply (f_equal (@List.length _)) in H1. rewrite length_app, !length_map in H1. lia.
Qed.

(** ** X6: Docks and active bookings *)

(** X6. In every reachable state the flags of the docks agree with the
    ledger: a dock is flagged occupied exactly when an active booking sits
    on it; there is then one such booking only, and the dock names its
    vehicle; a free dock names the vehicle -1.  So there are as many
    active bookings as occupied docks, at most five. *)
Theorem docks_match_ledger (sID : Z) (ops : list Op) :
  let st := station (run (initWorld sID) ops) in
  (forall dk, In dk (docks st) ->
     (ChargingDock.isOccupied dk = true <->
      exists i b, nth_error (bookings st) i = Some b /\ Booking.isActive b = true /\
                  Booking.dockID b = ChargingDock.dockID dk)) /\
  (forall i j b1 b2,
     nth_error (bookings st) i = Some b1 -> nth_error (bookings st) j = Some b2 ->
     Booking.isActive b1 = true -> Booking.isActive b2 = true ->
     Booking.dockID b1 = Booking.dockID b2 -> i = j) /\
  (forall dk i b, In dk (docks st) -> nth_error (bookings st) i = Some b ->
     Booking.isActive b = true -> Booking.dockID b = ChargingDock.dockID dk ->
     ChargingDock.currentVehicleID dk = Booking.vehicleID b) /\
  (forall dk, In dk (docks st) -> ChargingDock.isOccupied dk = false ->
     ChargingDock.currentVehicleID dk = -1) /\
  List.length (activeBookings st) = List.length (occupiedDocks st) /\
  (List.length (activeBookings st) <= 5)%nat.
Proof.
  intros st.
  pose proof (Inv_run sID ops) as HI. pose proof (Occupancy_run sID ops) as HO.
  pose proof (DockLedger_run sID ops) as HD. fold st in HI, HO, HD.
  destruct (active_occupied st HI HO HD) as [Hcount Hfive].
  destruct HO as [O1 O2].
  assert (Huniq : forall i j b1 b2,
            nth_error (bookings st) i = Some b1 -> nth_error (bookings st) j = Some b2 ->
            Booking.isActive b1 = true -> Booking.isActive b2 = true ->
            Booking.dockID b1 = Booking.dockID b2 -> i = j).
  { intros i j b1 b2 H1 H2 A1 A2 Hd. destruct (Nat.eq_dec i j) as [|Hne]; [assumption|].
    destruct (O2 i j b1 b2 Hne H1 H2 A1 A2 Hd). }
  split; [|split; [exact Huniq|split; [|split; [|split; [exact Hcount|lia]]]]].
  - intros dk Hin. split.
    + intros Hocc. specialize (HD dk Hin). rewrite Hocc in HD.
      destruct HD as (i & b & Hn & Ha & Hd & _). eauto.
    + intros (i & b & Hn & Ha & Hd).
      destruct (O1 i b Hn Ha) as (dk' & Hdk' & Hocc).
      rewrite Hd, (dockOf_In st dk (inv_layout _ HI) Hin) in Hdk'. congruence.
  - intros dk i b Hin Hn Ha Hd.
    destruct (O1 i b Hn Ha) as (dk' & Hdk' & Hocc).
    rewrite Hd, (dockOf_In st dk (inv_layout _ HI) Hin) in Hdk'.
    inversion Hdk'; subst dk'.
    specialize (HD dk Hin). rewrite Hocc in HD.
    destruct HD as (i' & b' & Hn' & Ha' & Hd' & Hv').
    assert (i' = i) by (apply (Huniq i' i b' b); congruence). subst i'.
    congruence.
  - intros dk Hin Hfree. specialize (HD dk Hin). rewrite Hfree in HD. exact HD.
Qed.

(** ** X7: The dock that is picked *)

(** X7. In every reachable state the docks 2 and 4 are the Solar docks.
    [findAvailableDock] answers -1 when there is no candidate.  Otherwise
    it answers a candidate: for a start in the peak hours and a request
    that is not for Solar charging, the lowest Solar candidate if there is
    one; in every other case the lowest candidate. *)
Theorem findAvailableDock_choice (sID : Z) (ops : list Op)
    (cw : WeatherCondition) (p : Z) (s d : F32.t) (isSolarCharging : bool) :
  let st := station (run (initWorld sID) ops) in
  let candidates := suitableDocks cw st p s d isSolarCharging in
  let chosen := findAvailableDock cw st p s d isSolarCharging in
  (forall dk, In dk (docks st) ->
     isSolarPower (ChargingDock.energySource dk) = isSolarDock (ChargingDock.dockID dk)) /\
  (candidates = [] -> chosen = -1) /\
  (candidates <> [] ->
   In chosen candidates /\
   forall id, In id candidates ->
     if isPeak s && negb isSolarCharging && existsb isSolarDock candidates
     then isSolarDock chosen = true /\ (isSolarDock id = true -> chosen <= id)
     else chosen <= id).
Proof.
  intros st candidates chosen.
  pose proof (inv_layout _ (Inv_run sID ops)) as Hl. fold st in Hl.
  split; [intros dk; apply layout_solar; assumption|].
  subst candidates chosen.
  destruct (findAvailableDock_layout cw st p s d isSolarCharging Hl) as [[H1 H2]|H].
  - split; [auto|]. intros Hne. destruct (Hne H1).
  - split; [|auto]. intros He. destruct H as [Hin _]. rewrite He in Hin. destruct Hin.
Qed.

(** ** X8: The dock of a new booking *)

(** X8. In every reachable state a booking that [createBooking] creates is
    appended to the ledger with the next ID, active, with cost 0 and energy
    0, on a candidate dock for its stored start; the last two lines
    printed give this start and this ID.  The stored start is in the peak
    hours only for a critical request made for the peak hours.  The search
    runs on the stored start, so a request that was deferred to 18.0 is no
    longer in the peak hours: the dock is the lowest candidate unless the
    request is critical, in the peak hours and not for Solar charging;
    then it is the lowest Solar candidate if there is one. *)
Theorem createBooking_dock_choice (sID : Z) (ops : list Op)
    (uID vID : Z) (s d : F32.t) (p t : Z) :
  let w := run (initWorld sID) ops in
  let st := station w in
  let cw := currentWeather w in
  let result := createBooking cw st uID vID s d p t in
  snd (fst result) = true ->
  exists b,
    bookings (fst (fst result)) = bookings st ++ [b] /\
    Booking.bookingID b = bookingCount st + 1 /\
    Booking.userID b = uID /\ Booking.vehicleID b = vID /\
    Booking.duration b = d /\ Booking.chargingType b = t /\
    Booking.isActive b = true /\ Booking.cost b = f0 /\ Booking.energyConsumed b = f0 /\
    isPeak (Booking.startTime b) = isPeak s && isCriticalBooking st uID vID /\
    (exists earlier,
       snd result = earlier ++
         [ Notify uID "Upcoming charging session scheduled at:" (Booking.startTime b);
           SayInt "Booking created successfully! Booking ID: " (Booking.bookingID b) ]) /\
    let candidates := suitableDocks cw st p (Booking.startTime b) d (t =? 4) in
    let preferSolar := isPeak s && isCriticalBooking st uID vID && negb (t =? 4) in
    In (Booking.dockID b) candidates /\
    forall id, In id candidates ->
      if preferSolar && existsb isSolarDock candidates
      then isSolarDock (Booking.dockID b) = true /\
           (isSolarDock id = true -> Booking.dockID b <= id)
      else Booking.dockID b <= id.
Proof.
  intros w st cw result Hok. subst result.
  pose proof (inv_layout _ (Inv_run sID ops)) as Hl. fold w st in Hl.
  exists (newBooking cw st uID vID s d p t).
  split; [rewrite bookings_createBooking, Hok; reflexivity|].
  unfold newBooking. cbn [Booking.bookingID Booking.userID Booking.vehicleID Booking.duration
                          Booking.chargingType Booking.isActive Booking.cost
                          Booking.energyConsumed Booking.createBooking Booking.startTime
                          Booking.dockID].
  rewrite bookingCount_anchored, findAvailableDock_anchored.
  repeat (split; [reflexivity|]).
  set (start := effectiveStart st uID vID s).
  assert (Hpeak : isPeak start = isPeak s && isCriticalBooking st uID vID).
  { unfold start, effectiveStart, isDeferred.
    destruct (isPeak s) eqn:Hs, (isCriticalBooking st uID vID); simpl;
      try rewrite Hs; reflexivity. }
  split; [exact Hpeak|].
  split.
  { destruct (createBooking_accepted _ _ _ _ _ _ _ _ Hok) as (Hv & _ & _).
    rewrite createBooking_valid in * by assumption. cbv zeta in *.
    fold start in Hok |- *.
    destruct (findAvailableDock cw (anchored st s) p start d (t =? 4) =? -1);
      [discriminate Hok|].
    eexists. cbn [snd].
    match goal with |- context [SayInt _ (bookingCount ?x)] =>
      replace (bookingCount x) with (bookingCount st + 1)
    end; [reflexivity|].
    unfold bookingCount. cbn [bookings set_docks set_bookings].
    rewrite length_app, bookings_anchored. simpl List.length. lia. }
  destruct (findAvailableDock_layout cw st p start d (t =? 4) Hl) as [[H1 H2]|[Hin Hlow]].
  - destruct (createBooking_accepted _ _ _ _ _ _ _ _ Hok) as (_ & Hc & _).
    unfold newBooking in Hc. simpl in Hc.
    rewrite suitableDocks_anchored in Hc. fold start in Hc. rewrite H1 in Hc. destruct Hc.
  - split; [exact Hin|]. intros id Hid. specialize (Hlow id Hid).
    rewrite Hpeak in Hlow. exact Hlow.
Qed.

Lemma createBooking_dock_choice_witness :
  snd (fst (createBooking (currentWeather (run (initWorld 1) oneVehicle))
                          (station (run (initWorld 1) oneVehicle))
                          1 1 (F32.of_int 9) (F32.of_int 1) 7 1)) = true /\
  exists b,
    bookings (fst (fst (createBooking (currentWeather (run (initWorld 1) oneVehicle))
                                      (station (run (initWorld 1) oneVehicle))
                                      1 1 (F32.of_int 9) (F32.of_int 1) 7 1)))
    = bookings (station (run (initWorld 1) oneVehicle)) ++ [b] /\
    Booking.isActive b = true.
Proof.
  assert (H : snd (fst (createBooking (currentWeather (run (initWorld 1) oneVehicle))
                                      (station (run (initWorld 1) oneVehicle))
                                      1 1 (F32.of_int 9) (F32.of_int 1) 7 1)) = true)
    by (vm_compute; reflexivity).
  split; [exact H|].
  destruct (createBooking_dock_choice 1 oneVehicle 1 1 (F32.of_int 9) (F32.of_int 1) 7 1 H)
    as (b & Hb & _ & _ & _ & _ & _ & Ha & _).
  exists b. split; assumption.
Defined.

(** ** X9: Critical requests *)

(** X9. [isCriticalBooking] answers true exactly when a user with the ID
    has membership level 1, or no vehicle has the vehicle ID, or the first
    vehicle with the ID has a charge below 20.  It does not ask whether the
    vehicle belongs to the user. *)
Theorem isCriticalBooking_cases (st : ChargingStation) (uID vID : Z) :
  isCriticalBooking st uID vID = true <->
  (exists u, In u (users st) /\ User.userID u = uID /\ User.membershipLevel u = 1) \/
  (forall v, In v (vehicles st) -> EV.vehicleID v <> vID) \/
  (exists i v, nth_error (vehicles st) i = Some v /\ EV.vehicleID v = vID /\
               (forall j v', (j < i)%nat -> nth_error (vehicles st) j = Some v' ->
                             EV.vehicleID v' <> vID) /\
               (EV.batterySOC v <? f20)%f32 = true).
Proof.
  unfold isCriticalBooking, isPremium.
  assert (Hprem : existsb (fun u => (User.userID u =? uID) && (User.membershipLevel u =? 1))
                          (users st) = true <->
                  exists u, In u (users st) /\ User.userID u = uID /\
                            User.membershipLevel u = 1).
  { rewrite existsb_exists. split.
    - intros (u & Hin & Hu). apply andb_prop in Hu. destruct Hu as [H1 H2].
      apply Z.eqb_eq in H1. apply Z.eqb_eq in H2. eauto.
    - intros (u & Hin & H1 & H2). exists u. rewrite H1, H2, !Z.eqb_refl. auto. }
  destruct (findFirst (fun v => EV.vehicleID v =? vID) (vehicles st)) as [[i v]|] eqn:Hf.
  - pose proof Hf as Hf'. apply findFirst_Some in Hf'. destruct Hf' as (Hn & Hp & Hlt).
    apply Z.eqb_eq in Hp.
    assert (Hearlier : forall j v', (j < i)%nat -> nth_error (vehicles st) j = Some v' ->
                                    EV.vehicleID v' <> vID).
    { intros j v' Hj Hv'. apply Z.eqb_neq. apply (Hlt j v' Hj Hv'). }
    rewrite orb_true_iff, Hprem. split.
    + intros [H|H]; [auto|]. right. right. exists i, v. auto.
    + intros [H|[H|(i' & v' & Hn' & Hid' & Hlt' & Hsoc)]]; [auto| |].
      * destruct (H v (nth_error_In _ _ Hn) Hp).
      * right.
        assert (i' = i).
        { destruct (Nat.lt_trichotomy i' i) as [Hlt0|[Heq|Hgt]]; [|assumption|].
          - destruct (Hearlier i' v' Hlt0 Hn' Hid').
          - destruct (Hlt' i v Hgt Hn Hp). }
        subst i'. congruence.
  - rewrite findFirst_None in Hf. rewrite orb_true_iff, Hprem. split.
    + intros _. right. left. intros v Hv. apply Z.eqb_neq. apply Hf. assumption.
    + intros _. right. vm_compute. reflexivity.
Qed.

(** ** X10: What a completion changes *)

(** X10. In every reachable state, completing an active booking frees its
    dock (no vehicle, not occupied) and leaves the other docks alone, adds
    the duration to the hours of this dock only, and charges the vehicle of
    the booking by [energy / capacity * 100] points, capped at 100, leaving
    the other vehicles alone.  The users, the anchor and the other bookings
    stay as they are, and the invoice and the two notifications carry the
    energy and the cost that are recorded. *)
Theorem completeBooking_effects (sID : Z) (ops : list Op) (i : nat) (b : Booking.t) :
  let w := run (initWorld sID) ops in
  let st := station w in
  let cw := currentWeather w in
  nth_error (bookings st) i = Some b ->
  Booking.isActive b = true ->
  let st' := fst (completeBooking cw st (Booking.bookingID b)) in
  exists b' dk src,
    nth_error (bookings st') i = Some b' /\
    Booking.isActive b' = false /\
    dockOf st (Booking.dockID b) = Some dk /\
    ChargingDock.energySource dk = Some src /\
    (forall k b0, k <> i -> nth_error (bookings st) k = Some b0 ->
                  nth_error (bookings st') k = Some b0) /\
    (forall j d, nth_error (docks st) j = Some d ->
       nth_error (docks st') j
       = Some (if ChargingDock.dockID d =? Booking.dockID b
               then ChargingDock.mk (ChargingDock.dockID d) (ChargingDock.powerRating d)
                                    false (-1) (ChargingDock.energySource d)
               else d)) /\
    (forall k,
       nth k (totalOccupiedTime st') f0
       = if Z.of_nat k + 1 =? Booking.dockID b
         then (nth k (totalOccupiedTime st) f0 + Booking.duration b)%f32
         else nth k (totalOccupiedTime st) f0) /\
    (exists v, In v (vehicles st) /\ EV.vehicleID v = Booking.vehicleID b) /\
    (forall j v, nth_error (vehicles st) j = Some v ->
       nth_error (vehicles st') j
       = Some (if EV.vehicleID v =? Booking.vehicleID b
               then
                 let soc := (EV.batterySOC v
                             + (Booking.energyConsumed b' / EV.batteryCapacity v) * f100)%f32 in
                 EV.mk (EV.vehicleID v) (EV.userID v)
                       (if (soc >? f100)%f32 then f100 else soc)
                       (EV.batteryCapacity v) (EV.supportsV2G v)
               else v)) /\
    (forall v, In v (vehicles st') -> EV.vehicleID v = Booking.vehicleID b ->
               (EV.batterySOC v >? f100)%f32 = false) /\
    users st' = users st /\
    systemStartTime st' = systemStartTime st /\
    snd (completeBooking cw st (Booking.bookingID b)) =
    [ SayInt "Invoice for Booking ID: " (Booking.bookingID b);
      SayInt "User  ID: " (Booking.userID b);
      SayInt "Vehicle ID: " (Booking.vehicleID b);
      SayNum "Energy Consumed: " (Booking.energyConsumed b');
      SayNum "Charging Rate: $" (ratePerKWh b src);
      SayNum "Total Cost: $" (Booking.cost b');
      Notify (Booking.userID b) "Charging session completed. Energy consumed:"
             (Booking.energyConsumed b');
      Notify (Booking.userID b) "Total cost for the session: $" (Booking.cost b') ].
Proof.
  intros w st cw Hn Hact st'.
  pose proof (Inv_run sID ops) as HI. pose proof (Registry_run sID ops) as HR.
  fold w st in HI, HR.
  pose proof (findFirst_active _ _ _ HI Hn Hact) as Hf.
  destruct (Inv_booking_dock _ _ _ HI Hn) as (j & dk & Hd & Hlay & Hid & Hj).
  destruct (layout_source _ Hlay) as [src Hs].
  pose proof (completeBooking_found cw _ _ _ _ _ _ _ Hf Hd Hs) as Hst.
  pose proof (completeBooking_found_out cw _ _ _ _ _ _ _ Hf Hd Hs) as Hout.
  fold st' in Hst.
  assert (Hi : (i < List.length (bookings st))%nat) by (apply nth_error_Some; congruence).
  exists (billed b (billedEnergy cw dk src b) (billedCost cw st dk src b)), dk, src.
  rewrite Hst, Hout. cbn [bookings docks vehicles users totalOccupiedTime systemStartTime].
  split; [apply nth_error_setAt_eq; assumption|]. split; [reflexivity|].
  split; [unfold dockOf; rewrite Hd; reflexivity|]. split; [assumption|].
  split; [intros k b0 Hk Hb0; rewrite nth_error_setAt_ne; auto|].
  split.
  { intros j0 d0 Hd0. unfold releaseDock.
    rewrite (nth_error_updateFirst_key ChargingDock.dockID _ _ _ _ _
               (layout_NoDup _ (inv_layout _ HI)) Hd0).
    reflexivity. }
  split.
  { intros k. apply findFirst_Some in Hd. destruct Hd as (Hjn & _ & _).
    assert (Hj5 : (j < List.length (totalOccupiedTime st))%nat).
    { rewrite (inv_total _ HI).
      pose proof (inv_layout _ HI) as Hl. apply (f_equal (@List.length _)) in Hl.
      rewrite length_map in Hl. simpl in Hl. rewrite <- Hl. apply nth_error_Some. congruence. }
    rewrite nth_setAt by assumption.
    destruct (Nat.eqb_spec k j) as [->|Hne].
    - rewrite Hj, Z.eqb_refl. reflexivity.
    - destruct (Z.eqb_spec (Z.of_nat k + 1) (Booking.dockID b)); [lia|reflexivity]. }
  pose proof (reg_bookings _ HR) as Hok. rewrite Forall_forall in Hok.
  destruct (Hok b (nth_error_In _ _ Hn)) as (_ & (v & Hv & Hvid & _) & _ & _).
  split; [exists v; auto|].
  split.
  { intros j0 v0 Hv0.
    rewrite (nth_error_updateFirst_key EV.vehicleID _ _ _ _ _ (inv_vehicles _ HI) Hv0).
    reflexivity. }
  split.
  { intros v0 Hin Hv0.
    apply (In_updateFirst_key EV.vehicleID) in Hin; [|apply (inv_vehicles _ HI)].
    destruct Hin as [(x & Hx & _ & ->)|[_ Hne]]; [apply chargeVehicle_cap|congruence]. }
  auto.
Qed.

Lemma completeBooking_effects_witness :
  nth_error (bookings (station (run (initWorld 1) morningBooking))) 0
  = Some (Booking.createBooking 1 1 1 1 1 (F32.of_int 8) (F32.of_int 1) 1) /\
  exists b',
    nth_error (bookings (fst (completeBooking SUNNY (station (run (initWorld 1) morningBooking)) 1)))
              0 = Some b' /\
    Booking.isActive b' = false /\
    users (fst (completeBooking SUNNY (station (run (initWorld 1) morningBooking)) 1))
    = users (station (run (initWorld 1) morningBooking)).
Proof.
  assert (H : nth_error (bookings (station (run (initWorld 1) morningBooking))) 0
              = Some (Booking.createBooking 1 1 1 1 1 (F32.of_int 8) (F32.of_int 1) 1))
    by (vm_compute; reflexivity).
  split; [exact H|].
  destruct (completeBooking_effects 1 morningBooking 0%nat _ H eq_refl)
    as (b' & dk & src & H1 & H2 & _ & _ & _ & _ & _ & _ & _ & _ & H3 & _).
  exists b'. split; [exact H1|]. split; [exact H2|exact H3].
Defined.

(** ** X11: A booking is closed once *)

(** X11. In every reachable state, once [completeBooking] or
    [cancelBooking] has been called for the ID of a booking, calling either
    of them for this ID changes nothing and prints nothing, at once and
    after any further operations: no booking is billed twice, and none is
    charged a penalty after its completion.  For an ID that has not been
    handed out both calls change nothing and print nothing as well. *)
Theorem booking_closed_once (sID : Z) (ops : list Op) (id : Z) (cw : WeatherCondition) :
  let w := run (initWorld sID) ops in
  let st := station w in
  (1 <= id <= bookingCount st ->
   forall (closed : ChargingStation) (later : list Op) (cw' : WeatherCondition),
     closed = fst (completeBooking cw st id) \/ closed = fst (cancelBooking st id) ->
     let st' := station (run (mkWorld (currentWeather w) closed) later) in
     completeBooking cw' st' id = (st', []) /\ cancelBooking st' id = (st', [])) /\
  (id < 1 \/ bookingCount st < id ->
   completeBooking cw st id = (st, []) /\ cancelBooking st id = (st, [])).
Proof.
  intros w st.
  pose proof (Inv_run sID ops) as HI. fold w st in HI.
  split.
  - intros Hid closed later cw' Hclosed st'.
    assert (Hc : Inv closed /\ settled closed id).
    { destruct Hclosed as [-> | ->].
      - split; [apply Inv_completeBooking; assumption|].
        apply (settled_closed st); [assumption|apply length_bookings_completeBooking|].
        apply closed_after_complete. assumption.
      - split; [apply Inv_cancelBooking; assumption|].
        apply (settled_closed st); [assumption|apply length_bookings_cancelBooking|].
        apply closed_after_cancel. assumption. }
    destruct Hc as [HIc Hsc].
    apply settled_noop.
    + apply (Inv_run_from (mkWorld (currentWeather w) closed)). assumption.
    + apply (settled_run (mkWorld (currentWeather w) closed)). assumption.
  - intros Hid.
    assert (Hnone : findFirst (isActiveBooking id) (bookings st) = None).
    { apply findFirst_None. intros b Hin. apply In_nth_error in Hin. destruct Hin as [k Hk].
      unfold isActiveBooking. rewrite (@Inv_bookingID st k b HI Hk).
      assert (k < List.length (bookings st))%nat by (apply nth_error_Some; congruence).
      unfold bookingCount in Hid.
      destruct (Z.eqb_spec (Z.of_nat k + 1) id); [lia|reflexivity]. }
    split; [apply completeBooking_not_found|apply cancelBooking_not_found]; assumption.
Qed.

Lemma booking_closed_once_witness :
  1 <= 1 <= bookingCount (station (run (initWorld 1) morningBooking)) /\
  completeBooking CLOUDY
    (station (run (mkWorld SUNNY (fst (completeBooking SUNNY
                                         (station (run (initWorld 1) morningBooking)) 1)))
                  [SetWeather 1; CancelBooking 1])) 1
  = (station (run (mkWorld SUNNY (fst (completeBooking SUNNY
                                         (station (run (initWorld 1) morningBooking)) 1)))
                  [SetWeather 1; CancelBooking 1]), []).
Proof.
  assert (H : 1 <= 1 <= bookingCount (station (run (initWorld 1) morningBooking)))
    by (vm_compute; split; discriminate).
  split; [exact H|].
  destruct (booking_closed_once 1 morningBooking 1 SUNNY) as [Hc _].
  destruct (Hc H _ [SetWeather 1; CancelBooking 1] CLOUDY (or_introl eq_refl)) as [H1 _].
  exact H1.
Defined.

(** ** X12: The power drawn *)

(** X12. In every reachable state and under any weather,
    [getCurrentPowerConsumption] is a number between 0 and 108, the sum of
    the ratings of the five docks, so it stays below [GRID_CAPACITY]; it
    is 0 when no booking is active. *)
Theorem power_within_capacity (sID : Z) (ops : list Op) (cw : WeatherCondition) :
  let st := station (run (initWorld sID) ops) in
  (f0 <=? getCurrentPowerConsumption cw st)%f32 = true /\
  (getCurrentPowerConsumption cw st <=? F32.of_int 108)%f32 = true /\
  (getCurrentPowerConsumption cw st <? GRID_CAPACITY)%f32 = true /\
  (activeBookings st = [] -> getCurrentPowerConsumption cw st = f0).
Proof.
  intros st.
  pose proof (Inv_run sID ops) as HI. pose proof (DockLedger_run sID ops) as HD.
  fold st in HI, HD.
  assert (Hfree : activeBookings st = [] ->
                  forall dk, In dk (docks st) -> ChargingDock.isOccupied dk = false).
  { intros Hnone dk Hin. specialize (HD dk Hin).
    destruct (ChargingDock.isOccupied dk); [|reflexivity].
    destruct HD as (i & b & Hn & Ha & _).
    assert (Hb : In b (activeBookings st)).
    { apply filter_In. split; [eapply nth_error_In; eassumption|assumption]. }
    rewrite Hnone in Hb. destruct Hb. }
  unfold getCurrentPowerConsumption.
  destruct (layout_fields _ (inv_layout _ HI))
    as (d1 & d2 & d3 & d4 & d5 & Hds & (_ & P1 & S1) & (_ & P2 & S2) & (_ & P3 & S3)
        & (_ & P4 & S4) & (_ & P5 & S5)).
  rewrite Hds in *. cbn [fold_left].
  rewrite S1, S2, S3, S4, S5, P1, P2, P3, P4, P5.
  split; [|split; [|split]].
  - destruct cw, (ChargingDock.isOccupied d1), (ChargingDock.isOccupied d2),
      (ChargingDock.isOccupied d3), (ChargingDock.isOccupied d4),
      (ChargingDock.isOccupied d5); vm_compute; reflexivity.
  - destruct cw, (ChargingDock.isOccupied d1), (ChargingDock.isOccupied d2),
      (ChargingDock.isOccupied d3), (ChargingDock.isOccupied d4),
      (ChargingDock.isOccupied d5); vm_compute; reflexivity.
  - destruct cw, (ChargingDock.isOccupied d1), (ChargingDock.isOccupied d2),
      (ChargingDock.isOccupied d3), (ChargingDock.isOccupied d4),
      (ChargingDock.isOccupied d5); vm_compute; reflexivity.
  - intros Hnone. specialize (Hfree Hnone).
    rewrite (Hfree d1), (Hfree d2), (Hfree d3), (Hfree d4), (Hfree d5) by (simpl; auto 10).
    reflexivity.
Qed.

(** ** X13: Discharge to the grid *)

(** X13. Menu entry 9 on a vehicle ID that is not registered changes
    nothing.  Otherwise it changes the charge of the first vehicle with
    this ID and nothing else in the station.  A vehicle without V2G gives
    0 and keeps its charge.  With V2G the energy given is the request or
    the energy in the battery, it is never more than the request, and the
    charge left is not below 0. *)
Theorem dischargeToGrid_effects (st : ChargingStation) (vehicleID : Z) (energy : F32.t) :
  let result := dischargeToGrid st vehicleID energy in
  let st' := fst (fst result) in
  let discharged := snd (fst result) in
  docks st' = docks st /\ users st' = users st /\ bookings st' = bookings st /\
  totalOccupiedTime st' = totalOccupiedTime st /\
  systemStartTime st' = systemStartTime st /\ stationID st' = stationID st /\
  map vehicleStatic (vehicles st') = map vehicleStatic (vehicles st) /\
  ((forall v, In v (vehicles st) -> EV.vehicleID v <> vehicleID) ->
   result = (st, f0, [Say "Vehicle ID not found."])) /\
  (forall i v, nth_error (vehicles st) i = Some v -> EV.vehicleID v = vehicleID ->
     (forall j v', (j < i)%nat -> nth_error (vehicles st) j = Some v' ->
                   EV.vehicleID v' <> vehicleID) ->
     exists v',
       vehicles st' = setAt i v' (vehicles st) /\
       (EV.supportsV2G v = false -> v' = v /\ discharged = f0) /\
       (EV.supportsV2G v = true ->
        let available := ((EV.batterySOC v / f100) * EV.batteryCapacity v)%f32 in
        (discharged = energy \/ discharged = available) /\
        (energy <? discharged)%f32 = false /\
        EV.batterySOC v' =
          (let soc := (EV.batterySOC v - (discharged / EV.batteryCapacity v) * f100)%f32 in
           if (soc <? f0)%f32 then f0 else soc) /\
        (EV.batterySOC v' <? f0)%f32 = false)).
Proof.
  cbv zeta.
  destruct (static_dischargeToGrid st vehicleID energy) as (H1 & H2 & H3 & H4 & H5 & H6 & H7).
  repeat (split; [assumption|]). split.
  - intros Hnone. unfold dischargeToGrid.
    replace (findFirst (fun v => EV.vehicleID v =? vehicleID) (vehicles st)) with
      (@None (nat * EV.t)); [reflexivity|].
    symmetry. apply findFirst_None. intros v Hv. apply Z.eqb_neq. apply Hnone. assumption.
  - intros i v Hn Hid Hfirst. unfold dischargeToGrid.
    rewrite (findFirst_unique (fun v0 => EV.vehicleID v0 =? vehicleID) (vehicles st) i v Hn).
    2: { apply Z.eqb_eq. assumption. }
    2: { intros j y Hj Hy. apply Z.eqb_neq. apply (Hfirst j y Hj Hy). }
    unfold EV.dischargeToGrid. destruct (EV.supportsV2G v) eqn:Hv2g; simpl.
    + eexists. split; [reflexivity|]. split; [discriminate|]. intros _.
      split; [unfold F32.min; destruct (_ <? energy)%f32; auto|].
      split.
      { unfold F32.min. destruct (_ <? energy)%f32 eqn:Hlt.
        - apply F32_ltb_asym. assumption.
        - apply F32_ltb_irrefl. }
      split; [reflexivity|].
      match goal with |- context [if ?c then _ else _] => destruct c eqn:Hc end.
      * vm_compute. reflexivity.
      * exact Hc.
    + exists v. split; [reflexivity|]. split; [auto|discriminate].
Qed.

Lemma dischargeToGrid_effects_witness :
  exists v',
    vehicles (fst (fst (dischargeToGrid (station (run (initWorld 1) oneVehicle)) 1
                                        (F32.of_int 10))))
    = setAt 0 v' (vehicles (station (run (initWorld 1) oneVehicle))) /\
    EV.batterySOC v' = F32.of_int 25.
Proof.
  destruct (dischargeToGrid_effects (station (run (initWorld 1) oneVehicle)) 1 (F32.of_int 10))
    as (_ & _ & _ & _ & _ & _ & _ & _ & H).
  destruct (H 0%nat halfCharged eq_refl eq_refl) as (v' & Hv & _ & Hv2g).
  { intros j v0 Hj. inversion Hj. }
  exists v'. split; [exact Hv|].
  destruct (Hv2g eq_refl) as (_ & _ & Hsoc & _). rewrite Hsoc. vm_compute. reflexivity.
Defined.

(** ** X14: The real-time display *)


(** ** X15: The status of the docks *)

(** X15. In every reachable state [displayDockStatus] prints the five rows
    of the constructor's docks, in order, with their power and source; the
    row of a dock reads "Occupied" with the vehicle of the active booking
    of this dock when there is one, and "Available" otherwise.  The line
    for a dock without source never shows. *)
Theorem displayDockStatus_rows (sID : Z) (ops : list Op) :
  let st := station (run (initWorld sID) ops) in
  let status (dockID : Z) :=
    match activeOn st dockID with
    | Some b => SayInt "Occupied (Vehicle ID: " (Booking.vehicleID b)
    | None => Say "Available"
    end in
  let number := SayInt EmptyString in
  displayDockStatus st =
  [ Say "=== Charging Station Dock Status ===";
    Say "Dock ID"; Say "Power (kW)"; Say "Source"; Say "Status";
    Say "-----------------------------------------------------------------";
    number 1; number 7; Say "Grid"; status 1;
    number 2; number 7; Say "Solar"; status 2;
    number 3; number 22; Say "Grid"; status 3;
    number 4; number 22; Say "Solar"; status 4;
    number 5; number 50; Say "Grid"; status 5;
    Say "=====================================" ].
Proof.
  intros st status number.
  pose proof (Inv_run sID ops) as HI.
  pose proof (Occupancy_run sID ops) as HO. pose proof (DockLedger_run sID ops) as HD.
  fold st in HI, HO, HD.
  assert (Hrow : forall dk, In dk (docks st) ->
            (if ChargingDock.isOccupied dk
             then SayInt "Occupied (Vehicle ID: " (ChargingDock.currentVehicleID dk)
             else Say "Available") = status (ChargingDock.dockID dk)).
  { intros dk Hin. pose proof (activeOn_dock st dk HI HO HD Hin) as H. unfold status.
    destruct (ChargingDock.isOccupied dk).
    - destruct H as (b & -> & <-). reflexivity.
    - rewrite H. reflexivity. }
  unfold displayDockStatus.
  destruct (layout_fields _ (inv_layout _ HI))
    as (d1 & d2 & d3 & d4 & d5 & Hds & (I1 & P1 & S1) & (I2 & P2 & S2) & (I3 & P3 & S3)
        & (I4 & P4 & S4) & (I5 & P5 & S5)).
  rewrite Hds in *. unfold dockStatusLines. cbn [flat_map app].
  rewrite S1, S2, S3, S4, S5.
  rewrite (Hrow d1), (Hrow d2), (Hrow d3), (Hrow d4), (Hrow d5) by (simpl; auto 10).
  rewrite I1, I2, I3, I4, I5, P1, P2, P3, P4, P5. reflexivity.
Qed.

(** ** X16: The counts of the report *)

(** X16. In every reachable state the two counts of the demand trends add
    up to the number of bookings, and the Premium count is the number of
    bookings of users at level 1.  The average duration and the revenue
    run over all the bookings that are not active, the cancelled ones
    included; there are [bookingCount] minus the number of occupied docks
    of them, and the average is 0 when there is none. *)
Theorem report_counts (sID : Z) (ops : list Op) :
  let st := station (run (initWorld sID) ops) in
  fst (demandTrends st) + snd (demandTrends st) = bookingCount st /\
  snd (demandTrends st) =
    Z.of_nat (List.length (filter (fun b => isPremium st (Booking.userID b)) (bookings st))) /\
  averageDuration st =
    match closedBookings st with
    | [] => f0
    | closed =>
        (fold_left (fun acc b => (acc + Booking.duration b)%f32) closed f0
         / F32.of_int (Z.of_nat (List.length closed)))%f32
    end /\
  totalRevenue st = fold_left (fun acc b => (acc + Booking.cost b)%f32) (closedBookings st) f0 /\
  Z.of_nat (List.length (closedBookings st))
    = bookingCount st - Z.of_nat (List.length (occupiedDocks st)).
Proof.
  intros st.
  pose proof (Inv_run sID ops) as HI. pose proof (Registry_run sID ops) as HR.
  pose proof (Occupancy_run sID ops) as HO. pose proof (DockLedger_run sID ops) as HD.
  fold st in HI, HR, HO, HD.
  assert (Hfold : demandTrends st =
            (0 + Z.of_nat (List.length (filter (fun b => negb (isPremium st (Booking.userID b)))
                                               (bookings st))),
             0 + Z.of_nat (List.length (filter (fun b => isPremium st (Booking.userID b))
                                               (bookings st))))).
  { unfold demandTrends. apply demandTrends_fold; [assumption..|].
    intros b Hb. pose proof (reg_bookings _ HR) as Hok. rewrite Forall_forall in Hok.
    apply (Hok b Hb). }
  rewrite Hfold. cbn [fst snd].
  split.
  { unfold bookingCount.
    rewrite <- (filter_length (fun b => isPremium st (Booking.userID b)) (bookings st)). lia. }
  split; [lia|]. split; [apply averageDuration_closed|].
  split; [unfold totalRevenue, closedBookings; apply fold_left_filter|].
  destruct (active_occupied st HI HO HD) as [Hcount _].
  unfold bookingCount, closedBookings. unfold activeBookings in Hcount.
  rewrite <- (filter_length Booking.isActive (bookings st)). lia.
Qed.

(** ** X17: Energy by source *)

(** X17. In every reachable state the report adds the energy of each
    booking that is not active to the Grid total when its dock is 1, 3 or
    5 and to the Solar total when its dock is 2 or 4, whatever the charging
    type asked for.  The figure printed as CO2 savings adds
    [energy * 0.5] for each such booking on a Grid dock and 0 for each on
    a Solar dock: it is the emission of the Grid energy. *)
Theorem report_by_source (sID : Z) (ops : list Op) :
  let st := station (run (initWorld sID) ops) in
  let onSolar (b : Booking.t) := isSolarDock (Booking.dockID b) in
  let energy (l : list Booking.t) :=
    fold_left (fun acc b => (acc + Booking.energyConsumed b)%f32) l f0 in
  energyBySource st =
    (energy (filter (fun b => negb (Booking.isActive b) && negb (onSolar b)) (bookings st)),
     energy (filter (fun b => negb (Booking.isActive b) && onSolar b) (bookings st))) /\
  co2Savings st =
    fold_left
      (fun acc b =>
         (acc + (if onSolar b then F32.dlit 0 1
                 else Booking.energyConsumed b * CO2_GRID_FACTOR))%f32)
      (closedBookings st) f0 /\
  F32.dlit 0 1 = f0 /\ CO2_GRID_FACTOR = F32.lit 5 10.
Proof.
  intros st onSolar energy.
  pose proof (Inv_run sID ops) as HI. fold st in HI.
  assert (Hr : forall b, In b (bookings st) -> 1 <= Booking.dockID b <= 5).
  { intros b Hb. apply bookingOnDock_range.
    pose proof (inv_docks _ HI) as Hd. rewrite Forall_forall in Hd. apply Hd. assumption. }
  split; [apply energyBySource_fold; [apply (inv_layout _ HI)|assumption]|].
  split; [apply co2Savings_fold; [apply (inv_layout _ HI)|assumption]|].
  split; vm_compute; reflexivity.
Qed.

(** ** X18: The report before any booking is closed *)

(** X18. While every booking of the ledger is active, and so in a new
    station, the report shows 0 for the average duration, for both energy
    ratios, for the revenue and for the CO2 figure: no figure is divided by
    a zero count or a zero total.  With an empty ledger the utilization
    and both demand counts are 0 as well. *)
Theorem report_nothing_closed (st : ChargingStation) :
  closedBookings st = [] ->
  averageDuration st = f0 /\
  energyRatios st = (f0, f0) /\
  totalRevenue st = f0 /\
  co2Savings st = f0 /\
  (bookings st = [] -> utilization st = f0 /\ demandTrends st = (0, 0)).
Proof.
  intros Hnone.
  assert (Hact : forall b, In b (bookings st) -> Booking.isActive b = true).
  { intros b Hb. destruct (Booking.isActive b) eqn:Ha; [reflexivity|].
    assert (Hin : In b (closedBookings st)) by (apply filter_In; rewrite Ha; auto).
    rewrite Hnone in Hin. destruct Hin. }
  split; [rewrite averageDuration_closed, Hnone; reflexivity|].
  assert (He : energyBySource st = (f0, f0)).
  { unfold energyBySource. apply fold_left_skip.
    intros [g s] b Hb. rewrite (Hact b Hb). reflexivity. }
  split; [unfold energyRatios; rewrite He; vm_compute; reflexivity|].
  split; [unfold totalRevenue; apply fold_left_skip; intros acc b Hb;
          rewrite (Hact b Hb); reflexivity|].
  split; [unfold co2Savings; apply fold_left_skip; intros acc b Hb;
          rewrite (Hact b Hb); reflexivity|].
  intros Hempty. unfold utilization, demandTrends, bookingCount. rewrite Hempty. simpl.
  split; [vm_compute; reflexivity|reflexivity].
Qed.

Lemma report_nothing_closed_witness :
  closedBookings (station (run (initWorld 1) morningBooking)) = [] /\
  averageDuration (station (run (initWorld 1) morningBooking)) = f0 /\
  totalRevenue (station (run (initWorld 1) morningBooking)) = f0.
Proof.
  assert (H : closedBookings (station (run (initWorld 1) morningBooking)) = [])
    by (vm_compute; reflexivity).
  split; [exact H|].
  destruct (report_nothing_closed _ H) as (H1 & _ & H3 & _). split; assumption.
Defined.

(** ** X19: The queue *)

(** X19. [processQueue] books the requests of the queue in order and stops
    at the first one that [createBooking] turns down: the requests it
    served are a prefix of the queue, each added one booking, and the rest
    of the queue is handed back untouched, the request that was turned
    down at its head, even where a later request could be booked.  That
    head is turned down again in the station handed back, so running
    [processQueue] again under the same weather changes nothing. *)
Theorem processQueue_blocks (cw : WeatherCondition) (st : ChargingStation)
    (queue : list QueuedBooking.t) :
  let result := processQueue cw st queue in
  let st' := fst (fst result) in
  let rest := snd (fst result) in
  exists served,
    queue = served ++ rest /\
    bookingCount st' = bookingCount st + Z.of_nat (List.length served) /\
    (forall qb later, rest = qb :: later ->
       snd (fst (createBooking cw st'
                   (QueuedBooking.userID qb) (QueuedBooking.vehicleID qb)
                   (QueuedBooking.startTime qb) (QueuedBooking.duration qb)
                   (QueuedBooking.powerRating qb) (QueuedBooking.chargingType qb))) = false) /\
    fst (processQueue cw st' rest) = (st', rest).
Proof.
  cbv zeta. revert st. induction queue as [|qb queue IH]; intros st.
  - exists []. simpl. split; [reflexivity|]. split; [lia|]. split; [discriminate|reflexivity].
  - rewrite processQueue_cons.
    set (r := createBooking cw st (QueuedBooking.userID qb) (QueuedBooking.vehicleID qb)
                (QueuedBooking.startTime qb) (QueuedBooking.duration qb)
                (QueuedBooking.powerRating qb) (QueuedBooking.chargingType qb)).
    pose proof (bookingCount_createBooking cw st (QueuedBooking.userID qb)
                  (QueuedBooking.vehicleID qb) (QueuedBooking.startTime qb)
                  (QueuedBooking.duration qb) (QueuedBooking.powerRating qb)
                  (QueuedBooking.chargingType qb)) as Hcount.
    fold r in Hcount.
    destruct (snd (fst r)) eqn:Hok.
    + destruct (IH (fst (fst r))) as (served & Hq & Hn & Hhead & Hagain).
      exists (qb :: served). split; [simpl; congruence|].
      split; [rewrite Hn, Hcount; simpl List.length; lia|]. auto.
    + exists []. cbn [fst snd app List.length].
      pose proof (createBooking_rejected_again cw st _ _ _ _ _ _ Hok) as Hr. fold r in Hr.
      split; [reflexivity|]. split; [lia|]. split.
      * intros qb' later Heq. inversion Heq; subst qb' later. rewrite Hr. exact Hok.
      * rewrite processQueue_cons. cbv zeta. rewrite Hr. fold r. rewrite Hok. reflexivity.
Qed.

(** ** X20: The stations behind the menu *)

(** X20. The three stations behind the menu of [main] do not interfere.
    After any entries, station [k] of the network is in the state that the
    station of ID [k] reaches on its own through the member functions
    called by the entries addressed to it, in order, and the changes of
    weather; an entry with a station ID outside 1 to 3 counts for station
    1, an entry with an unknown charging speed or choice for none, and
    nothing after entry 12 counts.  So every result about the reachable
    states of one station holds for each station of the network. *)
Theorem main_station (input : list Choice) (k : Z) :
  1 <= k <= 3 ->
  let m := fst (mainLoop initMain input) in
  let w := run (initWorld k) (sessionOps k input) in
  stationOf m k = Some (station w) /\
  weatherNow m = currentWeather w /\
  Forall fromMenu (sessionOps k input).
Proof.
  intros Hk. cbv zeta.
  assert (Hst : stationOf initMain k = Some (newStation k)).
  { assert (Hc : k = 1 \/ k = 2 \/ k = 3) by lia.
    destruct Hc as [->|[->| ->]]; reflexivity. }
  destruct (mainLoop_station input initMain k eq_refl Hk _ Hst) as [H1 H2].
  split; [exact H1|]. split; [exact H2|apply fromMenu_sessionOps].
Qed.

Lemma main_station_witness :
  1 <= 2 <= 3 /\
  stationOf (fst (mainLoop initMain
                    [ Choice1 2 1 "U1" 0; Choice1 7 1 "U1" 1; Choice11 1; Choice12;
                      Choice1 2 5 "U5" 0 ])) 2
  = Some (station (run (initWorld 2) [RegisterUser 1 "U1" 0; SetWeather 1])).
Proof.
  assert (H : 1 <= 2 <= 3) by lia.
  split; [exact H|].
  destruct (main_station [ Choice1 2 1 "U1" 0; Choice1 7 1 "U1" 1; Choice11 1; Choice12;
                           Choice1 2 5 "U5" 0 ] 2 H) as [H1 _].
  exact H1.
Defined.

(** ** X21: Solar charging and the weather *)

(** X21. Through the menu, where Solar charging asks for 7 kW: in every
    reachable state a Solar request at night is turned down and leaves the
    ledger as it is; one that is booked under clouds sits on dock 4, the
    only Solar dock that still delivers 7 kW, and one booked under the sun
    on dock 2 or dock 4. *)
Theorem solar_request_weather (sID : Z) (ops : list Op) (uID vID : Z) (s d : F32.t) :
  let w := run (initWorld sID) ops in
  let st := station w in
  let cw := currentWeather w in
  let result := menuCreateBooking cw st uID vID s d 4 in
  (cw = NIGHT ->
   snd (fst result) = false /\ bookings (fst (fst result)) = bookings st /\
   docks (fst (fst result)) = docks st) /\
  (snd (fst result) = true ->
   exists b, bookings (fst (fst result)) = bookings st ++ [b] /\
             Booking.chargingType b = 4 /\
             match cw with
             | SUNNY => Booking.dockID b = 2 \/ Booking.dockID b = 4
             | CLOUDY => Booking.dockID b = 4
             | NIGHT => False
             end).
Proof.
  intros w st cw result. subst result.
  change (menuCreateBooking cw st uID vID s d 4)
    with (createBooking cw st uID vID s d SOLAR 4).
  pose proof (inv_layout _ (Inv_run sID ops)) as Hl. fold w st in Hl.
  assert (Hacc : snd (fst (createBooking cw st uID vID s d SOLAR 4)) = true ->
            exists b, bookings (fst (fst (createBooking cw st uID vID s d SOLAR 4)))
                      = bookings st ++ [b] /\
                      Booking.chargingType b = 4 /\
                      match cw with
                      | SUNNY => Booking.dockID b = 2 \/ Booking.dockID b = 4
                      | CLOUDY => Booking.dockID b = 4
                      | NIGHT => False
                      end).
  { intros Hok. exists (newBooking cw st uID vID s d SOLAR 4).
    split; [rewrite bookings_createBooking, Hok; reflexivity|]. split; [reflexivity|].
    destruct (createBooking_accepted _ _ _ _ _ _ _ _ Hok) as (_ & Hin & _).
    rewrite suitableDocks_anchored in Hin.
    apply (solar_candidates cw st _ _ _ Hl Hin). }
  split; [|exact Hacc].
  intros Hnight.
  destruct (snd (fst (createBooking cw st uID vID s d SOLAR 4))) eqn:Hok.
  - destruct (Hacc eq_refl) as (b & _ & _ & Hb). rewrite Hnight in Hb. destruct Hb.
  - split; [reflexivity|].
    rewrite (createBooking_rejected _ _ _ _ _ _ _ _ Hok).
    destruct (anchored_fields st s) as (Hd & _ & _ & Hb & _).
    destruct (requestValid st uID vID s d); auto.
Qed.

(** ** X22: Bookings made through the menu *)

(** X22. When all bookings are made through the menu, in every reachable
    state each booking has one of the charging speeds 1 to 4 and sits on a
    dock whose rating is at least the power of this speed: a Medium
    booking on dock 3, 4 or 5, a Fast booking on dock 5, which draws from
    the grid, and a Solar booking on a Solar dock. *)
Theorem menu_bookings_rated (sID : Z) (ops : list Op) (i : nat) (b : Booking.t) :
  Forall fromMenu ops ->
  let st := station (run (initWorld sID) ops) in
  nth_error (bookings st) i = Some b ->
  exists p dk,
    powerOfChargingType (Booking.chargingType b) = Some p /\
    dockOf st (Booking.dockID b) = Some dk /\
    p <= ChargingDock.powerRating dk /\
    (Booking.chargingType b = 2 -> 3 <= Booking.dockID b) /\
    (Booking.chargingType b = 3 ->
     Booking.dockID b = 5 /\ ChargingDock.energySource dk = Some GridPower) /\
    (Booking.chargingType b = 4 -> ChargingDock.energySource dk = Some SolarPower).
Proof.
  intros Hm st Hn.
  pose proof (Inv_run sID ops) as HI. fold st in HI.
  pose proof (rated_run sID ops Hm) as HF. fold st in HF. rewrite Forall_forall in HF.
  pose proof (HF b (nth_error_In _ _ Hn)) as Hr. unfold ratedFor in Hr.
  destruct (powerOfChargingType (Booking.chargingType b)) as [p|] eqn:Hp; [|discriminate].
  apply Z.leb_le in Hr.
  destruct (Inv_booking_dock _ _ _ HI Hn) as (j & dk & Hd & Hlay & Hid & _).
  exists p, dk. split; [reflexivity|]. split; [unfold dockOf; rewrite Hd; reflexivity|].
  assert (Hcases : (ChargingDock.dockID dk = 1 /\ ChargingDock.powerRating dk = 7 /\
                    ChargingDock.energySource dk = Some GridPower) \/
                   (ChargingDock.dockID dk = 2 /\ ChargingDock.powerRating dk = 7 /\
                    ChargingDock.energySource dk = Some SolarPower) \/
                   (ChargingDock.dockID dk = 3 /\ ChargingDock.powerRating dk = 22 /\
                    ChargingDock.energySource dk = Some GridPower) \/
                   (ChargingDock.dockID dk = 4 /\ ChargingDock.powerRating dk = 22 /\
                    ChargingDock.energySource dk = Some SolarPower) \/
                   (ChargingDock.dockID dk = 5 /\ ChargingDock.powerRating dk = 50 /\
                    ChargingDock.energySource dk = Some GridPower)).
  { unfold stationLayout, dockStatic, SLOW, MEDIUM, FAST in Hlay. simpl in Hlay.
    destruct Hlay as [H|[H|[H|[H|[H|[]]]]]]; injection H as A B C; auto 10. }
  assert (Hrate : ChargingDock.powerRating dk = ratingOf (Booking.dockID b) /\
                  (Booking.dockID b = 5 -> ChargingDock.energySource dk = Some GridPower)).
  { rewrite <- Hid.
    destruct Hcases as [(A & B & C)|[(A & B & C)|[(A & B & C)|[(A & B & C)|(A & B & C)]]]];
      rewrite A, B, C; split; try reflexivity; intros; try lia; reflexivity. }
  destruct Hrate as [Hrate Hgrid].
  split; [rewrite Hrate; exact Hr|].
  unfold ratingOf, SLOW, MEDIUM, FAST in Hr.
  split.
  { intros T. rewrite T in Hp. vm_compute in Hp. inversion Hp; subst p.
    destruct (Z.leb_spec (Booking.dockID b) 2); lia. }
  split.
  { intros T. rewrite T in Hp. vm_compute in Hp. inversion Hp; subst p.
    assert (H5 : Booking.dockID b = 5).
    { pose proof (bookingOnDock_range b) as Hrange.
      assert (Hon : bookingOnDock b = true).
      { pose proof (inv_docks _ HI) as H. rewrite Forall_forall in H. apply H.
        eapply nth_error_In; eassumption. }
      specialize (Hrange Hon).
      destruct (Z.leb_spec (Booking.dockID b) 2); [lia|].
      destruct (Z.leb_spec (Booking.dockID b) 4); lia. }
    auto. }
  intros T. exact (solar_booking_dock st i b j dk HI Hn T Hd).
Qed.

Lemma menu_bookings_rated_witness :
  Forall fromMenu twoBookings /\
  exists p dk,
    powerOfChargingType 1 = Some p /\
    dockOf (station (run (initWorld 1) twoBookings)) 2 = Some dk /\
    p <= ChargingDock.powerRating dk.
Proof.
  assert (H : Forall fromMenu twoBookings) by (repeat constructor).
  split; [exact H|].
  destruct (menu_bookings_rated 1 twoBookings 1%nat
              (Booking.createBooking 2 1 2 2 1 (F32.of_int 10) (F32.of_int 2) 1) H)
    as (p & dk & H1 & H2 & H3 & _); [vm_compute; reflexivity|].
  exists p, dk. auto.
Defined.

(** ** X23: What a cancellation changes *)

(** X23. In every reachable state an active booking has cost 0 and energy
    0 on record.  Cancelling it switches its flag and frees its dock and
    changes nothing else: the other bookings and docks, the users, the
    vehicles, the hours of the docks and the anchor stay as they are, and
    the booking keeps cost 0 and energy 0, so the penalty told to the user
    is recorded nowhere in the station. *)
Theorem cancelBooking_frame (sID : Z) (ops : list Op) (i : nat) (b : Booking.t) :
  let st := station (run (initWorld sID) ops) in
  nth_error (bookings st) i = Some b ->
  Booking.isActive b = true ->
  let st' := fst (cancelBooking st (Booking.bookingID b)) in
  Booking.cost b = f0 /\ Booking.energyConsumed b = f0 /\
  bookings st' = setAt i (Booking.cancelBooking b) (bookings st) /\
  Booking.cost (Booking.cancelBooking b) = f0 /\
  Booking.energyConsumed (Booking.cancelBooking b) = f0 /\
  (forall k b0, k <> i -> nth_error (bookings st) k = Some b0 ->
                nth_error (bookings st') k = Some b0) /\
  (forall j d, nth_error (docks st) j = Some d ->
     nth_error (docks st') j
     = Some (if ChargingDock.dockID d =? Booking.dockID b
             then ChargingDock.mk (ChargingDock.dockID d) (ChargingDock.powerRating d)
                                  false (-1) (ChargingDock.energySource d)
             else d)) /\
  users st' = users st /\ vehicles st' = vehicles st /\
  totalOccupiedTime st' = totalOccupiedTime st /\
  systemStartTime st' = systemStartTime st /\
  stationID st' = stationID st.
Proof.
  intros st Hn Hact st'.
  pose proof (Inv_run sID ops) as HI. fold st in HI.
  pose proof (unbilled_run sID ops) as HU. fold st in HU. rewrite Forall_forall in HU.
  destruct (HU b (nth_error_In _ _ Hn) Hact) as [Hc He].
  pose proof (findFirst_active _ _ _ HI Hn Hact) as Hf.
  pose proof (cancelBooking_found _ _ _ _ Hf) as Hst.
  subst st'. rewrite Hst. cbn [fst bookings docks users vehicles totalOccupiedTime
                                  systemStartTime stationID set_docks set_bookings].
  split; [assumption|]. split; [assumption|]. split; [reflexivity|].
  split; [assumption|]. split; [assumption|].
  split; [intros k b0 Hk Hb0; rewrite nth_error_setAt_ne; auto|].
  split; [|auto 10].
  intros j d Hd. unfold releaseDock.
  rewrite (nth_error_updateFirst_key ChargingDock.dockID _ _ _ _ _
             (layout_NoDup _ (inv_layout _ HI)) Hd).
  reflexivity.
Qed.

Lemma cancelBooking_frame_witness :
  nth_error (bookings (station (run (initWorld 1) twoBookings))) 1
  = Some (Booking.createBooking 2 1 2 2 1 (F32.of_int 10) (F32.of_int 2) 1) /\
  vehicles (fst (cancelBooking (station (run (initWorld 1) twoBookings)) 2))
  = vehicles (station (run (initWorld 1) twoBookings)).
Proof.
  assert (H : nth_error (bookings (station (run (initWorld 1) twoBookings))) 1
              = Some (Booking.createBooking 2 1 2 2 1 (F32.of_int 10) (F32.of_int 2) 1))
    by (vm_compute; reflexivity).
  split; [exact H|].
  destruct (cancelBooking_frame 1 twoBookings 1%nat _ H eq_refl)
    as (_ & _ & _ & _ & _ & _ & _ & _ & Hv & _).
  exact Hv.
Defined.

(** ** X24: A station with five active bookings *)

(** X24. In every reachable state with five active bookings every dock is
    occupied, [findAvailableDock] answers -1 for every window, power and
    weather, and [createBooking] turns every request down and leaves the
    ledger and the docks as they are: a station never holds more than
    five active bookings, whatever their hours. *)
Theorem station_full (sID : Z) (ops : list Op) :
  let w := run (initWorld sID) ops in
  let st := station w in
  List.length (activeBookings st) = 5%nat ->
  (forall dk, In dk (docks st) -> ChargingDock.isOccupied dk = true) /\
  (forall cw p s d isSolarCharging, findAvailableDock cw st p s d isSolarCharging = -1) /\
  (forall cw uID vID s d p t,
     snd (fst (createBooking cw st uID vID s d p t)) = false /\
     bookings (fst (fst (createBooking cw st uID vID s d p t))) = bookings st /\
     docks (fst (fst (createBooking cw st uID vID s d p t))) = docks st).
Proof.
  intros w st Hfive.
  pose proof (Inv_run sID ops) as HI. pose proof (Occupancy_run sID ops) as HO.
  pose proof (DockLedger_run sID ops) as HD. fold w st in HI, HO, HD.
  destruct (active_occupied st HI HO HD) as [Hcount _].
  assert (Hocc : forall dk, In dk (docks st) -> ChargingDock.isOccupied dk = true).
  { apply filter_all. fold (occupiedDocks st). rewrite <- Hcount, Hfive.
    pose proof (inv_layout _ HI) as Hl. apply (f_equal (@List.length _)) in Hl.
    rewrite length_map in Hl. simpl in Hl. congruence. }
  split; [exact Hocc|]. split.
  - intros cw p s d sol. unfold findAvailableDock.
    rewrite (no_candidate_when_occupied cw st p s d sol Hocc). reflexivity.
  - intros cw uID vID s d p t.
    assert (Hno : snd (fst (createBooking cw st uID vID s d p t)) = false).
    { destruct (snd (fst (createBooking cw st uID vID s d p t))) eqn:Hok; [|reflexivity].
      destruct (createBooking_accepted _ _ _ _ _ _ _ _ Hok) as (_ & Hin & _).
      rewrite suitableDocks_anchored, (no_candidate_when_occupied _ _ _ _ _ _ Hocc) in Hin.
      destruct Hin. }
    split; [exact Hno|]. split; [rewrite bookings_createBooking, Hno; reflexivity|].
    rewrite (createBooking_rejected _ _ _ _ _ _ _ _ Hno).
    destruct (requestValid st uID vID s d); [apply anchored_fields|reflexivity].
Qed.

Lemma station_full_witness :
  List.length (activeBookings (station (run (initWorld 1) fiveBookings))) = 5%nat /\
  snd (fst (createBooking SUNNY (station (run (initWorld 1) fiveBookings))
                          1 1 (F32.of_int 20) (F32.of_int 1) 7 1)) = false.
Proof.
  assert (H : List.length (activeBookings (station (run (initWorld 1) fiveBookings))) = 5%nat)
    by (vm_compute; reflexivity).
  split; [exact H|].
  destruct (station_full 1 fiveBookings H) as (_ & _ & Hc).
  apply (Hc SUNNY 1 1 (F32.of_int 20) (F32.of_int 1) 7 1).
Defined.
